(** * ProLens: local-first storage, backup bundles and the cloud mirror

    A shallow embedding of the data layer of the ProLens course
    application: the browser's key-value flag store (localStorage), the
    embedded document stores (IndexedDB object stores keyed by [id]), the
    optional Firebase mirror, and the handlers that move data between
    them (export, import, registration, upload, delete, mark-analyzed). *)

From Stdlib Require Import Ascii OrdersEx.
From stdpp Require Import base option list strings gmap fin_maps countable pretty sorting.

Set Default Proof Using "Type".
Set Warnings "-register-all".
Open Scope string_scope.
Open Scope list_scope.

(** ** JSON values

    What [JSON.parse] returns and what the stores hold.  Numbers are
    restricted to the safe integers ([Number.isSafeInteger]): those a
    JavaScript number holds exactly, and which [String] prints in full
    decimal notation (the exponent notation starts at 1e21, far
    outside).  An object is its list of properties in insertion order,
    each name occurring once. *)

Definition safe (n : Z) : Prop := (- (2 ^ 53 - 1) <= n <= 2 ^ 53 - 1)%Z.

#[global] Instance safe_dec n : Decision (safe n).
Proof. unfold safe. apply _. Defined.

Definition SafeInteger : Type := dsig safe.

Inductive JSON : Type :=
  | JNull : JSON
  | JBool : bool -> JSON
  | JNum : SafeInteger -> JSON
  | JStr : string -> JSON
  | JArr : list JSON -> JSON
  | JObj : list (string * JSON) -> JSON.

Section JSON_induction.
Variable P : JSON -> Prop.
Hypothesis Hnull : P JNull.
Hypothesis Hbool : forall b, P (JBool b).
Hypothesis Hnum : forall n, P (JNum n).
Hypothesis Hstr : forall s, P (JStr s).
Hypothesis Harr : forall l, Forall P l -> P (JArr l).
Hypothesis Hobj : forall o, Forall (fun kv => P (snd kv)) o -> P (JObj o).

Fixpoint JSON_nested_ind (v : JSON) : P v :=
  match v with
  | JNull => Hnull
  | JBool b => Hbool b
  | JNum n => Hnum n
  | JStr s => Hstr s
  | JArr l =>
      Harr l ((fix go (l : list JSON) : Forall P l :=
                 match l with
                 | [] => Forall_nil_2 P
                 | x :: l' => Forall_cons_2 P x l' (JSON_nested_ind x) (go l')
                 end) l)
  | JObj o =>
      Hobj o ((fix go (o : list (string * JSON))
                 : Forall (fun kv => P (snd kv)) o :=
                 match o with
                 | [] => Forall_nil_2 _
                 | kv :: o' =>
                     Forall_cons_2 (fun kv => P (snd kv)) kv o'
                       (JSON_nested_ind (snd kv)) (go o')
                 end) o)
  end.
End JSON_induction.

(** Equality of JSON values is decidable and the type is countable, so
    that a JSON value can serve as the key of a finite map (an IndexedDB
    key is a number, a string or an array of keys). *)

Definition JSON_leaf : Type := bool + SafeInteger + string.

Fixpoint JSON_to_tree (v : JSON) : gen_tree JSON_leaf :=
  match v with
  | JNull => GenNode 0 []
  | JBool b => GenLeaf (inl (inl b))
  | JNum n => GenLeaf (inl (inr n))
  | JStr s => GenLeaf (inr s)
  | JArr l => GenNode 1 (List.map JSON_to_tree l)
  | JObj o =>
      GenNode 2 (List.map (fun kv => GenNode 3 [GenLeaf (inr (fst kv)); JSON_to_tree (snd kv)]) o)
  end.

Fixpoint JSON_of_tree (t : gen_tree JSON_leaf) : option JSON :=
  match t with
  | GenLeaf (inl (inl b)) => Some (JBool b)
  | GenLeaf (inl (inr n)) => Some (JNum n)
  | GenLeaf (inr s) => Some (JStr s)
  | GenNode 0 _ => Some JNull
  | GenNode 1 ts =>
      JArr <$>
        (fix go (ts : list (gen_tree JSON_leaf)) : option (list JSON) :=
           match ts with
           | [] => Some []
           | t :: ts' =>
               match JSON_of_tree t, go ts' with
               | Some v, Some vs => Some (v :: vs)
               | _, _ => None
               end
           end) ts
  | GenNode 2 ts =>
      JObj <$>
        (fix go (ts : list (gen_tree JSON_leaf)) : option (list (string * JSON)) :=
           match ts with
           | [] => Some []
           | GenNode 3 [GenLeaf (inr k); t] :: ts' =>
               match JSON_of_tree t, go ts' with
               | Some v, Some kvs => Some ((k, v) :: kvs)
               | _, _ => None
               end
           | _ => None
           end) ts
  | GenNode _ _ => None
  end.

Lemma JSON_of_to_tree (v : JSON) : JSON_of_tree (JSON_to_tree v) = Some v.
Proof.
  induction v as [| b | n | s | l IH | o IH] using JSON_nested_ind; try reflexivity.
  - cbn [JSON_to_tree JSON_of_tree].
    induction IH as [| x l Hx _ IHl]; [reflexivity |].
    cbn [List.map]. rewrite Hx.
    cbn [fmap option_fmap option_map] in IHl |- *.
    destruct (_ (List.map JSON_to_tree l)) eqn:E in IHl |- *; [| discriminate].
    injection IHl as ->. reflexivity.
  - cbn [JSON_to_tree JSON_of_tree].
    induction IH as [| [k x] o Hx _ IHo]; [reflexivity |].
    cbn [List.map fst snd] in Hx |- *. rewrite Hx.
    cbn [fmap option_fmap option_map] in IHo |- *.
    destruct (_ (List.map _ o)) eqn:E in IHo |- *; [| discriminate].
    injection IHo as ->. reflexivity.
Qed.

Lemma JSON_to_tree_inj (v w : JSON) : JSON_to_tree v = JSON_to_tree w -> v = w.
Proof.
  intros H. apply (inj Some). by rewrite <- !JSON_of_to_tree, H.
Qed.

#[global] Instance JSON_eq_dec : EqDecision JSON.
Proof.
  intros v w. destruct (decide (JSON_to_tree v = JSON_to_tree w)) as [E | N].
  - left. by apply JSON_to_tree_inj.
  - right. by intros ->.
Defined.

#[global] Instance JSON_countable : Countable JSON :=
  inj_countable JSON_to_tree JSON_of_tree JSON_of_to_tree.

(** ** The JavaScript operations the handlers apply to parsed values *)

(** [if (v)]: [null], [false], [0] and the empty string are falsy, every
    array and object is truthy. *)
Definition truthy (v : JSON) : bool :=
  match v with
  | JNull => false
  | JBool b => b
  | JNum n => negb (proj1_sig n =? 0)%Z
  | JStr s => negb (String.eqb s "")
  | JArr _ | JObj _ => true
  end.

(** A property read [v.k] gives [None] for [undefined]. *)
Fixpoint assoc (k : string) (o : list (string * JSON)) : option JSON :=
  match o with
  | [] => None
  | (k', v) :: o' => if String.eqb k' k then Some v else assoc k o'
  end.

(** [v.k] on a parsed value: reading a property of [null] throws a
    TypeError (the outer [None]); primitives and arrays have none of the
    properties the handlers read. *)
Definition get_prop (v : JSON) (k : string) : option (option JSON) :=
  match v with
  | JNull => None
  | JObj o => Some (assoc k o)
  | _ => Some None
  end.

Definition join (sep : string) (l : list string) : string :=
  match l with
  | [] => ""
  | s :: l' => fold_left (fun acc t => acc +:+ sep +:+ t) l' s
  end.

(** [String(v)], the conversion [localStorage.setItem] applies to its
    value argument. *)
Fixpoint ToString (v : JSON) : string :=
  match v with
  | JNull => "null"
  | JBool true => "true"
  | JBool false => "false"
  | JNum n => pretty (proj1_sig n)
  | JStr s => s
  | JArr l =>
      join "," (List.map (fun x => match x with JNull => "" | _ => ToString x end) l)
  | JObj _ => "[object Object]"
  end.

(** [Array.isArray(v)] together with the elements. *)
Definition as_array (v : JSON) : option (list JSON) :=
  match v with
  | JArr l => Some l
  | _ => None
  end.

(** The spread [[...v]]: an array gives its elements and a string its
    characters, one string each; nothing else is iterable, and the
    spread throws. *)
Definition spread (v : JSON) : option (list JSON) :=
  match v with
  | JArr l => Some l
  | JStr s => Some (List.map (fun c => JStr (String c EmptyString))
                      (String.list_ascii_of_string s))
  | _ => None
  end.

(** [localStorage.getItem] yields a string or [null]. *)
Definition of_item (o : option string) : JSON :=
  match o with
  | Some s => JStr s
  | None => JNull
  end.

(** ** Key-Value Flag Store (localStorage) *)

Abbreviation LocalStorage := (gmap string string).

Definition getItem (k : string) (ls : LocalStorage) : option string := ls !! k.
Definition setItem (k v : string) (ls : LocalStorage) : LocalStorage := <[k := v]> ls.
Definition removeItem (k : string) (ls : LocalStorage) : LocalStorage := delete k ls.

(** ** Local Document Store (an IndexedDB object store with keyPath 'id')

    A store maps the key found at [id] to the record.  [put] is
    insert-or-replace; a record without a valid key at [id] makes the
    [put] call itself throw a DataError. *)

Abbreviation Store := (gmap JSON JSON).

Fixpoint valid_key (k : JSON) : bool :=
  match k with
  | JNum _ | JStr _ => true
  | JArr l => forallb valid_key l
  | _ => false
  end.

Definition key_of (record : JSON) : option JSON :=
  match record with
  | JObj o =>
      match assoc "id" o with
      | Some k => if valid_key k then Some k else None
      | None => None
      end
  | _ => None
  end.

Definition put (record : JSON) (s : Store) : option Store :=
  k ← key_of record; Some (<[k := record]> s).

Definition delete_key (k : JSON) (s : Store) : Store := delete k s.

Definition clear (s : Store) : Store := ∅.

(** The order of keys: a number comes before a string and a string
    before an array; numbers go by value, strings by their code units,
    arrays element by element, a proper prefix first. *)
Definition key_rank (k : JSON) : nat :=
  match k with
  | JNum _ => 0
  | JStr _ => 1
  | JArr _ => 2
  | _ => 3
  end.

Definition lex_compare {A} (cmp : A -> A -> comparison) : list A -> list A -> comparison :=
  fix go (l l' : list A) : comparison :=
    match l, l' with
    | [], [] => Eq
    | [], _ :: _ => Lt
    | _ :: _, [] => Gt
    | x :: l, y :: l' =>
        match cmp x y with
        | Eq => go l l'
        | c => c
        end
    end.

(** What makes a comparison an order, seen from one element: turning
    the arguments round turns the result round, equals compare alike
    on either side, and smaller-than carries on. *)
Definition ordered_at {A} (cmp : A -> A -> comparison) (x : A) : Prop :=
  (forall y, cmp y x = CompOpp (cmp x y)) /\
  (forall y z, cmp x y = Eq -> cmp x z = cmp y z) /\
  (forall y z, cmp y z = Eq -> cmp x y = cmp x z) /\
  (forall y z, cmp x y = Lt -> cmp y z = Lt -> cmp x z = Lt).

Fixpoint key_compare (a b : JSON) : comparison :=
  match a, b with
  | JNum m, JNum n => (proj1_sig m ?= proj1_sig n)%Z
  | JStr s, JStr t => String_as_OT.compare s t
  | JArr l, JArr l' => lex_compare key_compare l l'
  | _, _ => Nat.compare (key_rank a) (key_rank b)
  end.

Definition key_le (a b : JSON) : Prop := key_compare a b <> Gt.

#[global] Instance key_le_dec a b : Decision (key_le a b).
Proof. unfold key_le. apply _. Defined.

(** The records of a store with their keys, in ascending order of the
    keys. *)
Definition entries (s : Store) : list (JSON * JSON) :=
  merge_sort (fun x y => key_le x.1 y.1) (map_to_list s).

(** [getAll()]: every record, in ascending order of the keys. *)
Definition getAll (s : Store) : list JSON := (entries s).*2.

(** Every record of a store sits under its own key. *)
Definition keyed (s : Store) : Prop :=
  forall k r, s !! k = Some r -> key_of r = Some k.

(** *** Transactions

    The [put] calls of a script are validated when they are made and
    queued as requests; the requests run afterwards, in order.  A
    request the engine refuses (quota) has no handler in the import
    code, so its error aborts the transaction, which undoes every
    change made through it; otherwise the transaction commits. *)

Definition Request : Type := JSON * JSON.

(** The [for … store.put(item)] loop: the requests queued, and whether
    a [put] threw. *)
Fixpoint issue_puts (items : list JSON) : list Request * bool :=
  match items with
  | [] => ([], false)
  | item :: rest =>
      match key_of item with
      | None => ([], true)
      | Some k => let '(q, threw) := issue_puts rest in ((k, item) :: q, threw)
      end
  end.

Fixpoint run_requests (accepts : JSON -> bool) (q : list Request) (work : Store)
  : option Store :=
  match q with
  | [] => Some work
  | (k, r) :: q' =>
      if accepts r then run_requests accepts q' (<[k := r]> work) else None
  end.

(** The store a list of requests leaves when all of them are carried out. *)
Definition apply_requests (q : list Request) (work : Store) : Store :=
  foldl (fun s kr => <[kr.1 := kr.2]> s) work q.

(** [store.clear()] followed by [store.put(item)] for each item (a
    record that cannot be keyed is passed over). *)
Definition put_each (items : list JSON) : Store :=
  foldl (fun s item => default s (put item s)) ∅ items.

(** ** The platform's JSON codec

    [JSON.parse] (which throws on malformed text: [None]) and
    [JSON.stringify] are taken as given. *)

Class JSONCodec : Type := {
  JSON_parse : string -> option JSON;
  JSON_stringify : JSON -> string
}.

(** Parsing what was serialised gives the value back, and no value is
    serialised to the empty text (as [JSON.parse] and [JSON.stringify]
    do on the values modelled here). *)
Definition faithful (codec : JSONCodec) : Prop :=
  (forall v : JSON, JSON_parse (JSON_stringify v) = Some v) /\
  (forall v : JSON, JSON_stringify v <> "").

(** ** Handlers as state transformers

    An async handler either returns, throws (or rejects), or waits on a
    promise nobody settles. *)

Inductive Res (A : Type) : Type :=
  | Ok : A -> Res A
  | Throw : Res A
  | Pending : Res A.
Arguments Ok {A} _.
Arguments Throw {A}.
Arguments Pending {A}.

Definition M (S A : Type) : Type := S -> Res A * S.

#[global] Instance M_ret {S} : MRet (M S) := fun A a s => (Ok a, s).

#[global] Instance M_bind {S} : MBind (M S) := fun A B f m s =>
  match m s with
  | (Ok a, s') => f a s'
  | (Throw, s') => (Throw, s')
  | (Pending, s') => (Pending, s')
  end.

Definition throw {S A} : M S A := fun s => (Throw, s).
Definition pending {S A} : M S A := fun s => (Pending, s).
Definition modify {S} (f : S -> S) : M S unit := fun s => (Ok tt, f s).
Definition gets {S A} (f : S -> A) : M S A := fun s => (Ok (f s), s).

(** [try { m } catch { h }] *)
Definition try_catch {S A} (m : M S A) (h : M S A) : M S A := fun s =>
  match m s with
  | (Throw, s') => h s'
  | r => r
  end.

(** [try { m } finally { f }]: [f] runs once [m] has returned or
    thrown. *)
Definition finally {S A} (m : M S A) (f : S -> S) : M S A := fun s =>
  match m s with
  | (Pending, s') => (Pending, s')
  | (r, s') => (r, f s')
  end.

(** [if (c) m] *)
Definition when {S} (c : bool) (m : M S unit) : M S unit :=
  if c then m else mret tt.

(** [for (const x of l) body(x)] *)
Fixpoint for_each {S A} (l : list A) (body : A -> M S unit) : M S unit :=
  match l with
  | [] => mret tt
  | x :: l' => body x ;; for_each l' body
  end.

(** ** Messages shown to the user and console entries *)

Inductive Alert : Type :=
  | SyncFileDownloaded        (* StudentSyncModal: the sync file was downloaded *)
  | SyncExportFailed          (* StudentSyncModal: error creating the sync file *)
  | SyncCompleted             (* StudentSyncModal: sync completed, the page reloads *)
  | SyncFileInvalid           (* StudentSyncModal: the sync file is not valid *)
  | BackupExportFailed        (* AdminDashboard: error creating the backup *)
  | RestoreCompleted          (* AdminDashboard: restore completed, the page reloads *)
  | BackupFileInvalid         (* AdminDashboard: backup file invalid or too large *)
  | BackupReadError           (* AdminDashboard: error reading the file *)
  | NameAndPhoneRequired      (* AdminDashboard: name and phone are mandatory *)
  | StudentAdded              (* AdminDashboard: the student was added *)
  | TooLargeForLocal (name : string)
                              (* LearningBox: too large to save locally (max 15MB) *)
  | DeleteFailed              (* LearningBox: error deleting the file *)
  | PresentationTooLarge      (* CourseRegistration: too large (max 50MB) *)
  | PresentationSaveFailed    (* CourseRegistration: error saving the file *)
  | PresentationReadError     (* CourseRegistration: error reading the file *)
  | LauncherReminder.         (* AdminDashboard: the WhatsApp window is open, remember
                                 to drag the launcher file into the chat *)

Inductive Log : Type :=
  | BackupFailedLog
  | RestoreFailedLog
  | AutoSaveRegistrationFailedLog
  | ErrorSavingFileLog
  | FailedToDeleteLog
  | StorageDeleteErrorLog.

#[global] Instance Alert_eq_dec : EqDecision Alert.
Proof. solve_decision. Defined.
#[global] Instance Log_eq_dec : EqDecision Log.
Proof. solve_decision. Defined.

(** ** The page the backup handlers run in *)

(** A read-write transaction on the materials store: whether [clear]
    has run, the queued [put] requests, and whether an [oncomplete]
    handler was installed. *)
#[projections(primitive)] Record Tx : Type := {
  tx_cleared : bool;
  tx_queue : list Request;
  tx_oncomplete : bool
}.

#[projections(primitive)] Record Page : Type := {
  flags : LocalStorage;         (* localStorage *)
  materials_db : Store;         (* ProLensDB / materials, committed contents *)
  tx : option Tx;               (* the transaction the handler has open *)
  alerts : list Alert;          (* in the order shown *)
  console : list Log;
  reloaded : bool;              (* window.location.reload() was called *)
  isRestoring : bool;
  registrations : JSON          (* AdminDashboard's [registrations] state *)
}.

(** What the browser does to the stores while the handler runs. *)
Record IDBEnv : Type := {
  idb_opens : bool;             (* indexedDB.open succeeds *)
  idb_reads : bool;             (* the getAll request succeeds *)
  idb_clears : bool;            (* the clear request succeeds *)
  idb_accepts : JSON -> bool    (* the put request for this record succeeds *)
}.

Definition set_flags (f : LocalStorage -> LocalStorage) (p : Page) : Page :=
  {| flags := f (flags p); materials_db := materials_db p; tx := tx p;
     alerts := alerts p; console := console p; reloaded := reloaded p;
     isRestoring := isRestoring p; registrations := registrations p |}.

Definition set_materials_db (s : Store) (p : Page) : Page :=
  {| flags := flags p; materials_db := s; tx := tx p;
     alerts := alerts p; console := console p; reloaded := reloaded p;
     isRestoring := isRestoring p; registrations := registrations p |}.

Definition set_tx (t : option Tx) (p : Page) : Page :=
  {| flags := flags p; materials_db := materials_db p; tx := t;
     alerts := alerts p; console := console p; reloaded := reloaded p;
     isRestoring := isRestoring p; registrations := registrations p |}.

Definition add_alert (a : Alert) (p : Page) : Page :=
  {| flags := flags p; materials_db := materials_db p; tx := tx p;
     alerts := alerts p ++ [a]; console := console p; reloaded := reloaded p;
     isRestoring := isRestoring p; registrations := registrations p |}.

Definition add_console (l : Log) (p : Page) : Page :=
  {| flags := flags p; materials_db := materials_db p; tx := tx p;
     alerts := alerts p; console := console p ++ [l]; reloaded := reloaded p;
     isRestoring := isRestoring p; registrations := registrations p |}.

Definition set_reloaded (p : Page) : Page :=
  {| flags := flags p; materials_db := materials_db p; tx := tx p;
     alerts := alerts p; console := console p; reloaded := true;
     isRestoring := isRestoring p; registrations := registrations p |}.

Definition setIsRestoring (b : bool) (p : Page) : Page :=
  {| flags := flags p; materials_db := materials_db p; tx := tx p;
     alerts := alerts p; console := console p; reloaded := reloaded p;
     isRestoring := b; registrations := registrations p |}.

Definition setRegistrations (v : JSON) (p : Page) : Page :=
  {| flags := flags p; materials_db := materials_db p; tx := tx p;
     alerts := alerts p; console := console p; reloaded := reloaded p;
     isRestoring := isRestoring p; registrations := v |}.

(** A page at rest: no transaction open, nothing shown yet. *)
Definition page (ls : LocalStorage) (s : Store) : Page :=
  {| flags := ls; materials_db := s; tx := None; alerts := []; console := [];
     reloaded := false; isRestoring := false; registrations := JArr [] |}.

Section PageOps.
Context {codec : JSONCodec}.

(** [JSON.parse(content)] *)
Definition parse (content : string) : M Page JSON := fun p =>
  match JSON_parse content with
  | Some v => (Ok v, p)
  | None => (Throw, p)
  end.

(** [data.field] *)
Definition prop (data : JSON) (field : string) : M Page (option JSON) := fun p =>
  match get_prop data field with
  | Some v => (Ok v, p)
  | None => (Throw, p)
  end.

(** [if (data.field) localStorage.setItem(key, data.field)] *)
Definition restore_flag (data : JSON) (field key : string) : M Page unit :=
  v ← prop data field;
  match v with
  | Some x => when (truthy x) (modify (set_flags (setItem key (ToString x))))
  | None => mret tt
  end.

(** [const db = await openDB(); const tx = db.transaction(STORE_NAME,
    'readwrite'); const store = tx.objectStore(STORE_NAME)] *)
Definition open_readwrite (env : IDBEnv) : M Page unit :=
  if idb_opens env
  then modify (set_tx (Some {| tx_cleared := false; tx_queue := []; tx_oncomplete := false |}))
  else throw.

(** [await new Promise((resolve, reject) => { const clearReq =
    store.clear(); … })]: a failed clear rejects, and its error aborts
    the transaction. *)
Definition await_clear (env : IDBEnv) : M Page unit := fun p =>
  match tx p with
  | Some t =>
      if idb_clears env
      then (Ok tt, set_tx (Some {| tx_cleared := true; tx_queue := tx_queue t;
                                   tx_oncomplete := tx_oncomplete t |}) p)
      else (Throw, set_tx None p)
  | None => (Throw, p)
  end.

(** [store.put(item)] *)
Definition store_put (item : JSON) : M Page unit := fun p =>
  match tx p, key_of item with
  | Some t, Some k =>
      (Ok tt, set_tx (Some {| tx_cleared := tx_cleared t;
                              tx_queue := tx_queue t ++ [(k, item)];
                              tx_oncomplete := tx_oncomplete t |}) p)
  | _, _ => (Throw, p)
  end.

(** [tx.oncomplete = () => { alert(…); window.location.reload(); }] *)
Definition set_oncomplete : M Page unit := fun p =>
  match tx p with
  | Some t =>
      (Ok tt, set_tx (Some {| tx_cleared := tx_cleared t; tx_queue := tx_queue t;
                              tx_oncomplete := true |}) p)
  | None => (Throw, p)
  end.

(** [if (data.materials && Array.isArray(data.materials))
      for (const item of data.materials) store.put(item)] *)
Definition put_materials (data : JSON) : M Page unit :=
  m ← prop data "materials";
  match m with
  | Some (JArr items) => for_each items store_put
  | _ => mret tt
  end.

(** Once the handler has returned, the browser runs the queued
    requests and settles the transaction: commit (and [oncomplete],
    if installed) or abort. *)
Definition settle (env : IDBEnv) (done : Alert) (p : Page) : Page :=
  match tx p with
  | None => p
  | Some t =>
      let start := if tx_cleared t then clear (materials_db p) else materials_db p in
      match run_requests (idb_accepts env) (tx_queue t) start with
      | Some s' =>
          let p' := set_tx None (set_materials_db s' p) in
          if tx_oncomplete t then set_reloaded (add_alert done p') else p'
      | None => set_tx None p
      end
  end.
End PageOps.

(** *** What an import comes to

    The handlers above, written out by cases.  [prop_of] is [data.field]
    for a [data] that is not [null]. *)

Definition prop_of (data : JSON) (field : string) : option JSON :=
  match data with
  | JObj o => assoc field o
  | _ => None
  end.

Definition restored (v : option JSON) (key : string) (ls : LocalStorage) : LocalStorage :=
  match v with
  | Some x => if truthy x then setItem key (ToString x) ls else ls
  | None => ls
  end.

Definition materials_of (data : JSON) : list JSON :=
  match prop_of data "materials" with
  | Some (JArr items) => items
  | _ => []
  end.

(** The part of both import handlers that follows the flag writes. *)
Definition restore_materials {codec : JSONCodec} (env : IDBEnv) (data : JSON) : M Page unit :=
  open_readwrite env;; await_clear env;; put_materials data;; set_oncomplete.

(** The [catch] block. *)
Definition failed (fail : Alert) (p : Page) : Page :=
  setIsRestoring false (add_alert fail (add_console RestoreFailedLog p)).

(** The page an import leaves once the flags are written ([p1]). *)
Definition outcome (env : IDBEnv) (fail done : Alert) (data : JSON) (p1 : Page) : Page :=
  if idb_opens env then
    if idb_clears env then
      let '(q, threw) := issue_puts (materials_of data) in
      match run_requests (idb_accepts env) q ∅ with
      | Some s =>
          if threw then set_tx None (set_materials_db s (failed fail p1))
          else set_reloaded (add_alert done (set_tx None (set_materials_db s p1)))
      | None => set_tx None (if threw then failed fail p1 else p1)
      end
    else set_tx None (failed fail p1)
  else failed fail p1.

(** The flags a student sync leaves. *)
Definition student_flags (data : JSON) (ls : LocalStorage) : LocalStorage :=
  setItem "prolens_user_role" "student"
    (restored (prop_of data "myRegistration") "prolens_my_registration"
       (restored (prop_of data "completedTopics") "prolens_completed_topics"
          (restored (prop_of data "messages") "prolens_messages"
             (restored (prop_of data "profile") "prolens_student_profile" ls)))).

(** The flags and the registrations state an admin restore leaves. *)
Definition admin_flags (data : JSON) (ls : LocalStorage) : LocalStorage :=
  restored (prop_of data "completedTopics") "prolens_completed_topics"
    (restored (prop_of data "messages") "prolens_messages"
       (restored (prop_of data "announcement") "prolens_announcement" ls)).

Definition admin_registrations {codec : JSONCodec} (data : JSON) (p1 : Page) : Page :=
  match prop_of data "registrations" with
  | Some x =>
      if truthy x
      then setRegistrations x
             (set_flags (setItem "prolens_registrations" (JSON_stringify x)) p1)
      else p1
  | None => p1
  end.

Definition admin_restored {codec : JSONCodec} (data : JSON) (p : Page) : Page :=
  admin_registrations data (set_flags (admin_flags data) p).

(** The bundle fields an import reads and the flag key each one is
    written to; a key is unnamed by a bundle that carries none of its
    fields. *)
Definition student_fields : list (string * string) :=
  [ ("profile", "prolens_student_profile"); ("messages", "prolens_messages");
    ("completedTopics", "prolens_completed_topics");
    ("myRegistration", "prolens_my_registration") ].

Definition admin_fields : list (string * string) :=
  [ ("announcement", "prolens_announcement"); ("messages", "prolens_messages");
    ("completedTopics", "prolens_completed_topics");
    ("registrations", "prolens_registrations") ].

Definition unnamed (fields : list (string * string)) (bundle : JSON) (key : string) : Prop :=
  forall field, (field, key) ∈ fields -> prop_of bundle field = None.

Definition named (fields : list (string * string)) (bundle : JSON) (key : string) : Prop :=
  exists field x, (field, key) ∈ fields /\ prop_of bundle field = Some x.

(** An environment in which the store opens, reads, clears, and takes
    every record. *)
Definition willing : IDBEnv :=
  {| idb_opens := true; idb_reads := true; idb_clears := true;
     idb_accepts := fun _ => true |}.

(** What the file input hands to an import handler. *)
Inductive Selected : Type :=
  | NoFile                      (* [event.target.files?.[0]] is undefined *)
  | Unreadable                  (* the FileReader fails *)
  | Text (content : string).    (* the FileReader delivers the text *)

(** ** StudentSyncModal: device-to-device sync *)

Module StudentSyncModal.
Section Handlers.
Context {codec : JSONCodec}.

(** The object [handleExport] serialises. *)
Definition syncData (timestamp : string) (p : Page) : JSON :=
  JObj [ ("timestamp", JStr timestamp);
         ("profile", of_item (getItem "prolens_student_profile" (flags p)));
         ("messages", of_item (getItem "prolens_messages" (flags p)));
         ("completedTopics", of_item (getItem "prolens_completed_topics" (flags p)));
         ("myRegistration", of_item (getItem "prolens_my_registration" (flags p)));
         ("materials", JArr (getAll (materials_db p))) ].

(** [handleExport]: the result is the text of the downloaded file. *)
Definition handleExport (env : IDBEnv) (timestamp : string) : M Page (option string) :=
  try_catch
    (when (negb (idb_opens env)) throw;;
     when (negb (idb_reads env)) throw;;
     data ← gets (syncData timestamp);
     let jsonString := JSON_stringify data in
     modify (add_alert SyncFileDownloaded);;
     mret (Some jsonString))
    (modify (add_console BackupFailedLog);;
     modify (add_alert SyncExportFailed);;
     mret None).

(** The [reader.onload] callback of [handleImport], followed by the
    settling of its transaction. *)
Definition onload (env : IDBEnv) (content : string) (p : Page) : Page :=
  let script : M Page unit :=
    try_catch
      (syncData ← parse content;
       restore_flag syncData "profile" "prolens_student_profile";;
       restore_flag syncData "messages" "prolens_messages";;
       restore_flag syncData "completedTopics" "prolens_completed_topics";;
       restore_flag syncData "myRegistration" "prolens_my_registration";;
       modify (set_flags (setItem "prolens_user_role" "student"));;
       open_readwrite env;;
       await_clear env;;
       put_materials syncData;;
       set_oncomplete)
      (modify (add_console RestoreFailedLog);;
       modify (add_alert SyncFileInvalid);;
       modify (setIsRestoring false)) in
  settle env SyncCompleted (script p).2.

Definition handleImport (env : IDBEnv) (file : Selected) (confirmed : bool)
    (p : Page) : Page :=
  match file with
  | NoFile => p
  | _ =>
      if confirmed then
        let p := setIsRestoring true p in
        match file with
        | Text content => onload env content p
        | _ => p
        end
      else p
  end.
End Handlers.
End StudentSyncModal.

(** ** Registrations *)

Record Registration : Type := {
  reg_id : string;
  reg_date : string;
  reg_fullName : string;
  reg_email : string;
  reg_phone : string;
  reg_level : string;
  reg_status : string           (* 'pending' | 'contacted' *)
}.

Definition Registration_to_JSON (r : Registration) : JSON :=
  JObj [ ("id", JStr (reg_id r)); ("date", JStr (reg_date r));
         ("fullName", JStr (reg_fullName r)); ("email", JStr (reg_email r));
         ("phone", JStr (reg_phone r)); ("level", JStr (reg_level r));
         ("status", JStr (reg_status r)) ].

(** [regs.some(r => r.phone === phone)]; reading [phone] off a [null]
    entry throws ([None]). *)
Fixpoint some_phone (phone : string) (regs : list JSON) : option bool :=
  match regs with
  | [] => Some false
  | r :: regs' =>
      match get_prop r "phone" with
      | None => None
      | Some (Some (JStr s)) => if String.eqb s phone then Some true else some_phone phone regs'
      | Some _ => some_phone phone regs'
      end
  end.

(** The number of entries carrying a phone number. *)
Definition count_phone (phone : string) (regs : list JSON) : nat :=
  length (List.filter (fun r => bool_decide (get_prop r "phone" = Some (Some (JStr phone)))) regs).

(** The registrations list as the handlers read it off the flag store:
    a missing or empty value stands for the empty list. *)
Definition registrations_list {codec : JSONCodec} (ls : LocalStorage) : option (list JSON) :=
  match getItem "prolens_registrations" ls with
  | Some s => if String.eqb s "" then Some [] else JSON_parse s ≫= as_array
  | None => Some []
  end.

(** ** AdminDashboard: full backup and manual registrations *)

Module AdminDashboard.
Section Handlers.
Context {codec : JSONCodec}.

(** [JSON.parse(localStorage.getItem('prolens_registrations') || '[]')] *)
Definition stored_registrations : M Page JSON := fun p =>
  match getItem "prolens_registrations" (flags p) with
  | Some s => if String.eqb s "" then (Ok (JArr []), p) else parse s p
  | None => (Ok (JArr []), p)
  end.

Definition backupData (timestamp : string) (regs : JSON) (p : Page) : JSON :=
  JObj [ ("timestamp", JStr timestamp);
         ("announcement", of_item (getItem "prolens_announcement" (flags p)));
         ("messages", of_item (getItem "prolens_messages" (flags p)));
         ("completedTopics", of_item (getItem "prolens_completed_topics" (flags p)));
         ("registrations", regs);
         ("materials", JArr (getAll (materials_db p))) ].

Definition handleExportBackup (env : IDBEnv) (timestamp : string)
    : M Page (option string) :=
  try_catch
    (regs ← stored_registrations;
     when (negb (idb_opens env)) throw;;
     when (negb (idb_reads env)) throw;;
     data ← gets (backupData timestamp regs);
     mret (Some (JSON_stringify data)))
    (modify (add_console BackupFailedLog);;
     modify (add_alert BackupExportFailed);;
     mret None).

(** [if (backupData.registrations) { localStorage.setItem(…,
    JSON.stringify(backupData.registrations)); setRegistrations(…) }] *)
Definition restore_registrations (data : JSON) : M Page unit :=
  v ← prop data "registrations";
  match v with
  | Some x =>
      when (truthy x)
        (modify (set_flags (setItem "prolens_registrations" (JSON_stringify x)));;
         modify (setRegistrations x))
  | None => mret tt
  end.

Definition onload (env : IDBEnv) (content : string) (p : Page) : Page :=
  let script : M Page unit :=
    try_catch
      (backupData ← parse content;
       restore_flag backupData "announcement" "prolens_announcement";;
       restore_flag backupData "messages" "prolens_messages";;
       restore_flag backupData "completedTopics" "prolens_completed_topics";;
       restore_registrations backupData;;
       open_readwrite env;;
       await_clear env;;
       put_materials backupData;;
       set_oncomplete)
      (modify (add_console RestoreFailedLog);;
       modify (add_alert BackupFileInvalid);;
       modify (setIsRestoring false)) in
  settle env RestoreCompleted (script p).2.

(** [handleImportBackup]; [proceed] answers the confirmation asked
    for files above 100MB. *)
Definition handleImportBackup (env : IDBEnv) (file : Selected) (fileSize : N)
    (proceed : bool) (p : Page) : Page :=
  match file with
  | NoFile => p
  | _ =>
      if ((100 * 1024 * 1024 <? fileSize)%N && negb proceed)%bool then p
      else
        let p := setIsRestoring true p in
        match file with
        | Text content => onload env content p
        | _ => setIsRestoring false (add_alert BackupReadError p)
        end
  end.

Record ManualReg : Type := {
  name : string;
  phone : string;
  email : string
}.

Definition newReg (manualReg : ManualReg) (now : Z) (today : string) : JSON :=
  JObj [ ("id", JStr (pretty now)); ("date", JStr today);
         ("fullName", JStr (name manualReg)); ("phone", JStr (phone manualReg));
         ("email", JStr (email manualReg)); ("level", JStr "manual");
         ("status", JStr "pending") ].

(** [addManualRegistration].  The [registrations] state is typed as
    an array, but a restored backup or a stored flag can put any JSON
    value there: [[...registrations, newReg]] spreads it. *)
Definition addManualRegistration (manualReg : ManualReg) (now : Z) (today : string)
    : M Page unit :=
  if (String.eqb (name manualReg) "" || String.eqb (phone manualReg) "")%bool
  then modify (add_alert NameAndPhoneRequired)
  else
    regs ← gets registrations;
    match spread regs with
    | None => throw
    | Some l =>
        let updatedRegs := JArr (l ++ [newReg manualReg now today]) in
        modify (setRegistrations updatedRegs);;
        modify (set_flags (setItem "prolens_registrations" (JSON_stringify updatedRegs)));;
        modify (add_alert StudentAdded)
    end.
End Handlers.
End AdminDashboard.


(** ** LoginScreen: self-registration *)

Module LoginScreen.
Section Handlers.
Context {codec : JSONCodec}.

Record RegData : Type := {
  fullName : string;
  email : string;
  phone : string;
  level : string
}.

Definition newReg (regData : RegData) (now : Z) (today : string) : Registration :=
  {| reg_id := pretty now; reg_date := today; reg_fullName := fullName regData;
     reg_email := email regData; reg_phone := phone regData;
     reg_level := level regData; reg_status := "pending" |}.

(** The second [try] block of [handleRegistration]. *)
Definition auto_add (reg : Registration) : M Page unit :=
  existingRegsStr ← gets (fun p => getItem "prolens_registrations" (flags p));
  existingRegs ←
    match existingRegsStr with
    | Some s => if String.eqb s "" then mret (JArr []) else parse s
    | None => mret (JArr [])
    end;
  match as_array existingRegs with
  | None => throw               (* [.some] is not a function *)
  | Some l =>
      match some_phone (reg_phone reg) l with
      | None => throw
      | Some true => mret tt
      | Some false =>
          let updatedRegs := JArr (l ++ [Registration_to_JSON reg]) in
          modify (set_flags (setItem "prolens_registrations" (JSON_stringify updatedRegs)))
      end
  end.

Definition handleRegistration (regData : RegData) (now : Z) (today : string)
    (p : Page) : Page :=
  let reg := newReg regData now today in
  let p1 := set_flags (setItem "prolens_my_registration"
                         (JSON_stringify (Registration_to_JSON reg))) p in
  (try_catch (auto_add reg) (modify (add_console AutoSaveRegistrationFailedLog)) p1).2.
End Handlers.
End LoginScreen.

(** ** The two import handlers side by side *)

Inductive Importer : Type := StudentSync | AdminRestore.

Definition fields_of (h : Importer) : list (string * string) :=
  match h with
  | StudentSync => student_fields
  | AdminRestore => admin_fields
  end.

Definition failure_alert (h : Importer) : Alert :=
  match h with
  | StudentSync => SyncFileInvalid
  | AdminRestore => BackupFileInvalid
  end.

(** The string stored for a field that is restored. *)
Definition written {codec : JSONCodec} (h : Importer) (field : string) (x : JSON) : string :=
  match h with
  | StudentSync => ToString x
  | AdminRestore =>
      if String.eqb field "registrations" then JSON_stringify x else ToString x
  end.

(** The user picks a readable file and answers every confirmation
    with yes. *)
Definition import {codec : JSONCodec} (h : Importer) (env : IDBEnv) (content : string)
    (p : Page) : Page :=
  match h with
  | StudentSync => StudentSyncModal.handleImport env (Text content) true p
  | AdminRestore =>
      AdminDashboard.handleImportBackup env (Text content)
        (N.of_nat (String.length content)) true p
  end.

(** Export, then import of the downloaded file, in one session. *)
Definition export_then_import {codec : JSONCodec} (env : IDBEnv) (timestamp : string)
    (p : Page) : Page :=
  match StudentSyncModal.handleExport env timestamp p with
  | (Ok (Some file), p1) => StudentSyncModal.handleImport env (Text file) true p1
  | (_, p1) => p1
  end.

(** ** Learning materials and files *)

Inductive MaterialType : Type := text | image | audio | video.

Record LearningMaterial : Type := {
  m_id : string;
  m_type : MaterialType;
  m_name : string;
  m_content : string;           (* data URL, plain text, or a remote object URL *)
  m_mimeType : option string;
  m_isAnalyzed : option bool    (* [isAnalyzed?: boolean] *)
}.

#[global] Instance MaterialType_eq_dec : EqDecision MaterialType.
Proof. solve_decision. Defined.
#[global] Instance LearningMaterial_eq_dec : EqDecision LearningMaterial.
Proof. solve_decision. Defined.

(** [!m.isAnalyzed] is false only for [true]. *)
Definition analyzed (m : LearningMaterial) : bool :=
  match m_isAnalyzed m with
  | Some b => b
  | None => false
  end.

(** [{...m, isAnalyzed: b}] *)
Definition with_isAnalyzed (b : bool) (m : LearningMaterial) : LearningMaterial :=
  {| m_id := m_id m; m_type := m_type m; m_name := m_name m;
     m_content := m_content m; m_mimeType := m_mimeType m;
     m_isAnalyzed := Some b |}.

Definition MaterialType_to_string (t : MaterialType) : string :=
  match t with
  | text => "text" | image => "image" | audio => "audio" | video => "video"
  end.

Definition optional (k : string) (v : option JSON) : list (string * JSON) :=
  match v with
  | Some x => [(k, x)]
  | None => []
  end.

(** The record as the stores hold it, without its [id]. *)
Definition material_data (m : LearningMaterial) : list (string * JSON) :=
  [ ("name", JStr (m_name m)); ("type", JStr (MaterialType_to_string (m_type m)));
    ("content", JStr (m_content m)) ]
  ++ optional "mimeType" (JStr <$> m_mimeType m)
  ++ optional "isAnalyzed" (JBool <$> m_isAnalyzed m).

Definition LearningMaterial_to_JSON (m : LearningMaterial) : JSON :=
  JObj (("id", JStr (m_id m)) :: material_data m).

(** The [isAnalyzed] flag of a stored record. *)
Definition record_analyzed (r : JSON) : bool :=
  match get_prop r "isAnalyzed" with
  | Some (Some v) => truthy v
  | _ => false
  end.

Record File : Type := {
  file_name : string;
  file_size : N;                (* bytes *)
  file_type : string            (* MIME type *)
}.

(** [file.type.startsWith('image/') ? 'image' : …] *)
Definition type_of_file (file : File) : MaterialType :=
  if String.prefix "image/" (file_type file) then image
  else if String.prefix "audio/" (file_type file) then audio
  else if String.prefix "video/" (file_type file) then video
  else text.

(** [s.includes(t)] *)
Fixpoint includes (s t : string) : bool :=
  String.prefix t s ||
  match s with
  | EmptyString => false
  | String _ s' => includes s' t
  end.

(** ** The world the LearningBox runs in *)

Inductive CloudCall : Type :=
  | UploadFileToCloud (file : File)
  | AddMaterialToCloud (material : JSON)
  | DeleteMaterialFromCloud (id : string) (fileUrl : option string)
  | UpdateMaterialAnalysis (id : string) (isAnalyzed : bool).

(** The SDK operations that reached the backend. *)
Inductive Remote : Type :=
  | DeleteDoc (id : string)
  | DeleteObject (url : string).

Inductive SaveStatus : Type := idle | saving | saved | error.

#[projections(primitive)] Record World : Type := {
  local_db : Store;                     (* ProLensDB / materials *)
  cloud_docs : gmap string JSON;        (* Firestore collection 'materials' *)
  cloud_blobs : gset string;            (* Storage objects, by download URL *)
  cloud_calls : list CloudCall;         (* Cloud Mirror functions invoked, in order *)
  remote_ops : list Remote;             (* deletions carried out, in order *)
  materials : list LearningMaterial;    (* the component's [materials] state *)
  shown : list Alert;
  logged : list Log;
  saveStatus : SaveStatus;
  ai_requests : list (list LearningMaterial)   (* materials sent to the AI Gateway *)
}.

Definition set_local_db (f : Store -> Store) (w : World) : World :=
  {| local_db := f (local_db w); cloud_docs := cloud_docs w; cloud_blobs := cloud_blobs w;
     cloud_calls := cloud_calls w; remote_ops := remote_ops w; materials := materials w;
     shown := shown w; logged := logged w; saveStatus := saveStatus w;
     ai_requests := ai_requests w |}.

Definition set_cloud_docs (f : gmap string JSON -> gmap string JSON) (w : World) : World :=
  {| local_db := local_db w; cloud_docs := f (cloud_docs w); cloud_blobs := cloud_blobs w;
     cloud_calls := cloud_calls w; remote_ops := remote_ops w; materials := materials w;
     shown := shown w; logged := logged w; saveStatus := saveStatus w;
     ai_requests := ai_requests w |}.

Definition set_cloud_blobs (f : gset string -> gset string) (w : World) : World :=
  {| local_db := local_db w; cloud_docs := cloud_docs w; cloud_blobs := f (cloud_blobs w);
     cloud_calls := cloud_calls w; remote_ops := remote_ops w; materials := materials w;
     shown := shown w; logged := logged w; saveStatus := saveStatus w;
     ai_requests := ai_requests w |}.

Definition call (c : CloudCall) (w : World) : World :=
  {| local_db := local_db w; cloud_docs := cloud_docs w; cloud_blobs := cloud_blobs w;
     cloud_calls := cloud_calls w ++ [c]; remote_ops := remote_ops w;
     materials := materials w; shown := shown w; logged := logged w;
     saveStatus := saveStatus w; ai_requests := ai_requests w |}.

Definition remote (r : Remote) (w : World) : World :=
  {| local_db := local_db w; cloud_docs := cloud_docs w; cloud_blobs := cloud_blobs w;
     cloud_calls := cloud_calls w; remote_ops := remote_ops w ++ [r];
     materials := materials w; shown := shown w; logged := logged w;
     saveStatus := saveStatus w; ai_requests := ai_requests w |}.

Definition setMaterials (f : list LearningMaterial -> list LearningMaterial)
    (w : World) : World :=
  {| local_db := local_db w; cloud_docs := cloud_docs w; cloud_blobs := cloud_blobs w;
     cloud_calls := cloud_calls w; remote_ops := remote_ops w;
     materials := f (materials w); shown := shown w; logged := logged w;
     saveStatus := saveStatus w; ai_requests := ai_requests w |}.

Definition alert (a : Alert) (w : World) : World :=
  {| local_db := local_db w; cloud_docs := cloud_docs w; cloud_blobs := cloud_blobs w;
     cloud_calls := cloud_calls w; remote_ops := remote_ops w; materials := materials w;
     shown := shown w ++ [a]; logged := logged w; saveStatus := saveStatus w;
     ai_requests := ai_requests w |}.

Definition console_error (l : Log) (w : World) : World :=
  {| local_db := local_db w; cloud_docs := cloud_docs w; cloud_blobs := cloud_blobs w;
     cloud_calls := cloud_calls w; remote_ops := remote_ops w; materials := materials w;
     shown := shown w; logged := logged w ++ [l]; saveStatus := saveStatus w;
     ai_requests := ai_requests w |}.

Definition setSaveStatus (s : SaveStatus) (w : World) : World :=
  {| local_db := local_db w; cloud_docs := cloud_docs w; cloud_blobs := cloud_blobs w;
     cloud_calls := cloud_calls w; remote_ops := remote_ops w; materials := materials w;
     shown := shown w; logged := logged w; saveStatus := s;
     ai_requests := ai_requests w |}.

Definition ai_request (ms : list LearningMaterial) (w : World) : World :=
  {| local_db := local_db w; cloud_docs := cloud_docs w; cloud_blobs := cloud_blobs w;
     cloud_calls := cloud_calls w; remote_ops := remote_ops w; materials := materials w;
     shown := shown w; logged := logged w; saveStatus := saveStatus w;
     ai_requests := ai_requests w ++ [ms] |}.

(** [await p] for a promise whose fate the environment decides. *)
Definition await {S} (outcome : Res unit) : M S unit := fun s => (outcome, s).

(** A call that is not awaited: its effects happen, its result is
    dropped. *)
Definition detached {S A} (m : M S A) : M S unit := fun s => (Ok tt, (m s).2).

(** [{...o, k: v}] *)
Fixpoint set_prop (k : string) (v : JSON) (o : list (string * JSON))
  : list (string * JSON) :=
  match o with
  | [] => [(k, v)]
  | (k', v') :: o' =>
      if String.eqb k' k then (k, v) :: o' else (k', v') :: set_prop k v o'
  end.

(** ** Lists of records, as the tables filter and map them *)

(** [r.id === id] for a string [id]: only an object carries an [id];
    reading it off a [null] entry throws ([None]). *)
Definition has_id (id : string) (r : JSON) : option bool :=
  match get_prop r "id" with
  | None => None
  | Some (Some (JStr s)) => Some (String.eqb s id)
  | Some _ => Some false
  end.

(** [{...r, status: 'contacted'}] (applied to entries that carry an
    [id], which are objects). *)
Definition contacted (r : JSON) : JSON :=
  match r with
  | JObj o => JObj (set_prop "status" (JStr "contacted") o)
  | _ => r
  end.

(** [regs.map(r => r.id === id ? {...r, status: 'contacted'} : r)] *)
Fixpoint mark_contacted (id : string) (regs : list JSON) : option (list JSON) :=
  match regs with
  | [] => Some []
  | r :: regs' =>
      b ← has_id id r;
      rest ← mark_contacted id regs';
      Some ((if b : bool then contacted r else r) :: rest)
  end.

(** [regs.filter(r => r.id !== id)] *)
Fixpoint without_id (id : string) (regs : list JSON) : option (list JSON) :=
  match regs with
  | [] => Some []
  | r :: regs' =>
      b ← has_id id r;
      rest ← without_id id regs';
      Some (if b : bool then rest else r :: rest)
  end.

(** ** Text, as the forms clean it

    A string is a sequence of code units, of which the model has the
    first 256. *)

(** [/\D/]: a code unit that is not one of 0-9. *)
Definition is_digit (c : ascii) : bool :=
  (48 <=? nat_of_ascii c)%nat && (nat_of_ascii c <=? 57)%nat.

(** [s.replace(/\D/g, '')] *)
Fixpoint digits_only (s : string) : string :=
  match s with
  | EmptyString => EmptyString
  | String c s' => if is_digit c then String c (digits_only s') else digits_only s'
  end.

(** The white space and line terminators [trim] strips: tab, line
    feed, vertical tab, form feed, carriage return, space and the
    no-break space. *)
Definition is_space (c : ascii) : bool :=
  let n := nat_of_ascii c in
  ((9 <=? n)%nat && (n <=? 13)%nat) || (n =? 32)%nat || (n =? 160)%nat.

Fixpoint trimStart (s : string) : string :=
  match s with
  | EmptyString => EmptyString
  | String c s' => if is_space c then trimStart s' else s
  end.

Fixpoint trimEnd (s : string) : string :=
  match s with
  | EmptyString => EmptyString
  | String c s' =>
      match trimEnd s' with
      | EmptyString => if is_space c then EmptyString else String c EmptyString
      | t => String c t
      end
  end.

(** [s.trim()] *)
Definition trim (s : string) : string := trimEnd (trimStart s).

(** ** services/firebase: the Cloud Mirror *)

Module firebase.

Definition isFirebaseConfigured (apiKey : string) : bool :=
  negb (String.eqb apiKey "YOUR_API_KEY_HERE").

(** The module-level handles [db] and [storage]: defined when the
    configuration is in place and initialisation did not throw. *)
Record Handles : Type := {
  db : bool;
  storage : bool
}.

(** The module's initialisation: [initializes] says whether the SDK
    calls inside the [try] go through. *)
Definition init (apiKey : string) (initializes : bool) : Handles :=
  if (isFirebaseConfigured apiKey && initializes)%bool
  then {| db := true; storage := true |}
  else {| db := false; storage := false |}.

(** [uploadFileToCloud]; [url] is what the upload and
    [getDownloadURL] produce, [None] when either rejects. *)
Definition uploadFileToCloud (h : Handles) (file : File) (url : option string)
    : M World string :=
  modify (call (UploadFileToCloud file));;
  if storage h then
    match url with
    | Some u => modify (set_cloud_blobs (union {[ u ]}));; mret u
    | None => throw
    end
  else throw.

(** [addMaterialToCloud]; [docId] is the id the server assigns,
    [None] when [addDoc] rejects.  The [createdAt] server timestamp
    is left out of the stored document. *)
Definition addMaterialToCloud (h : Handles) (material : list (string * JSON))
    (docId : option string) : M World unit :=
  modify (call (AddMaterialToCloud (JObj material)));;
  if db h then
    match docId with
    | Some i => modify (set_cloud_docs (insert i (JObj material)))
    | None => throw
    end
  else throw.

(** [deleteMaterialFromCloud]; [docDeleted] and [blobDeleted] say
    whether [deleteDoc] and [deleteObject] resolve. *)
Definition deleteMaterialFromCloud (h : Handles) (id : string)
    (fileUrl : option string) (docDeleted blobDeleted : bool) : M World unit :=
  modify (call (DeleteMaterialFromCloud id fileUrl));;
  if db h then
    (* 1. Delete from Firestore *)
    (if docDeleted
     then modify (remote (DeleteDoc id));; modify (set_cloud_docs (delete id))
     else throw);;
    (* 2. Delete from Storage if it's a file *)
    match fileUrl with
    | Some url =>
        when (negb (String.eqb url "") && includes url "firebasestorage" && storage h)
          (try_catch
             (if blobDeleted
              then modify (remote (DeleteObject url));;
                   modify (set_cloud_blobs (fun b => b ∖ {[ url ]}))
              else throw)
             (modify (console_error StorageDeleteErrorLog)))
    | None => mret tt
    end
  else throw.

(** [updateMaterialAnalysis]; [updated] says whether [updateDoc]
    resolves (it also rejects for a document that does not exist). *)
Definition updateMaterialAnalysis (h : Handles) (id : string) (isAnalyzed : bool)
    (updated : bool) : M World unit :=
  modify (call (UpdateMaterialAnalysis id isAnalyzed));;
  if db h then
    w ← gets cloud_docs;
    match w !! id with
    | Some (JObj o) =>
        if updated
        then modify (set_cloud_docs (insert id (JObj (set_prop "isAnalyzed" (JBool isAnalyzed) o))))
        else throw
    | _ => throw
    end
  else mret tt.

End firebase.

(** ** LearningBox: the material write paths *)

Module LearningBox.
Import firebase.

(** What the environment decides while one file is processed. *)
Record Ambient : Type := {
  now : Z;                    (* Date.now(): a time value, printed in full *)
  random : string;            (* Math.random(), as appended to the id *)
  dataURL : option string;    (* readFileAsBase64; [None] when the reader fails *)
  url : option string;        (* the upload's download URL; [None] when it rejects *)
  docId : option string;      (* the id addDoc assigns; [None] when it rejects *)
  stored : Res unit           (* the fate of the local write *)
}.

(** What the environment decides for the calls made per material. *)
Record Fate : Type := {
  updates : string -> bool;           (* updateDoc on this id resolves *)
  saves : LearningMaterial -> Res unit;
  deletes : string -> Res unit;
  docDeleted : string -> bool;
  blobDeleted : string -> bool
}.

Definition TOPICS : list string :=
  [ "dslr-structure"; "portrait"; "landscape"; "lighting"; "architecture"; "macro" ].

(** [saveMaterialToLocalDB]: the promise resolves on [tx.oncomplete]
    and is never rejected by a failing transaction; a failing open
    rejects. *)
Definition saveMaterialToLocalDB (material : LearningMaterial) (fate : Res unit)
    : M World unit := fun w =>
  match fate with
  | Ok _ =>
      match put (LearningMaterial_to_JSON material) (local_db w) with
      | Some s => (Ok tt, set_local_db (fun _ => s) w)
      | None => (Throw, w)
      end
  | Throw => (Throw, w)
  | Pending => (Pending, w)
  end.

Definition deleteMaterialFromLocalDB (id : string) (fate : Res unit) : M World unit :=
  match fate with
  | Ok _ => modify (set_local_db (delete_key (JStr id)))
  | Throw => throw
  | Pending => pending
  end.

(** [materialsToMark.some(tm => tm.id === m.id)] *)
Definition to_mark (materialsToMark : list LearningMaterial) (m : LearningMaterial) : bool :=
  existsb (fun tm => String.eqb (m_id tm) (m_id m)) materialsToMark.

(** [markMaterialsAsAnalyzed]; [materials] is the state the closure
    captured. *)
Definition markMaterialsAsAnalyzed (isCloudConfigured : bool) (h : Handles)
    (fate : Fate) (materials : list LearningMaterial)
    (materialsToMark : list LearningMaterial) : M World unit :=
  if isCloudConfigured then
    for_each materialsToMark (fun m =>
      when (negb (analyzed m))
        (updateMaterialAnalysis h (m_id m) true (updates fate (m_id m))))
  else
    (* Local mode - update in state and DB *)
    let updated :=
      List.map (fun m => if to_mark materialsToMark m then with_isAnalyzed true m else m)
        materials in
    modify (setMaterials (fun _ => updated));;
    for_each materialsToMark (fun m =>
      saveMaterialToLocalDB (with_isAnalyzed true m) (saves fate (with_isAnalyzed true m))).

(** [handleAssignmentSubmission], without its chat messages. *)
Definition handleAssignmentSubmission (isCloudConfigured : bool) (h : Handles)
    (fate : Fate) (materials : list LearningMaterial)
    (currentMaterials : list LearningMaterial) : M World unit :=
  modify (ai_request currentMaterials);;
  markMaterialsAsAnalyzed isCloudConfigured h fate materials currentMaterials.

(** [handleSend] for a message that is sent (non-empty text, no
    request in flight), without its chat messages. *)
Definition handleSend (isCloudConfigured : bool) (h : Handles) (fate : Fate)
    (materials : list LearningMaterial) : M World unit :=
  modify (ai_request materials);;
  markMaterialsAsAnalyzed isCloudConfigured h fate materials materials.

(** [handleTopicLearn], without its chat messages: only the text
    materials go to the AI Gateway and are marked. *)
Definition handleTopicLearn (isCloudConfigured : bool) (h : Handles) (fate : Fate)
    (materials : list LearningMaterial) : M World unit :=
  let lightMaterials :=
    List.filter (fun m => bool_decide (m_type m = text)) materials in
  modify (ai_request lightMaterials);;
  markMaterialsAsAnalyzed isCloudConfigured h fate materials lightMaterials.

(** [handleResetProgress], as far as the materials go; [opened] says
    whether [openDB] resolves. *)
Definition handleResetProgress (isCloudConfigured : bool) (confirmed clearFiles opened : bool)
    : M World unit :=
  when confirmed
    (when (negb isCloudConfigured && clearFiles)
       (if opened
        then modify (set_local_db clear);; modify (setMaterials (fun _ => []))
        else throw)).

(** The body of the [try] block of [processFiles] for one file: the
    materials it pushes onto [newMaterials]. *)
Definition process_file (isCloudConfigured : bool) (h : Handles) (file : File)
    (amb : Ambient) : M World (list LearningMaterial) :=
  if isCloudConfigured then
    (* Cloud Upload *)
    downloadURL ← uploadFileToCloud h file (url amb);
    let materialData :=
      {| m_id := "temp_" +:+ pretty (now amb); m_name := file_name file;
         m_type := type_of_file file; m_content := downloadURL;
         m_mimeType := Some (file_type file); m_isAnalyzed := Some false |} in
    addMaterialToCloud h (material_data materialData) (docId amb);;
    mret [materialData]
  else
    (* Local Save *)
    if (15 * 1024 * 1024 <? file_size file)%N then
      modify (alert (TooLargeForLocal (file_name file)));;
      mret []
    else
      base64Content ← (match dataURL amb with Some c => mret c | None => throw end);
      let materialData :=
        {| m_id := pretty (now amb) +:+ random amb; m_name := file_name file;
           m_type := type_of_file file; m_content := base64Content;
           m_mimeType := Some (file_type file); m_isAnalyzed := Some false |} in
      saveMaterialToLocalDB materialData (stored amb);;
      modify (setMaterials (fun prev => materialData :: prev));;
      mret [materialData].

(** The [for (const file of files)] loop with its [hasError] and
    [newMaterials] variables. *)
Fixpoint process_loop (isCloudConfigured : bool) (h : Handles)
    (files : list (File * Ambient)) (hasError : bool)
    (newMaterials : list LearningMaterial)
    : M World (bool * list LearningMaterial) :=
  match files with
  | [] => mret (hasError, newMaterials)
  | (file, amb) :: rest =>
      '(failed, pushed) ← try_catch
            (pushed ← process_file isCloudConfigured h file amb; mret (false, pushed))
            (modify (console_error ErrorSavingFileLog);; mret (true, []));
      process_loop isCloudConfigured h rest (hasError || failed) (newMaterials ++ pushed)
  end.

(** [processFiles]; [materials] is the state the closure captured. *)
Definition processFiles (isCloudConfigured : bool) (h : Handles) (fate : Fate)
    (materials : list LearningMaterial) (activeAssignmentTopic : option string)
    (files : list (File * Ambient)) (isAssignment : bool) : M World unit :=
  modify (setSaveStatus saving);;
  '(hasError, newMaterials) ← process_loop isCloudConfigured h files false [];
  modify (setSaveStatus (if hasError : bool then error else saved));;
  match activeAssignmentTopic with
  | Some topic =>
      when (isAssignment && negb (String.eqb topic "") && bool_decide (topic ∈ TOPICS))
        (detached (handleAssignmentSubmission isCloudConfigured h fate materials newMaterials))
  | None => mret tt
  end.

(** [removeMaterial] *)
Definition removeMaterial (isCloudConfigured : bool) (h : Handles) (fate : Fate)
    (id contentUrl : string) (confirmed : bool) : M World unit :=
  when confirmed
    (try_catch
       (if isCloudConfigured then
          deleteMaterialFromCloud h id (Some contentUrl)
            (docDeleted fate id) (blobDeleted fate contentUrl)
        else
          deleteMaterialFromLocalDB id (deletes fate id);;
          modify (setMaterials (List.filter (fun m => negb (String.eqb (m_id m) id)))))
       (modify (console_error FailedToDeleteLog);;
        modify (alert DeleteFailed))).

(** The component's [isCloudConfigured] state: [false] until the
    mount effect has stored [isFirebaseConfigured()]. *)
Definition isCloudConfigured (apiKey : string) (mounted : bool) : bool :=
  if mounted then isFirebaseConfigured apiKey else false.

(** The events of the component. *)
Inductive Event : Type :=
  | Upload (files : list (File * Ambient)) (isAssignment : bool)
      (activeAssignmentTopic : option string)
  | Remove (id contentUrl : string) (confirmed : bool)
  | Send
  | TopicLearn
  | ResetProgress (confirmed clearFiles opened : bool).

(** A handler is the closure of the render it was created in: the
    [materials] it reads are those of that render, [snapshot], the list
    now on screen or an earlier one (a handler still running, a click
    that came before the next render). *)
Definition handle (cloud : bool) (h : Handles) (fate : Fate)
    (snapshot : list LearningMaterial) (e : Event) : M World unit :=
  match e with
  | Upload files isAssignment topic =>
      processFiles cloud h fate snapshot topic files isAssignment
  | Remove id contentUrl confirmed =>
      removeMaterial cloud h fate id contentUrl confirmed
  | Send => handleSend cloud h fate snapshot
  | TopicLearn => handleTopicLearn cloud h fate snapshot
  | ResetProgress confirmed clearFiles opened =>
      handleResetProgress cloud confirmed clearFiles opened
  end.

(** *** Topics and the quiz *)

(** [toggleTopicCompletion]: the updater it hands to
    [setCompletedTopics]. *)
Definition toggleTopicCompletion (id : string) (prev : list string) : list string :=
  if bool_decide (id ∈ prev)
  then List.filter (fun t => negb (String.eqb t id)) prev
  else prev ++ [id].

Record ActiveQuiz : Type := {
  topicId : string;
  correctAnswerIndex : Z
}.

Inductive QuizFeedback : Type := correct | incorrect.

#[projections(primitive)] Record Quiz : Type := {
  activeQuiz : option ActiveQuiz;
  quizFeedback : option QuizFeedback;
  completedTopics : list string
}.

Definition setQuizFeedback (f : option QuizFeedback) (q : Quiz) : Quiz :=
  {| activeQuiz := activeQuiz q; quizFeedback := f;
     completedTopics := completedTopics q |}.

Definition setCompletedTopics (f : list string -> list string) (q : Quiz) : Quiz :=
  {| activeQuiz := activeQuiz q; quizFeedback := quizFeedback q;
     completedTopics := f (completedTopics q) |}.

(** [handleQuizAnswer]: the state after the click and the callback
    handed to [setTimeout], if any.  The callback reads [activeQuiz]
    and [completedTopics] of the render the click happened in. *)
Definition handleQuizAnswer (index : Z) (q : Quiz) : Quiz * option (Quiz -> Quiz) :=
  match activeQuiz q with
  | None => (q, None)
  | Some quiz =>
      if (index =? correctAnswerIndex quiz)%Z then
        (setQuizFeedback (Some correct) q,
         Some (fun later =>
                 if bool_decide (topicId quiz ∈ completedTopics q) then later
                 else setCompletedTopics (toggleTopicCompletion (topicId quiz)) later))
      else (setQuizFeedback (Some incorrect) q, None)
  end.

End LearningBox.

(** ** CourseRegistration: presentations *)

Module CourseRegistration.

#[projections(primitive)] Record Course : Type := {
  presentations_db : Store;       (* ProLensContentDB / presentations *)
  presentations : list JSON;      (* the component's state *)
  course_alerts : list Alert;
  course_console : list Log;
  isUploading : bool
}.

Record Ambient : Type := {
  now : Z;                        (* Date.now(): a time value, printed in full *)
  today : string;                 (* new Date().toLocaleDateString('he-IL') *)
  dataURL : option string;        (* readAsDataURL; [None] when the reader fails *)
  stored : Res unit               (* the fate of saveToDB *)
}.

Definition set_db (s : Store) (c : Course) : Course :=
  {| presentations_db := s; presentations := presentations c;
     course_alerts := course_alerts c; course_console := course_console c;
     isUploading := isUploading c |}.

Definition setPresentations (f : list JSON -> list JSON) (c : Course) : Course :=
  {| presentations_db := presentations_db c; presentations := f (presentations c);
     course_alerts := course_alerts c; course_console := course_console c;
     isUploading := isUploading c |}.

Definition alert (a : Alert) (c : Course) : Course :=
  {| presentations_db := presentations_db c; presentations := presentations c;
     course_alerts := course_alerts c ++ [a]; course_console := course_console c;
     isUploading := isUploading c |}.

Definition console_error (l : Log) (c : Course) : Course :=
  {| presentations_db := presentations_db c; presentations := presentations c;
     course_alerts := course_alerts c; course_console := course_console c ++ [l];
     isUploading := isUploading c |}.

Definition setIsUploading (b : bool) (c : Course) : Course :=
  {| presentations_db := presentations_db c; presentations := presentations c;
     course_alerts := course_alerts c; course_console := course_console c;
     isUploading := b |}.

(** [saveToDB]: rejected by [tx.onerror], resolved by [tx.oncomplete]. *)
Definition saveToDB (doc : JSON) (fate : Res unit) : M Course unit := fun c =>
  match fate with
  | Ok _ =>
      match put doc (presentations_db c) with
      | Some s => (Ok tt, set_db s c)
      | None => (Throw, c)
      end
  | Throw => (Throw, c)
  | Pending => (Pending, c)
  end.

Definition newDoc (file : File) (amb : Ambient) (content : string) : JSON :=
  JObj [ ("id", JStr (pretty (now amb))); ("name", JStr (file_name file));
         ("type", JStr (file_type file)); ("date", JStr (today amb));
         ("content", JStr content) ].

(** [handleFileChange] with its [reader.onload] / [reader.onerror]
    callbacks. *)
Definition handleFileChange (file : option File) (amb : Ambient) : M Course unit :=
  match file with
  | None => mret tt
  | Some file =>
      if (50 * 1024 * 1024 <? file_size file)%N then
        modify (alert PresentationTooLarge)
      else
        modify (setIsUploading true);;
        match dataURL amb with
        | Some content =>
            finally
              (try_catch
                 (saveToDB (newDoc file amb content) (stored amb);;
                  modify (setPresentations (fun prev => prev ++ [newDoc file amb content])))
                 (modify (console_error ErrorSavingFileLog);;
                  modify (alert PresentationSaveFailed)))
              (setIsUploading false)
        | None =>
            modify (alert PresentationReadError);;
            modify (setIsUploading false)
        end
  end.

(** [deleteFromDB]: rejected by a failing open and by [tx.onerror],
    resolved by [tx.oncomplete]. *)
Definition deleteFromDB (id : string) (fate : Res unit) : M Course unit :=
  match fate with
  | Ok _ => modify (fun c => set_db (delete_key (JStr id) (presentations_db c)) c)
  | Throw => throw
  | Pending => pending
  end.

(** [setPresentations(prev => prev.filter(p => p.id !== id))]; an
    updater that throws does so when the component renders, outside
    the [try] of the handler that queued it. *)
Definition drop_presentation (id : string) : M Course unit := fun c =>
  match without_id id (presentations c) with
  | Some rest => (Ok tt, setPresentations (fun _ => rest) c)
  | None => (Throw, c)
  end.

(** [handleDelete] *)
Definition handleDelete (id : string) (confirmed : bool) (fate : Res unit)
    : M Course unit :=
  when confirmed
    (deleted ← try_catch
        (deleteFromDB id fate;; mret true)
        (modify (alert DeleteFailed);; mret false);
     when deleted (drop_presentation id)).

End CourseRegistration.

(** ** AdminDashboard: the file checker *)

Module FileChecker.

Inductive Status : Type := safe | warning | danger.

(** The [fileCheckResult] state.  [sizeMB] is [bytes / (1024 * 1024)],
    a division by a power of two, which floating point carries out
    exactly: comparing [sizeMB] with 25 and 15 is comparing [bytes]
    with that many times [MB].  The message shown is fixed by the
    status. *)
Record FileCheckResult : Type := {
  name : string;
  bytes : N;
  status : Status
}.

Definition MB : N := 1024 * 1024.

(** [handleCheckFile], from the state before to the state after. *)
Definition handleCheckFile (file : option File)
    (fileCheckResult : option FileCheckResult) : option FileCheckResult :=
  match file with
  | None => fileCheckResult
  | Some file =>
      let status :=
        if (25 * MB <? file_size file)%N then danger
        else if (15 * MB <? file_size file)%N then warning
        else safe in
      Some {| name := file_name file; bytes := file_size file; status := status |}
  end.

End FileChecker.

(** ** AdminDashboard: the registrations table *)

Module RegistrationsTable.
Section Handlers.
Context {codec : JSONCodec}.

(** What a handler hands to [window.open]: a [mailto:] link to the
    address, or a [wa.me] link to the number. *)
Inductive Opened : Type :=
  | Mailto (email : string)
  | WhatsApp (phone : string).

(** The mount effect, as far as the registrations go:
    [if (savedRegs) setRegistrations(JSON.parse(savedRegs))] *)
Definition load_registrations : M Page unit :=
  savedRegs ← gets (fun p => getItem "prolens_registrations" (flags p));
  match savedRegs with
  | Some s =>
      if String.eqb s "" then mret tt
      else v ← parse s; modify (setRegistrations v)
  | None => mret tt
  end.

(** The mount effect from the student profile on:
    [if (savedStudent) setCurrentStudent(JSON.parse(savedStudent))]
    comes first, so a stored profile that does not parse makes the
    effect throw before the registrations are read ([currentStudent]
    itself is not part of the page modelled here). *)
Definition mount : M Page unit :=
  savedStudent ← gets (fun p => getItem "prolens_student_profile" (flags p));
  match savedStudent with
  | Some s => if String.eqb s "" then mret tt else (_ ← parse s; mret tt)
  | None => mret tt
  end;;
  load_registrations.

(** [setRegistrations(updatedRegs);
     localStorage.setItem('prolens_registrations', JSON.stringify(updatedRegs))] *)
Definition store_registrations (updatedRegs : list JSON) : M Page unit :=
  modify (setRegistrations (JArr updatedRegs));;
  modify (set_flags (setItem "prolens_registrations" (JSON_stringify (JArr updatedRegs)))).

(** The statements both welcome handlers share; [registrations.map]
    on a state that is no array throws. *)
Definition mark_as_contacted (id : string) : M Page unit :=
  regs ← gets registrations;
  match as_array regs ≫= mark_contacted id with
  | None => throw
  | Some updatedRegs => store_registrations updatedRegs
  end.

(** [sendWelcomeEmail] *)
Definition sendWelcomeEmail (reg : Registration) : M Page Opened :=
  mark_as_contacted (reg_id reg);;
  mret (Mailto (reg_email reg)).

(** [let phone = reg.phone.replace(/\D/g, '');
     if (phone.startsWith('0')) phone = '972' + phone.substring(1)] *)
Definition whatsapp_phone (phone : string) : string :=
  match digits_only phone with
  | String c rest =>
      if Ascii.eqb c "0" then "972" +:+ rest else String c rest
  | EmptyString => EmptyString
  end.

(** [sendWelcomeWhatsApp] *)
Definition sendWelcomeWhatsApp (reg : Registration) : M Page Opened :=
  let phone := whatsapp_phone (reg_phone reg) in
  (* Mark as contacted *)
  mark_as_contacted (reg_id reg);;
  (* window.open(url, '_blank'), then the alert *)
  modify (add_alert LauncherReminder);;
  mret (WhatsApp phone).

(** [deleteRegistration] *)
Definition deleteRegistration (id : string) (confirmed : bool) : M Page unit :=
  when confirmed
    (regs ← gets registrations;
     match as_array regs ≫= without_id id with
     | None => throw
     | Some updatedRegs => store_registrations updatedRegs
     end).
End Handlers.
End RegistrationsTable.

(** ** App and LoginScreen: the session *)

Inductive View : Type :=
  HOME | SIMULATOR | CRITIQUE | CHAT | LEARNING_BOX | REGISTRATION | ADMIN.

Inductive Role : Type := student | admin.

Definition Role_to_string (role : Role) : string :=
  match role with
  | student => "student"
  | admin => "admin"
  end.

Record StudentProfile : Type := {
  profile_name : string;
  profile_phone : string
}.

Definition StudentProfile_to_JSON (d : StudentProfile) : JSON :=
  JObj [ ("name", JStr (profile_name d)); ("phone", JStr (profile_phone d)) ].

(** The texts of LoginScreen's [error] state. *)
Inductive LoginError : Type :=
  | NoError                   (* '' *)
  | InvalidName               (* please enter a valid full name *)
  | ResetActivated            (* reset mode is on, create a new password *)
  | PasswordTooShort          (* the password needs at least 4 characters *)
  | WrongPassword
  | LoginFailed.              (* error while logging in *)

#[projections(primitive)] Record Session : Type := {
  localStorage : LocalStorage;
  userRole : option Role;           (* App *)
  studentProfile : JSON;            (* App; [JNull] for [null] *)
  currentView : View;               (* App *)
  isSetupMode : bool;               (* LoginScreen *)
  password : string;                (* LoginScreen: the admin password field *)
  loginError : LoginError           (* LoginScreen: [error] *)
}.

Definition set_localStorage (f : LocalStorage -> LocalStorage) (s : Session) : Session :=
  {| localStorage := f (localStorage s); userRole := userRole s;
     studentProfile := studentProfile s; currentView := currentView s;
     isSetupMode := isSetupMode s; password := password s;
     loginError := loginError s |}.

Definition setUserRole (r : option Role) (s : Session) : Session :=
  {| localStorage := localStorage s; userRole := r;
     studentProfile := studentProfile s; currentView := currentView s;
     isSetupMode := isSetupMode s; password := password s;
     loginError := loginError s |}.

Definition setStudentProfile (v : JSON) (s : Session) : Session :=
  {| localStorage := localStorage s; userRole := userRole s;
     studentProfile := v; currentView := currentView s;
     isSetupMode := isSetupMode s; password := password s;
     loginError := loginError s |}.

Definition setCurrentView (v : View) (s : Session) : Session :=
  {| localStorage := localStorage s; userRole := userRole s;
     studentProfile := studentProfile s; currentView := v;
     isSetupMode := isSetupMode s; password := password s;
     loginError := loginError s |}.

Definition setIsSetupMode (b : bool) (s : Session) : Session :=
  {| localStorage := localStorage s; userRole := userRole s;
     studentProfile := studentProfile s; currentView := currentView s;
     isSetupMode := b; password := password s; loginError := loginError s |}.

Definition setPassword (pw : string) (s : Session) : Session :=
  {| localStorage := localStorage s; userRole := userRole s;
     studentProfile := studentProfile s; currentView := currentView s;
     isSetupMode := isSetupMode s; password := pw; loginError := loginError s |}.

Definition setError (e : LoginError) (s : Session) : Session :=
  {| localStorage := localStorage s; userRole := userRole s;
     studentProfile := studentProfile s; currentView := currentView s;
     isSetupMode := isSetupMode s; password := password s; loginError := e |}.

(** A page load: the component state starts afresh over the
    localStorage that is there. *)
Definition loaded (ls : LocalStorage) : Session :=
  {| localStorage := ls; userRole := None; studentProfile := JNull;
     currentView := HOME; isSetupMode := false; password := "";
     loginError := NoError |}.

Module App.
Section Handlers.
Context {codec : JSONCodec}.

(** The effect that persists the login over a refresh. *)
Definition restore_login : M Session unit :=
  storedRole ← gets (fun s => getItem "prolens_user_role" (localStorage s));
  storedProfile ← gets (fun s => getItem "prolens_student_profile" (localStorage s));
  match storedRole with
  | Some r =>
      if String.eqb r "student" then
        modify (setUserRole (Some student));;
        match storedProfile with
        | Some profile =>
            if String.eqb profile "" then mret tt
            else
              match JSON_parse profile with
              | Some v => modify (setStudentProfile v)
              | None => throw
              end
        | None => mret tt
        end
      else if String.eqb r "admin" then modify (setUserRole (Some admin))
      else mret tt
  | None => mret tt
  end.

(** [handleLogin] *)
Definition handleLogin (role : Role) (studentData : option StudentProfile)
    : M Session unit :=
  modify (setUserRole (Some role));;
  modify (set_localStorage (setItem "prolens_user_role" (Role_to_string role)));;
  match role, studentData with
  | student, Some d =>
      modify (setStudentProfile (StudentProfile_to_JSON d));;
      modify (set_localStorage
                (setItem "prolens_student_profile"
                   (JSON_stringify (StudentProfile_to_JSON d))))
  | _, _ => mret tt
  end.

(** [handleLogout] *)
Definition handleLogout : M Session unit :=
  modify (setUserRole None);;
  modify (setStudentProfile JNull);;
  modify (setCurrentView HOME);;
  modify (set_localStorage (removeItem "prolens_user_role"));;
  modify (set_localStorage (removeItem "prolens_student_profile")).
End Handlers.
End App.

(** ** LoginScreen: logging in *)

Module Login.
Section Handlers.
(** The [onLogin] prop. *)
Variable onLogin : Role -> option StudentProfile -> M Session unit.

Definition MASTER_CODE : string := "admin1234".

(** The mount effect, as far as the password goes:
    [setIsSetupMode(!stored)] *)
Definition mount : M Session unit :=
  stored ← gets (fun s => getItem "prolens_admin_password" (localStorage s));
  modify (setIsSetupMode (negb (truthy (of_item stored)))).

(** [handleStudentLogin] *)
Definition handleStudentLogin (studentName studentPhone : string) : M Session unit :=
  if (String.length (trim studentName) <? 2)%nat
  then modify (setError InvalidName)
  else onLogin student
         (Some {| profile_name := studentName; profile_phone := studentPhone |}).

(** [handleAdminLogin] *)
Definition handleAdminLogin : M Session unit :=
  modify (setError NoError);;
  try_catch
    (password ← gets password;
     (* 1. Reset Command *)
     if (String.eqb password "reset" || String.eqb password "creator")%bool then
       modify (set_localStorage (removeItem "prolens_admin_password"));;
       modify (setIsSetupMode true);;
       modify (setError ResetActivated);;
       modify (setPassword "")
     (* 2. Master Code Check (Always works) *)
     else if String.eqb password MASTER_CODE then
       modify (set_localStorage (setItem "prolens_admin_password" MASTER_CODE));;
       onLogin admin None
     (* 3. Standard Login Flow *)
     else
       setup ← gets isSetupMode;
       if setup : bool then
         if (String.length password <? 4)%nat
         then modify (setError PasswordTooShort)
         else
           modify (set_localStorage (setItem "prolens_admin_password" password));;
           onLogin admin None
       else
         stored ← gets (fun s => getItem "prolens_admin_password" (localStorage s));
         if bool_decide (stored = Some password)
         then onLogin admin None
         else modify (setError WrongPassword))
    (modify (setError LoginFailed)).
End Handlers.
End Login.

(** ** services/geminiService: the conversation sent along *)

Module geminiService.

Inductive Speaker : Type := user | model.

Record Message : Type := {
  msg_id : string;
  msg_role : Speaker;
  msg_text : string;
  isLoading : option bool       (* [isLoading?: boolean] *)
}.

(** [!h.isLoading] *)
Definition settled (h : Message) : bool := negb (default false (isLoading h)).

(** [l.slice(-n)] *)
Definition slice_last {A} (n : nat) (l : list A) : list A :=
  drop (length l - n) l.

(** [history.filter(h => !h.isLoading).slice(-10)], as
    [sendMessageToTutor] and [analyzeLearningMaterials] cut the
    history. *)
Definition recentHistory (history : list Message) : list Message :=
  slice_last 10 (List.filter settled history).

End geminiService.

(** ** A reference codec

    One concrete codec that is faithful: a value is written as a 'j'
    followed by the binary digits of its code. *)

Module ReferenceCodec.

Fixpoint digits (p : positive) : string :=
  match p with
  | xH => ""
  | xO q => String "0"%char (digits q)
  | xI q => String "1"%char (digits q)
  end.

Fixpoint undigits (s : string) : option positive :=
  match s with
  | EmptyString => Some xH
  | String c s' =>
      if Ascii.eqb c "0"%char then xO <$> undigits s'
      else if Ascii.eqb c "1"%char then xI <$> undigits s'
      else None
  end.

Definition stringify (v : JSON) : string := String "j"%char (digits (encode v)).

Definition parse (s : string) : option JSON :=
  match s with
  | String c s' => if Ascii.eqb c "j"%char then p ← undigits s'; decode p else None
  | EmptyString => None
  end.

#[export] Instance codec : JSONCodec :=
  {| JSON_parse := parse; JSON_stringify := stringify |}.

End ReferenceCodec.

(** ** Reading the world *)

(** The files handed to [uploadFileToCloud], in call order. *)
Definition uploads (calls : list CloudCall) : list File :=
  omap (fun c => match c with UploadFileToCloud file => Some file | _ => None end) calls.

(** Nothing of the Cloud Mirror differs between two worlds: no call
    was made, no remote operation carried out, documents and blobs are
    the same. *)
Definition cloud_untouched (w w' : World) : Prop :=
  cloud_calls w' = cloud_calls w /\ remote_ops w' = remote_ops w /\
  cloud_docs w' = cloud_docs w /\ cloud_blobs w' = cloud_blobs w.

(** What a cloud upload run keeps count of: the files handed to the
    uploader, the alerts shown, the local store. *)
Definition cloud_run (files : list File) (al : list Alert) (s : Store) (w : World) : Prop :=
  uploads (cloud_calls w) = files /\ shown w = al /\ local_db w = s.

(** The Cloud Mirror holds the file: its blob under the download URL
    [u], and under [i] a document whose [content] is that URL and
    whose [name] is the file's. *)
Definition in_cloud (file : File) (u i : string) (w : World) : Prop :=
  u ∈ cloud_blobs w /\
  exists o, cloud_docs w !! i = Some (JObj o) /\
            assoc "content" o = Some (JStr u) /\
            assoc "name" o = Some (JStr (file_name file)).

(** A store in which every flagged record of [s] is still there and
    still flagged. *)
Definition keeps_analyzed {K} `{Countable K} (s s' : gmap K JSON) : Prop :=
  forall k r, s !! k = Some r -> record_analyzed r = true ->
    exists r', s' !! k = Some r' /\ record_analyzed r' = true.

(** Material by material, the same ids, and no flag lowered. *)
Definition flags_kept (ms ms' : list LearningMaterial) : Prop :=
  Forall2 (fun m m' => m_id m' = m_id m /\ (analyzed m = true -> analyzed m' = true)) ms ms'.

(** A handler keeps a property of the state. *)
Definition preserves {S A} (I : S -> Prop) (m : M S A) : Prop :=
  forall s, I s -> I (m s).2.

(** [fileUrl && fileUrl.includes('firebasestorage')] *)
Definition points_into_storage (fileUrl : option string) : bool :=
  match fileUrl with
  | Some url => negb (String.eqb url "") && includes url "firebasestorage"
  | None => false
  end.


(** Every code unit of the text is one of 0-9. *)
Fixpoint all_digits (s : string) : bool :=
  match s with
  | EmptyString => true
  | String c s' => is_digit c && all_digits s'
  end.

(** The stored admin password, if there is one, is one the setup form
    takes: at least four code units, and none of the reset commands. *)
Definition password_well_formed (ls : LocalStorage) : Prop :=
  forall pw, getItem "prolens_admin_password" ls = Some pw ->
    (4 <= String.length pw)%nat /\ pw <> "reset" /\ pw <> "creator".

(** What the local upload comes to for one file: the material kept,
    a refusal for its size, a failure (the read or the write fails),
    or a wait on a write that never settles. *)
Inductive LocalUpload : Type :=
  | Kept (m : LearningMaterial)
  | Oversize
  | Broken
  | Waiting.

Definition local_upload (fa : File * LearningBox.Ambient) : LocalUpload :=
  if (15 * 1024 * 1024 <? file_size fa.1)%N then Oversize
  else
    match LearningBox.dataURL fa.2, LearningBox.stored fa.2 with
    | None, _ => Broken
    | Some base64Content, Ok _ =>
        Kept {| m_id := pretty (LearningBox.now fa.2) +:+ LearningBox.random fa.2;
                m_name := file_name fa.1; m_type := type_of_file fa.1;
                m_content := base64Content; m_mimeType := Some (file_type fa.1);
                m_isAnalyzed := Some false |}
    | Some _, Throw => Broken
    | Some _, Pending => Waiting
    end.



Definition broken (files : list (File * LearningBox.Ambient)) : list Log :=
  omap (fun fa => match local_upload fa with
                  | Broken => Some ErrorSavingFileLog
                  | _ => None
                  end) files.




(** ** Sample data *)

Module Sample.

Definition only_materials : JSON := JObj [ ("materials", JArr []) ].

Definition admin_session : LocalStorage := {[ "prolens_user_role" := "admin" ]}.

Definition student_session : LocalStorage :=
  {[ "prolens_user_role" := "student"; "prolens_messages" := "[]" ]}.

(** The flags of a tab that is still open after [handleLogout] ran in
    another tab: the role key is gone. *)
Definition other_tab_logged_out : LocalStorage := {[ "prolens_messages" := "[]" ]}.

Definition lesson (id : string) (isAnalyzed : bool) : JSON :=
  JObj [ ("id", JStr id); ("name", JStr "lesson.txt"); ("type", JStr "text");
         ("content", JStr "aperture"); ("isAnalyzed", JBool isAnalyzed) ].

Definition with_profile : JSON :=
  JObj [ ("profile", JStr "dana"); ("materials", JArr [ lesson "m1" false ]) ].

(** The second record has no [id]. *)
Definition broken : JSON :=
  JObj [ ("materials", JArr [ lesson "a" false; JObj [ ("name", JStr "stray") ] ]) ].

Definition two_lessons : JSON :=
  JObj [ ("materials", JArr [ lesson "a" false; lesson "b" false ]) ].

(** An engine that takes the record with id 'a' and nothing else. *)
Definition full_after_a : IDBEnv :=
  {| idb_opens := true; idb_reads := true; idb_clears := true;
     idb_accepts := fun r => bool_decide (key_of r = Some (JStr "a")) |}.

Definition old_store : Store := {[ JStr "old" := lesson "old" true ]}.

Definition analyzed_store : Store := {[ JStr "a" := lesson "a" true ]}.

Definition dana : LoginScreen.RegData :=
  {| LoginScreen.fullName := "Dana Levi"; LoginScreen.email := "dana@example.org";
     LoginScreen.phone := "050-1234567"; LoginScreen.level := "beginner" |}.

Definition dana_again : LoginScreen.RegData :=
  {| LoginScreen.fullName := "D. Levi"; LoginScreen.email := "dana@example.org";
     LoginScreen.phone := "050-1234567"; LoginScreen.level := "advanced" |}.


Definition photo : File :=
  {| file_name := "portrait.jpg"; file_size := 20 * 1024 * 1024; file_type := "image/jpeg" |}.


Definition quiet : LearningBox.Ambient :=
  {| LearningBox.now := 1700000000000; LearningBox.random := "0.25";
     LearningBox.dataURL := Some "data:image/jpeg;base64,AAAA";
     LearningBox.url := Some "https://firebasestorage.googleapis.com/o/portrait.jpg";
     LearningBox.docId := Some "doc1"; LearningBox.stored := Ok tt |}.

Definition kind : LearningBox.Fate :=
  {| LearningBox.updates := fun _ => true; LearningBox.saves := fun _ => Ok tt;
     LearningBox.deletes := fun _ => Ok tt; LearningBox.docDeleted := fun _ => true;
     LearningBox.blobDeleted := fun _ => true |}.

Definition no_handles : firebase.Handles := firebase.init "YOUR_API_KEY_HERE" true.

Definition empty_world : World :=
  {| local_db := ∅; cloud_docs := ∅; cloud_blobs := ∅; cloud_calls := [];
     remote_ops := []; materials := []; shown := []; logged := [];
     saveStatus := idle; ai_requests := [] |}.

Definition slide_upload : CourseRegistration.Ambient :=
  {| CourseRegistration.now := 1700000000000; CourseRegistration.today := "14.11.2023";
     CourseRegistration.dataURL := Some "data:image/jpeg;base64,AAAA";
     CourseRegistration.stored := Ok tt |}.

Definition empty_course : CourseRegistration.Course :=
  {| CourseRegistration.presentations_db := ∅; CourseRegistration.presentations := [];
     CourseRegistration.course_alerts := []; CourseRegistration.course_console := [];
     CourseRegistration.isUploading := false |}.

(** Two presentations, uploaded a minute apart. *)
Definition first_slides : JSON :=
  JObj [ ("id", JStr "1700000000000"); ("name", JStr "aperture.pdf");
         ("type", JStr "application/pdf"); ("date", JStr "14.11.2023");
         ("content", JStr "data:application/pdf;base64,AAAA") ].

Definition second_slides : JSON :=
  JObj [ ("id", JStr "1700000060000"); ("name", JStr "shutter.pdf");
         ("type", JStr "application/pdf"); ("date", JStr "14.11.2023");
         ("content", JStr "data:application/pdf;base64,BBBB") ].

Definition two_slides : CourseRegistration.Course :=
  {| CourseRegistration.presentations_db :=
       {[ JStr "1700000000000" := first_slides; JStr "1700000060000" := second_slides ]};
     CourseRegistration.presentations := [ first_slides; second_slides ];
     CourseRegistration.course_alerts := []; CourseRegistration.course_console := [];
     CourseRegistration.isUploading := false |}.

Definition seen : LearningMaterial :=
  {| m_id := "m1"; m_type := text; m_name := "notes.txt"; m_content := "iso";
     m_mimeType := Some "text/plain"; m_isAnalyzed := Some true |}.

(** A library with a text that has not been analyzed yet and a
    photo. *)
Definition draft : LearningMaterial :=
  {| m_id := "m2"; m_type := text; m_name := "draft.txt"; m_content := "shutter";
     m_mimeType := Some "text/plain"; m_isAnalyzed := Some false |}.

Definition portrait : LearningMaterial :=
  {| m_id := "m3"; m_type := image; m_name := "portrait.jpg";
     m_content := "data:image/jpeg;base64,AAAA";
     m_mimeType := Some "image/jpeg"; m_isAnalyzed := Some false |}.

Definition library_world : World :=
  {| local_db := {[ JStr "m2" := LearningMaterial_to_JSON draft;
                    JStr "m3" := LearningMaterial_to_JSON portrait ]};
     cloud_docs := ∅; cloud_blobs := ∅; cloud_calls := []; remote_ops := [];
     materials := [draft; portrait]; shown := []; logged := []; saveStatus := idle;
     ai_requests := [] |}.

(** [seen] as it was before it was analyzed. *)
Definition unseen : LearningMaterial :=
  {| m_id := "m1"; m_type := text; m_name := "notes.txt"; m_content := "iso";
     m_mimeType := Some "text/plain"; m_isAnalyzed := Some false |}.

Definition seen_world : World :=
  {| local_db := {[ JStr "m1" := LearningMaterial_to_JSON seen ]}; cloud_docs := ∅;
     cloud_blobs := ∅; cloud_calls := []; remote_ops := []; materials := [seen];
     shown := []; logged := []; saveStatus := idle; ai_requests := [] |}.


Definition noa : Registration :=
  {| reg_id := "1700000000000"; reg_date := "14.11.2023"; reg_fullName := "Noa Bar";
     reg_email := "noa@example.org"; reg_phone := "052-765 4321";
     reg_level := "beginner"; reg_status := "pending" |}.

Definition gil : Registration :=
  {| reg_id := "1700000060000"; reg_date := "14.11.2023"; reg_fullName := "Gil Paz";
     reg_email := "gil@example.org"; reg_phone := "+972 54 111 2222";
     reg_level := "advanced"; reg_status := "pending" |}.

(** The dashboard with two registrations loaded. *)
Definition desk : Page :=
  setRegistrations (JArr [ Registration_to_JSON noa; Registration_to_JSON gil ])
    (page ∅ ∅).

(** The login screen of a device on which the admin has set the
    password 'secret77', with the master code typed in. *)
Definition at_the_admin_form : Session :=
  setPassword Login.MASTER_CODE (loaded {[ "prolens_admin_password" := "secret77" ]}).

Definition tal : AdminDashboard.ManualReg :=
  {| AdminDashboard.name := "Tal Or"; AdminDashboard.phone := "0501112222";
     AdminDashboard.email := "" |}.

End Sample.

(** * Properties *)

(** ** The monad *)

Ltac run :=
  cbv [mbind M_bind mret M_ret modify throw pending gets try_catch when
       detached await finally];
  cbn [fst snd].

Lemma bind_ok {S A B} (m : M S A) (f : A -> M S B) s a s' :
  m s = (Ok a, s') -> (m ≫= f) s = f a s'.
Proof. intros H. unfold mbind, M_bind. by rewrite H. Qed.

Lemma bind_throw {S A B} (m : M S A) (f : A -> M S B) s s' :
  m s = (Throw, s') -> (m ≫= f) s = (Throw, s').
Proof. intros H. unfold mbind, M_bind. by rewrite H. Qed.

Lemma bind_pending {S A B} (m : M S A) (f : A -> M S B) s s' :
  m s = (Pending, s') -> (m ≫= f) s = (Pending, s').
Proof. intros H. unfold mbind, M_bind. by rewrite H. Qed.

Lemma try_catch_ok {S A} (m h : M S A) s a s' :
  m s = (Ok a, s') -> try_catch m h s = (Ok a, s').
Proof. intros H. unfold try_catch. by rewrite H. Qed.

Lemma try_catch_throw {S A} (m h : M S A) s s' :
  m s = (Throw, s') -> try_catch m h s = h s'.
Proof. intros H. unfold try_catch. by rewrite H. Qed.

Lemma try_catch_bind_ok {S A B} (m : M S A) (f : A -> M S B) h s a s' :
  m s = (Ok a, s') -> try_catch (m ≫= f) h s = try_catch (f a) h s'.
Proof. intros H. unfold try_catch, mbind, M_bind. by rewrite H. Qed.

Lemma try_catch_bind_throw {S A B} (m : M S A) (f : A -> M S B) h s s' :
  m s = (Throw, s') -> try_catch (m ≫= f) h s = h s'.
Proof. intros H. unfold try_catch, mbind, M_bind. by rewrite H. Qed.

(** A property of the state that every step of a loop keeps is kept by
    the loop. *)
Lemma for_each_preserves {S A} (I : S -> Prop) (body : A -> M S unit) l s :
  (forall x s0, I s0 -> I (body x s0).2) -> I s -> I (for_each l body s).2.
Proof.
  intros Hbody. revert s. induction l as [| x l IH]; intros s Hs; [done |].
  cbn [for_each]. unfold mbind, M_bind.
  specialize (Hbody x s Hs). destruct (body x s) as [[[] | |] s1]; cbn in *; auto.
Qed.

(** ** The document store *)

(** The order of keys is a total preorder, so that sorting by it
    gives the records in ascending order. *)

Lemma lex_ordered {A} (cmp : A -> A -> comparison) (l : list A) :
  Forall (ordered_at cmp) l -> ordered_at (lex_compare cmp) l.
Proof.
  intros H. induction H as [| x l (H1 & H2 & H3 & H4) _ (IH1 & IH2 & IH3 & IH4)].
  - split_and!.
    + by intros [].
    + by intros [] [].
    + intros [| y l'] [| z l'']; cbn; try done.
    + intros [| y l'] [| z l'']; cbn; try done.
  - split_and!.
    + intros [| y l']; cbn; [done |]. rewrite H1.
      destruct (cmp x y); cbn; [apply IH1 | done | done].
    + intros [| y l'] [| z l'']; cbn; try done.
      destruct (cmp x y) eqn:E; try done. intros Hl.
      rewrite (H2 y z E). destruct (cmp y z); [by apply IH2 | done | done].
    + intros [| y l'] [| z l'']; cbn; try done.
      destruct (cmp y z) eqn:E; try done. intros Hl.
      rewrite (H3 y z E). destruct (cmp x z); [by apply IH3 | done | done].
    + intros [| y l'] [| z l'']; cbn; try done.
      destruct (cmp x y) eqn:E1; try done.
      * intros Hl. rewrite (H2 y z E1).
        destruct (cmp y z) eqn:E2; try done. by apply IH4.
      * intros _. destruct (cmp y z) eqn:E2; try done.
        -- intros _. by rewrite <- (H3 y z E2), E1.
        -- intros _. by rewrite (H4 y z E1 E2).
Qed.

Lemma Z_ordered (n : Z) : ordered_at Z.compare n.
Proof.
  split_and!.
  - intros y. apply Z.compare_antisym.
  - by intros y z ->%Z.compare_eq.
  - by intros y z ->%Z.compare_eq.
  - intros y z H1 H2. exact (Z.lt_trans n y z H1 H2).
Qed.

Lemma string_ordered (s : string) : ordered_at String_as_OT.compare s.
Proof.
  assert (forall x y, String_as_OT.compare x y = Eq -> x = y) as Heq.
  { intros x y H. by destruct (String_as_OT.compare_spec x y). }
  assert (forall x y, String_as_OT.compare x y = Gt -> String_as_OT.compare y x = Lt) as Hgt.
  { intros x y H. by destruct (String_as_OT.compare_spec x y). }
  assert (forall x, String_as_OT.compare x x = Eq) as Hrefl.
  { intros x. destruct (String_as_OT.compare_spec x x) as [| H | H]; [done | |];
      by apply (irreflexivity String_as_OT.lt) in H. }
  assert (forall x y, String_as_OT.compare x y = Lt -> String_as_OT.compare y x = Gt) as Hlt.
  { intros x y H. destruct (String_as_OT.compare y x) eqn:E; [| | done].
    - apply Heq in E as ->. by rewrite Hrefl in H.
    - exfalso. apply (irreflexivity String_as_OT.lt x).
      by apply (transitivity (R := String_as_OT.lt) H). }
  split_and!.
  - intros y. destruct (String_as_OT.compare s y) eqn:E; cbn.
    + apply Heq in E as ->. apply Hrefl.
    + by apply Hlt.
    + by apply Hgt.
  - by intros y z ->%Heq.
  - by intros y z ->%Heq.
  - intros y z H1 H2. by apply (transitivity (R := String_as_OT.lt) H1).
Qed.

Lemma key_compare_ordered (a : JSON) : ordered_at key_compare a.
Proof.
  induction a as [| b | n | s | l IH | o IH] using JSON_nested_ind.
  - split_and!; [by intros [] | by intros [] [] | by intros [] [] | by intros [] []].
  - split_and!; [by intros [] | by intros [] [] | by intros [] [] | by intros [] []].
  - destruct (Z_ordered (proj1_sig n)) as (H1 & H2 & H3 & H4).
    split_and!.
    + intros []; cbn; try done; try apply H1.
    + intros [] []; cbn; try done; try apply H2.
    + intros [] []; cbn; try done; try apply H3.
    + intros [] []; cbn; try done; try apply H4.
  - destruct (string_ordered s) as (H1 & H2 & H3 & H4).
    split_and!.
    + intros []; cbn; try done; try apply H1.
    + intros [] []; cbn; try done; try apply H2.
    + intros [] []; cbn; try done; try apply H3.
    + intros [] []; cbn; try done; try apply H4.
  - destruct (lex_ordered key_compare l IH) as (H1 & H2 & H3 & H4).
    split_and!.
    + intros []; cbn [key_compare key_rank Nat.compare]; try done; try apply H1.
    + intros [] []; cbn [key_compare key_rank Nat.compare]; try done; try apply H2.
    + intros [] []; cbn [key_compare key_rank Nat.compare]; try done; try apply H3.
    + intros [] []; cbn [key_compare key_rank Nat.compare]; try done; try apply H4.
  - split_and!; [by intros [] | by intros [] [] | by intros [] [] | by intros [] []].
Qed.

#[global] Instance key_le_total : Total key_le.
Proof.
  intros a b. unfold key_le. destruct (key_compare_ordered a) as (H1 & _).
  rewrite (H1 b). destruct (key_compare a b); cbn; auto.
Qed.

#[global] Instance key_le_trans : Transitive key_le.
Proof.
  intros a b c. unfold key_le.
  destruct (key_compare_ordered a) as (_ & H2 & H3 & H4).
  destruct (key_compare a b) eqn:E1; [| | done]; intros _.
  - by rewrite (H2 b c E1).
  - destruct (key_compare b c) eqn:E2; [| | done]; intros _.
    + by rewrite <- (H3 b c E2), E1.
    + by rewrite (H4 b c E1 E2).
Qed.

(** [getAll()] lists the records in ascending order of their keys,
    each key once. *)
Lemma entries_sorted (s : Store) : StronglySorted (fun x y => key_le x.1 y.1) (entries s).
Proof.
  assert (Transitive (fun x y : JSON * JSON => key_le x.1 y.1))
    by (intros x y z; apply key_le_trans).
  assert (Total (fun x y : JSON * JSON => key_le x.1 y.1))
    by (intros x y; apply key_le_total).
  by apply (StronglySorted_merge_sort (fun x y : JSON * JSON => key_le x.1 y.1)).
Qed.

Lemma entries_Permutation (s : Store) : entries s ≡ₚ map_to_list s.
Proof. apply merge_sort_Permutation. Qed.

Lemma elem_of_entries (s : Store) k r : (k, r) ∈ entries s <-> s !! k = Some r.
Proof. by rewrite entries_Permutation, elem_of_map_to_list. Qed.

Lemma NoDup_fst_entries (s : Store) : NoDup (entries s).*1.
Proof. rewrite entries_Permutation. apply NoDup_fst_map_to_list. Qed.

Lemma clear_getAll (s : Store) : getAll (clear s) = [].
Proof.
  unfold getAll, clear.
  assert (entries ∅ = []) as -> by (apply Permutation_nil_r;
    by rewrite entries_Permutation, map_to_list_empty).
  done.
Qed.

Lemma length_getAll (s : Store) : length (getAll s) = size s.
Proof.
  unfold getAll. by rewrite length_fmap, entries_Permutation, length_map_to_list.
Qed.

Lemma put_lookup record k (s : Store) :
  key_of record = Some k -> put record s = Some (<[k := record]> s).
Proof. intros H. unfold put. by rewrite H. Qed.

Lemma run_requests_accepted accepts q work :
  Forall (fun kr => accepts kr.2 = true) q ->
  run_requests accepts q work = Some (apply_requests q work).
Proof.
  intros H. revert work. induction H as [| [k r] q Hr _ IH]; intros work; [done |].
  cbn in *. by rewrite Hr, IH.
Qed.

Lemma run_requests_refused accepts q work :
  Exists (fun kr => accepts kr.2 = false) q -> run_requests accepts q work = None.
Proof.
  intros H. revert work. induction H as [[k r] q Hr | [k r] q _ IH]; intros work; cbn in *.
  - by rewrite Hr.
  - destruct (accepts r); [apply IH | done].
Qed.

Lemma issue_puts_valid items :
  Forall (fun item => is_Some (key_of item)) items ->
  (issue_puts items).2 = false /\
  apply_requests (issue_puts items).1 ∅ = put_each items.
Proof.
  unfold put_each, apply_requests. generalize (∅ : Store).
  intros s H. revert s. induction H as [| item items [k Hk] _ IH]; intros s; [done |].
  cbn [issue_puts foldl]. rewrite Hk. destruct (issue_puts items) as [q threw] eqn:E.
  cbn in *. specialize (IH (<[k:=item]> s)). unfold put at 2. rewrite Hk. cbn. done.
Qed.

Lemma apply_requests_cons k r q work :
  apply_requests ((k, r) :: q) work = apply_requests q (<[k := r]> work).
Proof. reflexivity. Qed.

Lemma apply_requests_app q1 q2 work :
  apply_requests (q1 ++ q2) work = apply_requests q2 (apply_requests q1 work).
Proof. unfold apply_requests. by rewrite foldl_app. Qed.

Lemma apply_requests_notin q work k :
  k ∉ q.*1 -> apply_requests q work !! k = work !! k.
Proof.
  revert work. induction q as [| [k' r] q IH]; intros work Hk; [done |].
  rewrite fmap_cons in Hk. apply not_elem_of_cons in Hk as [Hne Hk].
  rewrite apply_requests_cons, IH by done. by rewrite lookup_insert_ne.
Qed.

Lemma apply_requests_in q work k r :
  NoDup q.*1 -> (k, r) ∈ q -> apply_requests q work !! k = Some r.
Proof.
  revert work. induction q as [| [k' r'] q IH]; intros work Hnd Hin.
  - by apply elem_of_nil in Hin.
  - rewrite fmap_cons in Hnd. apply NoDup_cons in Hnd as [Hk' Hnd].
    rewrite apply_requests_cons.
    apply elem_of_cons in Hin as [Heq | Hin].
    + simplify_eq. rewrite apply_requests_notin by done. apply lookup_insert_eq.
    + by apply IH.
Qed.

(** Writing back what [getAll] returned, into the cleared store, gives
    the store back. *)
Lemma apply_requests_entries (s : Store) :
  apply_requests (entries s) ∅ = s.
Proof.
  apply map_eq. intros k. destruct (s !! k) as [r |] eqn:E.
  - apply apply_requests_in; [apply NoDup_fst_entries | by apply elem_of_entries].
  - rewrite apply_requests_notin; [apply lookup_empty |].
    intros Hin. apply list_elem_of_fmap in Hin as [[k' r] [-> Hin]].
    apply elem_of_entries in Hin. cbn in *. congruence.
Qed.

Lemma issue_puts_getAll (s : Store) :
  keyed s -> issue_puts (getAll s) = (entries s, false).
Proof.
  intros Hs. unfold getAll.
  assert (Forall (fun kr => key_of kr.2 = Some kr.1) (entries s)) as H.
  { apply Forall_forall. intros [k r] Hin. apply elem_of_entries in Hin. by apply Hs. }
  induction H as [| [k r] l Hk _ IH]; [done |].
  cbn in *. by rewrite Hk, IH.
Qed.

(** The keying invariant holds of the empty store and is kept by every
    store operation. *)
Lemma keyed_empty : keyed ∅.
Proof. intros k r H. by rewrite lookup_empty in H. Qed.

Lemma keyed_insert (s : Store) k r : keyed s -> key_of r = Some k -> keyed (<[k := r]> s).
Proof.
  intros Hs Hk k' r' H. destruct (decide (k = k')) as [<- | Hne].
  - rewrite lookup_insert_eq in H. by simplify_eq.
  - rewrite lookup_insert_ne in H by done. by apply Hs.
Qed.

Lemma keyed_put (s s' : Store) r : keyed s -> put r s = Some s' -> keyed s'.
Proof.
  intros Hs H. unfold put in H. destruct (key_of r) as [k |] eqn:E; [| done].
  cbn in H. simplify_eq. by apply keyed_insert.
Qed.

Lemma keyed_delete (s : Store) k : keyed s -> keyed (delete_key k s).
Proof.
  intros Hs k' r H. unfold delete_key in H. apply lookup_delete_Some in H as [_ H]. by apply Hs.
Qed.

Lemma keyed_put_each items : keyed (put_each items).
Proof.
  unfold put_each. generalize keyed_empty. generalize (∅ : Store).
  induction items as [| item items IH]; intros s Hs; [done |].
  cbn. apply IH. destruct (put item s) as [s' |] eqn:E; [by eapply keyed_put | done].
Qed.

(** ** Import, by cases *)

Section ImportByCases.
Context {codec : JSONCodec}.

Lemma get_prop_nonnull data field :
  data <> JNull -> get_prop data field = Some (prop_of data field).
Proof. by destruct data. Qed.

Lemma restore_flag_run data field key p :
  data <> JNull ->
  restore_flag data field key p = (Ok tt, set_flags (restored (prop_of data field) key) p).
Proof.
  intros Hd. unfold restore_flag, prop, mbind, M_bind.
  rewrite (get_prop_nonnull _ _ Hd). unfold restored.
  destruct (prop_of data field) as [x |]; [| done]. by destruct (truthy x).
Qed.

Lemma for_each_store_put items p t :
  tx p = Some t ->
  for_each items store_put p =
    (if (issue_puts items).2 then Throw else Ok tt,
     set_tx (Some {| tx_cleared := tx_cleared t;
                     tx_queue := tx_queue t ++ (issue_puts items).1;
                     tx_oncomplete := tx_oncomplete t |}) p).
Proof.
  revert p t. induction items as [| item items IH]; intros p t Ht.
  - cbn. rewrite app_nil_r. destruct p; cbn in *; by subst.
  - cbn [for_each issue_puts]. unfold mbind, M_bind, store_put at 1. rewrite Ht.
    destruct (key_of item) as [k |] eqn:Hk.
    + erewrite IH by reflexivity. destruct (issue_puts items) as [q threw].
      cbn. by rewrite <- app_assoc.
    + cbn. rewrite app_nil_r. destruct p; cbn in *; by subst.
Qed.

Lemma put_materials_run data p t :
  data <> JNull -> tx p = Some t ->
  put_materials data p =
    (if (issue_puts (materials_of data)).2 then Throw else Ok tt,
     set_tx (Some {| tx_cleared := tx_cleared t;
                     tx_queue := tx_queue t ++ (issue_puts (materials_of data)).1;
                     tx_oncomplete := tx_oncomplete t |}) p).
Proof.
  intros Hd Ht. unfold put_materials, prop, mbind, M_bind, materials_of.
  rewrite (get_prop_nonnull _ _ Hd).
  assert (forall q : Page, tx q = Some t ->
            q = set_tx (Some {| tx_cleared := tx_cleared t; tx_queue := tx_queue t ++ [];
                                tx_oncomplete := tx_oncomplete t |}) q) as Hid.
  { intros q Hq. rewrite app_nil_r. destruct q; cbn in *; by subst. }
  destruct (prop_of data "materials") as [[| | | | items |] |];
    cbn; try (f_equal; by apply Hid).
  by apply for_each_store_put.
Qed.

Lemma restore_materials_settle env fail done data p1 :
  data <> JNull -> tx p1 = None ->
  settle env done
    (try_catch (restore_materials env data)
       (modify (add_console RestoreFailedLog);;
        modify (add_alert fail);;
        modify (setIsRestoring false)) p1).2
  = outcome env fail done data p1.
Proof.
  intros Hd Ht. unfold outcome, restore_materials, open_readwrite.
  destruct (idb_opens env).
  2:{ run. unfold settle. cbn. by rewrite Ht. }
  unfold try_catch.
  erewrite bind_ok by reflexivity.
  unfold await_clear at 1. unfold mbind at 1, M_bind at 1. cbn.
  destruct (idb_clears env); [| by run].
  unfold mbind at 1, M_bind at 1.
  erewrite put_materials_run by (done || reflexivity).
  destruct (issue_puts (materials_of data)) as [q threw] eqn:E. cbn.
  destruct threw; run; unfold settle, clear; cbn;
    destruct (run_requests (idb_accepts env) q ∅); reflexivity.
Qed.

Lemma student_onload_run env content data p :
  JSON_parse content = Some data -> data <> JNull -> tx p = None ->
  StudentSyncModal.onload env content p =
    outcome env SyncFileInvalid SyncCompleted data (set_flags (student_flags data) p).
Proof.
  intros Hp Hd Ht. unfold StudentSyncModal.onload.
  erewrite try_catch_bind_ok by (unfold parse; by rewrite Hp).
  do 4 (erewrite try_catch_bind_ok by (by apply restore_flag_run)).
  erewrite try_catch_bind_ok by reflexivity.
  by rewrite <- (restore_materials_settle env SyncFileInvalid SyncCompleted data).
Qed.

Lemma student_onload_malformed env content p :
  JSON_parse content = None -> tx p = None ->
  StudentSyncModal.onload env content p = failed SyncFileInvalid p.
Proof.
  intros Hp Ht. unfold StudentSyncModal.onload.
  erewrite try_catch_bind_throw by (unfold parse; by rewrite Hp).
  run. unfold settle. cbn. by rewrite Ht.
Qed.

Lemma student_onload_null env content p :
  JSON_parse content = Some JNull -> tx p = None ->
  StudentSyncModal.onload env content p = failed SyncFileInvalid p.
Proof.
  intros Hp Ht. unfold StudentSyncModal.onload.
  erewrite try_catch_bind_ok by (unfold parse; by rewrite Hp).
  erewrite try_catch_bind_throw by reflexivity.
  run. unfold settle. cbn. by rewrite Ht.
Qed.

Lemma restore_registrations_run data p :
  data <> JNull ->
  AdminDashboard.restore_registrations data p = (Ok tt, admin_registrations data p).
Proof.
  intros Hd. unfold AdminDashboard.restore_registrations, admin_registrations, prop.
  unfold mbind at 1, M_bind at 1. rewrite (get_prop_nonnull _ _ Hd).
  destruct (prop_of data "registrations") as [x |]; [| done]. by destruct (truthy x).
Qed.

Lemma admin_onload_run env content data p :
  JSON_parse content = Some data -> data <> JNull -> tx p = None ->
  AdminDashboard.onload env content p =
    outcome env BackupFileInvalid RestoreCompleted data (admin_restored data p).
Proof.
  intros Hp Hd Ht. unfold AdminDashboard.onload.
  erewrite try_catch_bind_ok by (unfold parse; by rewrite Hp).
  do 3 (erewrite try_catch_bind_ok by (by apply restore_flag_run)).
  erewrite try_catch_bind_ok by (by apply restore_registrations_run).
  rewrite <- (restore_materials_settle env BackupFileInvalid RestoreCompleted data);
    [reflexivity | done |].
  unfold admin_restored, admin_registrations.
  destruct (prop_of data "registrations") as [x |]; [| done].
  by destruct (truthy x).
Qed.

Lemma admin_onload_malformed env content p :
  JSON_parse content = None -> tx p = None ->
  AdminDashboard.onload env content p = failed BackupFileInvalid p.
Proof.
  intros Hp Ht. unfold AdminDashboard.onload.
  erewrite try_catch_bind_throw by (unfold parse; by rewrite Hp).
  run. unfold settle. cbn. by rewrite Ht.
Qed.
End ImportByCases.

(** ** The reference codec is faithful *)

Lemma undigits_digits p : ReferenceCodec.undigits (ReferenceCodec.digits p) = Some p.
Proof. induction p as [p IH | p IH |]; cbn; by rewrite ?IH. Qed.

Lemma reference_parse_stringify (v : JSON) :
  @JSON_parse ReferenceCodec.codec (@JSON_stringify ReferenceCodec.codec v) = Some v.
Proof.
  cbn. unfold ReferenceCodec.parse, ReferenceCodec.stringify. cbn.
  rewrite undigits_digits. cbn. apply decode_encode.
Qed.

Lemma reference_faithful : faithful ReferenceCodec.codec.
Proof. split; [apply reference_parse_stringify | done]. Qed.

(** ** Flags after an import *)

Lemma restored_unnamed v k ls key :
  (k = key -> v = None) -> restored v k ls !! key = ls !! key.
Proof.
  intros H. unfold restored, setItem. destruct v as [x |]; [| done].
  destruct (truthy x); [| done].
  destruct (decide (k = key)) as [E | N]; [by specialize (H E) | by rewrite lookup_insert_ne].
Qed.

Lemma restored_cases v k ls key :
  restored v k ls !! key = ls !! key \/
  (k = key /\ exists x, v = Some x /\ truthy x = true /\
     restored v k ls !! key = Some (ToString x)).
Proof.
  unfold restored, setItem. destruct v as [x |]; [| by left].
  destruct (truthy x) eqn:T; [| by left].
  destruct (decide (k = key)) as [<- | N].
  - right. split; [done |]. exists x. by rewrite lookup_insert_eq.
  - left. by rewrite lookup_insert_ne.
Qed.

Lemma restored_hit x k ls :
  truthy x = true -> restored (Some x) k ls !! k = Some (ToString x).
Proof. intros H. unfold restored, setItem. rewrite H. apply lookup_insert_eq. Qed.

Lemma student_flags_named bundle ls field key x :
  (field, key) ∈ student_fields -> prop_of bundle field = Some x -> truthy x = true ->
  student_flags bundle ls !! key = Some (ToString x).
Proof.
  intros Hin Hx Ht. unfold student_flags, setItem.
  apply list_elem_of_In in Hin. cbn in Hin.
  destruct Hin as [[= <- <-] | [[= <- <-] | [[= <- <-] | [[= <- <-] | []]]]];
    rewrite lookup_insert_ne by done; rewrite ?restored_unnamed by done;
    rewrite Hx; by apply restored_hit.
Qed.

Lemma student_flags_role bundle ls :
  student_flags bundle ls !! "prolens_user_role" = Some "student".
Proof. unfold student_flags, setItem. apply lookup_insert_eq. Qed.

Lemma student_flags_unnamed bundle ls key :
  key <> "prolens_user_role" -> unnamed student_fields bundle key ->
  student_flags bundle ls !! key = ls !! key.
Proof.
  intros Hr Hu. unfold student_flags, setItem. rewrite lookup_insert_ne by done.
  rewrite !restored_unnamed; [done | intros <-; apply Hu; set_solver ..].
Qed.

Lemma student_flags_changed bundle ls key :
  student_flags bundle ls !! key <> ls !! key ->
  key = "prolens_user_role" \/ named student_fields bundle key.
Proof.
  intros H. destruct (decide (key = "prolens_user_role")) as [| Hr]; [by left | right].
  unfold student_flags, setItem in H. rewrite lookup_insert_ne in H by done.
  unfold named.
  repeat match type of H with
  | restored (prop_of _ ?f) ?k ?l !! _ <> _ =>
      destruct (restored_cases (prop_of bundle f) k l key)
        as [E | [<- (x & Hx & _ & _)]];
        [rewrite E in H; clear E | exists f, x; split; [set_solver | done]]
  end.
  done.
Qed.

Lemma admin_flags_unnamed bundle ls key :
  unnamed admin_fields bundle key -> admin_flags bundle ls !! key = ls !! key.
Proof.
  intros Hu. unfold admin_flags.
  rewrite !restored_unnamed; [done | intros <-; apply Hu; set_solver ..].
Qed.

Lemma flags_outcome env fail done data p1 :
  flags (outcome env fail done data p1) = flags p1.
Proof.
  unfold outcome. destruct (idb_opens env), (idb_clears env); try done.
  destruct (issue_puts (materials_of data)) as [q threw].
  by destruct (run_requests (idb_accepts env) q ∅), threw.
Qed.

Section AdminFlags.
Context {codec : JSONCodec}.

Lemma admin_restored_frame bundle p :
  reloaded (admin_restored bundle p) = reloaded p /\
  alerts (admin_restored bundle p) = alerts p /\
  materials_db (admin_restored bundle p) = materials_db p /\
  isRestoring (admin_restored bundle p) = isRestoring p.
Proof.
  unfold admin_restored, admin_registrations.
  destruct (prop_of bundle "registrations") as [x |]; [| done]. by destruct (truthy x).
Qed.

Lemma flags_admin_restored bundle p key :
  unnamed admin_fields bundle key ->
  flags (admin_restored bundle p) !! key = flags p !! key.
Proof.
  intros Hu. unfold admin_restored, admin_registrations.
  assert (flags (set_flags (admin_flags bundle) p) !! key = flags p !! key) as H0
    by (by apply admin_flags_unnamed).
  destruct (prop_of bundle "registrations") as [x |] eqn:E; [| done].
  destruct (truthy x); [| done]. cbn. unfold setItem.
  destruct (decide ("prolens_registrations" = key)) as [<- | N].
  - rewrite (Hu "registrations") in E by set_solver. done.
  - by rewrite lookup_insert_ne.
Qed.

Lemma flags_admin_named bundle p field key x :
  (field, key) ∈ admin_fields -> prop_of bundle field = Some x -> truthy x = true ->
  flags (admin_restored bundle p) !! key = Some (written AdminRestore field x).
Proof.
  intros Hin Hx Ht. unfold admin_restored, admin_registrations.
  apply list_elem_of_In in Hin. cbn in Hin.
  destruct Hin as [[= <- <-] | [[= <- <-] | [[= <- <-] | [[= <- <-] | []]]]].
  4:{ rewrite Hx, Ht. cbn. unfold setItem. apply lookup_insert_eq. }
  all: match goal with
       | |- _ !! ?key = _ =>
           assert (flags (set_flags (admin_flags bundle) p) !! key = Some (ToString x)) as H0
             by (cbn; unfold admin_flags; rewrite ?restored_unnamed by done;
                 rewrite Hx; by apply restored_hit)
       end.
  all: destruct (prop_of bundle "registrations") as [y |]; [| exact H0].
  all: destruct (truthy y); [| exact H0].
  all: cbn; unfold setItem; rewrite lookup_insert_ne by done; exact H0.
Qed.

Lemma flags_admin_changed bundle p key :
  flags (admin_restored bundle p) !! key <> flags p !! key ->
  named admin_fields bundle key.
Proof.
  intros H. unfold admin_restored, admin_registrations, named in *.
  destruct (prop_of bundle "registrations") as [x |] eqn:E.
  - destruct (decide ("prolens_registrations" = key)) as [<- | N].
    { exists "registrations", x. split; [set_solver | done]. }
    assert (flags (set_flags (admin_flags bundle) p) !! key <> flags p !! key) as H'.
    { destruct (truthy x); [| done]. cbn in H. unfold setItem in H.
      by rewrite lookup_insert_ne in H. }
    clear H. cbn in H'. unfold admin_flags in H'.
    repeat match type of H' with
    | restored (prop_of _ ?f) ?k ?l !! _ <> _ =>
        destruct (restored_cases (prop_of bundle f) k l key)
          as [E' | [<- (y & Hy & _ & _)]];
          [rewrite E' in H'; clear E' | exists f, y; split; [set_solver | done]]
    end.
    done.
  - cbn in H. unfold admin_flags in H.
    repeat match type of H with
    | restored (prop_of _ ?f) ?k ?l !! _ <> _ =>
        destruct (restored_cases (prop_of bundle f) k l key)
          as [E' | [<- (y & Hy & _ & _)]];
          [rewrite E' in H; clear E' | exists f, y; split; [set_solver | done]]
    end.
    done.
Qed.
End AdminFlags.

(** ** Documents after an import *)

Lemma run_requests_Some accepts q work s :
  run_requests accepts q work = Some s -> s = apply_requests q work.
Proof.
  revert work. induction q as [| [k r] q IH]; intros work H; cbn in *; [by simplify_eq |].
  destruct (accepts r); [by apply IH | done].
Qed.

Lemma issue_puts_no_throw items :
  (issue_puts items).2 = false ->
  forall work, apply_requests (issue_puts items).1 work
               = foldl (fun s item => default s (put item s)) work items.
Proof.
  induction items as [| item items IH]; intros H work; [done |].
  cbn [issue_puts foldl] in *.
  destruct (key_of item) as [k |] eqn:Hk; [| done].
  destruct (issue_puts items) as [q threw]. cbn [fst snd] in *.
  rewrite apply_requests_cons, IH by done.
  by rewrite (put_lookup _ _ _ Hk).
Qed.

(** An import reloads the page only after every stage went through. *)
Lemma outcome_reloaded env fail done data p1 :
  reloaded p1 = false ->
  reloaded (outcome env fail done data p1) = true ->
  materials_db (outcome env fail done data p1) = put_each (materials_of data) /\
  alerts (outcome env fail done data p1) = alerts p1 ++ [done].
Proof.
  intros H0. unfold outcome.
  destruct (idb_opens env); [| cbn; congruence].
  destruct (idb_clears env); [| cbn; congruence].
  pose proof (issue_puts_no_throw (materials_of data)) as Hq.
  destruct (issue_puts (materials_of data)) as [q threw].
  destruct (run_requests (idb_accepts env) q ∅) as [s |] eqn:Hs;
    destruct threw; cbn; try congruence.
  intros _. split; [| done]. apply run_requests_Some in Hs as ->.
  by rewrite Hq.
Qed.

Lemma outcome_not_reloaded_alerts env fail done data p1 :
  reloaded p1 = false ->
  reloaded (outcome env fail done data p1) = false ->
  alerts (outcome env fail done data p1) = alerts p1 ++ [fail] \/
  alerts (outcome env fail done data p1) = alerts p1.
Proof.
  intros H0. unfold outcome.
  destruct (idb_opens env); [| by left].
  destruct (idb_clears env); [| by left].
  destruct (issue_puts (materials_of data)) as [q threw].
  destruct (run_requests (idb_accepts env) q ∅) as [s |] eqn:Hs;
    destruct threw; cbn; try congruence; auto.
Qed.

(** ** Import: the claims *)

Section ImportClaims.
Context {codec : JSONCodec}.

Lemma import_parsed h env content bundle p :
  JSON_parse content = Some bundle -> bundle <> JNull -> tx p = None ->
  import h env content p =
    outcome env (failure_alert h)
      (match h with StudentSync => SyncCompleted | AdminRestore => RestoreCompleted end)
      bundle
      (match h with
       | StudentSync => set_flags (student_flags bundle) (setIsRestoring true p)
       | AdminRestore => admin_restored bundle (setIsRestoring true p)
       end).
Proof.
  intros Hp Hd Ht. destruct h; unfold import, StudentSyncModal.handleImport,
    AdminDashboard.handleImportBackup.
  - by apply student_onload_run.
  - rewrite andb_false_r. by apply admin_onload_run.
Qed.

Lemma import_unparsed h env content p :
  JSON_parse content = None \/ JSON_parse content = Some JNull -> tx p = None ->
  import h env content p = failed (failure_alert h) (setIsRestoring true p).
Proof.
  intros Hp Ht. destruct h; unfold import, StudentSyncModal.handleImport,
    AdminDashboard.handleImportBackup; rewrite ?andb_false_r.
  - destruct Hp; [by apply student_onload_malformed | by apply student_onload_null].
  - destruct Hp as [Hp | Hp]; [by apply admin_onload_malformed |].
    unfold AdminDashboard.onload.
    erewrite try_catch_bind_ok by (unfold parse; by rewrite Hp).
    erewrite try_catch_bind_throw by reflexivity.
    run. unfold settle. cbn. by rewrite Ht.
Qed.

(** A reload means the text parsed to something other than [null]. *)
Lemma import_reloaded_nonnull h env content bundle ls s :
  JSON_parse content = Some bundle ->
  reloaded (import h env content (page ls s)) = true -> bundle <> JNull.
Proof.
  intros Hp Hr ->. rewrite import_unparsed in Hr by auto. done.
Qed.

(** C10: for every bundle, a student sync that completes has written
    'student' under 'prolens_user_role', whatever the bundle holds and
    whatever role was stored before; every other flag key the bundle
    does not name keeps its value. *)
Theorem student_sync_always_sets_role env content bundle ls s :
  JSON_parse content = Some bundle ->
  reloaded (StudentSyncModal.handleImport env (Text content) true (page ls s)) = true ->
  getItem "prolens_user_role"
    (flags (StudentSyncModal.handleImport env (Text content) true (page ls s)))
    = Some "student" /\
  forall key, key <> "prolens_user_role" -> unnamed student_fields bundle key ->
    getItem key (flags (StudentSyncModal.handleImport env (Text content) true (page ls s)))
    = getItem key ls.
Proof.
  intros Hp Hr.
  pose proof (import_reloaded_nonnull StudentSync env content bundle ls s Hp Hr) as Hd.
  change (StudentSyncModal.handleImport env (Text content) true (page ls s))
    with (import StudentSync env content (page ls s)).
  rewrite (import_parsed StudentSync env content bundle (page ls s) Hp Hd eq_refl), flags_outcome.
  unfold getItem. cbn. split; [apply student_flags_role |].
  intros key Hk Hu. by apply student_flags_unnamed.
Qed.

(** What the two imports have in common.  An import that completes
    leaves the document store holding exactly what clear-then-put of
    [bundle.materials] gives (nothing, for an empty or absent list); of
    the keys in its table of fields an import overwrites those the
    bundle carries a field for (and does, when the field is truthy),
    and a key whose field is absent keeps its value.  The role key of
    the student sync is in no table and is set apart here. *)
Lemma import_replaces_documents_and_named_flags h env content bundle ls s :
  JSON_parse content = Some bundle ->
  reloaded (import h env content (page ls s)) = true ->
  materials_db (import h env content (page ls s)) = put_each (materials_of bundle) /\
  (materials_of bundle = [] -> getAll (materials_db (import h env content (page ls s))) = []) /\
  (forall key, unnamed (fields_of h) bundle key ->
     h = AdminRestore \/ key <> "prolens_user_role" ->
     getItem key (flags (import h env content (page ls s))) = getItem key ls) /\
  (forall key, getItem key (flags (import h env content (page ls s))) <> getItem key ls ->
     named (fields_of h) bundle key \/ (h = StudentSync /\ key = "prolens_user_role")) /\
  (forall field key x,
     (field, key) ∈ fields_of h -> prop_of bundle field = Some x -> truthy x = true ->
     getItem key (flags (import h env content (page ls s))) = Some (written h field x)) /\
  (h = StudentSync ->
     getItem "prolens_user_role" (flags (import h env content (page ls s))) = Some "student").
Proof.
  intros Hp Hr.
  pose proof (import_reloaded_nonnull h env content bundle ls s Hp Hr) as Hd.
  rewrite (import_parsed h env content bundle (page ls s) Hp Hd eq_refl) in *.
  apply outcome_reloaded in Hr as [Hdb _];
    [| destruct h; [done | by rewrite (proj1 (admin_restored_frame _ _))]].
  rewrite Hdb, flags_outcome. unfold getItem.
  split; [done |]. split; [by intros -> |].
  destruct h; cbn [fields_of].
  - split_and!.
    + intros key Hu [| Hk]; [done |]. by apply student_flags_unnamed.
    + intros key Hk. apply student_flags_changed in Hk as [-> |]; auto.
    + intros field key x Hin Hx Ht. by apply (student_flags_named bundle _ field).
    + intros _. apply student_flags_role.
  - split_and!; [| | | done].
    + intros key Hu _. by rewrite flags_admin_restored.
    + intros key Hk. left. by apply flags_admin_changed in Hk.
    + intros field key x Hin Hx Ht. by apply flags_admin_named.
Qed.

(** C8 (amended): malformed JSON, or a [put] that throws in the middle
    of the loop, ends the import before the reload with exactly one
    failure message; after the throw the store holds the rows queued
    before it, on top of the cleared store (nothing is rolled back).
    When the engine refuses one of the queued writes instead, the
    import does not reload either, and the store is as it was before
    the import. *)
Theorem import_failures h env content ls s :
  (JSON_parse content = None ->
     alerts (import h env content (page ls s)) = [failure_alert h] /\
     reloaded (import h env content (page ls s)) = false /\
     flags (import h env content (page ls s)) = ls /\
     materials_db (import h env content (page ls s)) = s) /\
  (forall bundle,
     JSON_parse content = Some bundle -> bundle <> JNull ->
     idb_opens env = true -> idb_clears env = true ->
     (issue_puts (materials_of bundle)).2 = true ->
     Forall (fun kr => idb_accepts env kr.2 = true) (issue_puts (materials_of bundle)).1 ->
     alerts (import h env content (page ls s)) = [failure_alert h] /\
     reloaded (import h env content (page ls s)) = false /\
     materials_db (import h env content (page ls s))
       = apply_requests (issue_puts (materials_of bundle)).1 (clear s)) /\
  (forall bundle,
     JSON_parse content = Some bundle -> bundle <> JNull ->
     idb_opens env = true -> idb_clears env = true ->
     Exists (fun kr => idb_accepts env kr.2 = false) (issue_puts (materials_of bundle)).1 ->
     reloaded (import h env content (page ls s)) = false /\
     materials_db (import h env content (page ls s)) = s).
Proof.
  split; [| split].
  - intros Hp. rewrite import_unparsed by auto. done.
  - intros bundle Hp Hd Ho Hc Ht Ha.
    rewrite (import_parsed h env content bundle (page ls s) Hp Hd eq_refl). unfold outcome.
    rewrite Ho, Hc. destruct (issue_puts (materials_of bundle)) as [q threw].
    cbn in Ht, Ha. subst threw. rewrite (run_requests_accepted _ _ _ Ha).
    destruct h; [done |]. cbn.
    by destruct (admin_restored_frame bundle (setIsRestoring true (page ls s)))
      as (-> & -> & _).
  - intros bundle Hp Hd Ho Hc Hx.
    rewrite (import_parsed h env content bundle (page ls s) Hp Hd eq_refl). unfold outcome.
    rewrite Ho, Hc. destruct (issue_puts (materials_of bundle)) as [q threw].
    cbn in Hx. rewrite (run_requests_refused _ _ _ Hx).
    destruct h, threw; try done; cbn;
      by destruct (admin_restored_frame bundle (setIsRestoring true (page ls s)))
        as (-> & _ & -> & _).
Qed.
End ImportClaims.

(** ** Import: instances *)

Section ImportInstances.
#[local] Existing Instance ReferenceCodec.codec.
Import Sample.

Lemma student_sync_always_sets_role_witness :
  JSON_parse (JSON_stringify only_materials) = Some only_materials /\
  reloaded (StudentSyncModal.handleImport willing (Text (JSON_stringify only_materials))
              true (page admin_session ∅)) = true /\
  (getItem "prolens_user_role"
     (flags (StudentSyncModal.handleImport willing (Text (JSON_stringify only_materials))
               true (page admin_session ∅)))
     = Some "student" /\
   forall key, key <> "prolens_user_role" -> unnamed student_fields only_materials key ->
     getItem key
       (flags (StudentSyncModal.handleImport willing (Text (JSON_stringify only_materials))
                 true (page admin_session ∅)))
     = getItem key admin_session).
Proof.
  pose proof (reference_parse_stringify only_materials) as H1.
  assert (reloaded (StudentSyncModal.handleImport willing
                      (Text (JSON_stringify only_materials)) true (page admin_session ∅))
          = true) as H2.
  { change (reloaded (import StudentSync willing (JSON_stringify only_materials)
                        (page admin_session ∅)) = true).
    rewrite (import_parsed StudentSync willing _ only_materials (page admin_session ∅) H1
               ltac:(done) eq_refl).
    reflexivity. }
  exact (conj H1 (conj H2
           (student_sync_always_sets_role willing _ only_materials admin_session ∅ H1 H2))).
Defined.

(** C1: in a session whose stored role is 'admin', a student sync of
    a bundle that holds nothing but an empty materials list (so no
    field for any flag) completes and leaves 'student' under
    'prolens_user_role': a flag key whose field is absent from the
    bundle, and which was not missing, has lost its value.  The admin
    restore of the same bundle in the same session leaves the role as
    it was. *)
Theorem only_materials_bundle_changes_role :
  (forall field, prop_of only_materials field <> None -> field = "materials") /\
  getItem "prolens_user_role" admin_session = Some "admin" /\
  reloaded (StudentSyncModal.handleImport willing
              (Text (JSON_stringify only_materials)) true (page admin_session ∅)) = true /\
  getItem "prolens_user_role"
    (flags (StudentSyncModal.handleImport willing
              (Text (JSON_stringify only_materials)) true (page admin_session ∅)))
    = Some "student" /\
  reloaded (AdminDashboard.handleImportBackup willing
              (Text (JSON_stringify only_materials)) 16 true (page admin_session ∅)) = true /\
  getItem "prolens_user_role"
    (flags (AdminDashboard.handleImportBackup willing
              (Text (JSON_stringify only_materials)) 16 true (page admin_session ∅)))
    = Some "admin".
Proof.
  split.
  { intros field H. unfold only_materials, prop_of in H. cbn [get_prop assoc] in H.
    destruct (String.eqb "materials" field) eqn:E; [| done].
    symmetry. by apply String.eqb_eq. }
  split; [reflexivity |].
  change (StudentSyncModal.handleImport willing (Text ?c) true ?p)
    with (import StudentSync willing c p).
  rewrite (import_parsed StudentSync willing _ only_materials (page admin_session ∅)
             (reference_parse_stringify _) ltac:(done) eq_refl), flags_outcome.
  split; [reflexivity |]. split; [apply student_flags_role |].
  by vm_compute.
Qed.

Lemma import_failures_witness :
  (issue_puts (materials_of broken)).2 = true /\
  alerts (import StudentSync willing (JSON_stringify broken) (page admin_session old_store))
    = [SyncFileInvalid] /\
  reloaded (import StudentSync willing (JSON_stringify broken) (page admin_session old_store))
    = false /\
  materials_db (import StudentSync willing (JSON_stringify broken)
                  (page admin_session old_store))
    = apply_requests (issue_puts (materials_of broken)).1 (clear old_store).
Proof.
  split; [reflexivity |].
  apply (proj1 (proj2 (import_failures StudentSync willing (JSON_stringify broken)
                         admin_session old_store)) broken);
    [apply reference_parse_stringify | done | reflexivity | reflexivity | reflexivity |].
  repeat constructor.
Defined.

(** C8, as stated, fails: when the engine refuses the second of two
    queued writes, no message is shown, and the first row is not left
    in the store. *)
Lemma refused_write_is_silent_and_undone :
  alerts (import StudentSync full_after_a (JSON_stringify two_lessons)
            (page admin_session old_store)) = [] /\
  materials_db (import StudentSync full_after_a (JSON_stringify two_lessons)
                  (page admin_session old_store)) !! JStr "a" = None /\
  materials_db (import StudentSync full_after_a (JSON_stringify two_lessons)
                  (page admin_session old_store)) = old_store.
Proof.
  rewrite (import_parsed StudentSync full_after_a _ two_lessons (page admin_session old_store)
             (reference_parse_stringify _) ltac:(done) eq_refl).
  split; [reflexivity |]. split; [| reflexivity].
  vm_compute. reflexivity.
Qed.
End ImportInstances.

(** ** Export then import *)

Lemma restored_of_item k (ls : LocalStorage) :
  restored (Some (of_item (getItem k ls))) k ls = ls.
Proof.
  unfold restored, of_item, getItem, setItem. destruct (ls !! k) as [v |] eqn:E; [| done].
  cbn. destruct (negb (String.eqb v "")); [| done]. by apply insert_id.
Qed.

Section RoundTrip.
Context {codec : JSONCodec}.

Lemma student_flags_syncData timestamp ls s alerts0 console0 r0 i0 regs0 :
  student_flags
    (StudentSyncModal.syncData timestamp
       {| flags := ls; materials_db := s; tx := None; alerts := alerts0;
          console := console0; reloaded := r0; isRestoring := i0;
          registrations := regs0 |}) ls
  = setItem "prolens_user_role" "student" ls.
Proof.
  unfold student_flags, StudentSyncModal.syncData. cbn [prop_of assoc String.eqb Ascii.eqb
    Bool.eqb flags].
  by rewrite !restored_of_item.
Qed.

Lemma export_then_import_run env timestamp ls s :
  faithful codec ->
  idb_opens env = true -> idb_reads env = true -> idb_clears env = true ->
  (forall k r, s !! k = Some r -> idb_accepts env r = true) ->
  keyed s ->
  materials_db (export_then_import env timestamp (page ls s)) = s /\
  flags (export_then_import env timestamp (page ls s))
    = setItem "prolens_user_role" "student" ls /\
  reloaded (export_then_import env timestamp (page ls s)) = true.
Proof.
  intros Hf Ho Hr Hc Ha Hk. unfold export_then_import, StudentSyncModal.handleExport.
  rewrite Ho, Hr. run. cbn [negb].
  change (StudentSyncModal.handleImport env (Text ?c) true ?p)
    with (import StudentSync env c p).
  set (p1 := add_alert SyncFileDownloaded (page ls s)).
  set (data := StudentSyncModal.syncData timestamp (page ls s)).
  rewrite (import_parsed StudentSync env _ data p1 (proj1 Hf data) ltac:(done) eq_refl).
  unfold outcome. rewrite Ho, Hc.
  assert (materials_of data = getAll s) as -> by reflexivity.
  rewrite (issue_puts_getAll s Hk).
  rewrite run_requests_accepted.
  2:{ apply Forall_forall. intros [k r] Hin. apply elem_of_entries in Hin. by eapply Ha. }
  rewrite apply_requests_entries. cbn.
  split; [done |]. split; [| done].
  apply (student_flags_syncData timestamp ls s [] [] false false (JArr [])).
Qed.

(** C2 (amended): with a faithful JSON codec and a store that takes
    the writes, export followed by import of the produced bundle in
    the same session leaves [getAll()] of the document store and every
    flag other than 'prolens_user_role' as they were.  A stored role
    'student' is left as it was too, so that the round trip is the
    identity on such a session; a session in which no role is stored
    has 'student' stored afterwards, the restore the import announces.
    (Nothing is said here of a session that holds another role.) *)
Theorem export_import_round_trip env timestamp ls s :
  faithful codec ->
  idb_opens env = true -> idb_reads env = true -> idb_clears env = true ->
  (forall k r, s !! k = Some r -> idb_accepts env r = true) ->
  keyed s ->
  getAll (materials_db (export_then_import env timestamp (page ls s))) = getAll s /\
  (forall key, key <> "prolens_user_role" ->
     getItem key (flags (export_then_import env timestamp (page ls s))) = getItem key ls) /\
  (getItem "prolens_user_role" ls = None ->
     getItem "prolens_user_role" (flags (export_then_import env timestamp (page ls s)))
       = Some "student") /\
  (getItem "prolens_user_role" ls = Some "student" ->
     flags (export_then_import env timestamp (page ls s)) = ls).
Proof.
  intros Hf Ho Hr Hc Ha Hk.
  destruct (export_then_import_run env timestamp ls s Hf Ho Hr Hc Ha Hk) as (-> & -> & _).
  unfold getItem, setItem. split; [done |]. split; [| split].
  - intros key Hne. by rewrite lookup_insert_ne.
  - intros _. apply lookup_insert_eq.
  - intros H. by apply insert_id.
Qed.
End RoundTrip.

Lemma keyed_old_store : keyed Sample.old_store.
Proof.
  intros k r H. unfold Sample.old_store in H.
  apply lookup_singleton_Some in H as [<- <-]. reflexivity.
Qed.

Lemma export_import_round_trip_witness :
  faithful ReferenceCodec.codec /\
  idb_opens willing = true /\ idb_reads willing = true /\ idb_clears willing = true /\
  (forall k r, Sample.old_store !! k = Some r -> idb_accepts willing r = true) /\
  keyed Sample.old_store /\
  getAll (materials_db (export_then_import (codec := ReferenceCodec.codec) willing
                          "2024-01-01T00:00:00.000Z"
                          (page Sample.student_session Sample.old_store)))
    = getAll Sample.old_store /\
  flags (export_then_import (codec := ReferenceCodec.codec) willing
           "2024-01-01T00:00:00.000Z" (page Sample.student_session Sample.old_store))
    = Sample.student_session.
Proof.
  destruct (export_import_round_trip (codec := ReferenceCodec.codec) willing
              "2024-01-01T00:00:00.000Z" Sample.student_session Sample.old_store
              reference_faithful eq_refl eq_refl eq_refl (fun _ _ _ => eq_refl)
              keyed_old_store)
    as (Hdocs & _ & _ & Hflags).
  split_and!; [apply reference_faithful | reflexivity | reflexivity | reflexivity
              | by intros | apply keyed_old_store | exact Hdocs | by apply Hflags].
Defined.

(** C2, as stated, fails: in a session in which no role is stored (the
    user has logged out in another tab) the round trip changes what
    the role flag reads. *)
Lemma round_trip_stores_a_missing_role :
  getItem "prolens_user_role" Sample.other_tab_logged_out = None /\
  getItem "prolens_user_role"
    (flags (export_then_import (codec := ReferenceCodec.codec) willing
              "2024-01-01T00:00:00.000Z"
              (page Sample.other_tab_logged_out Sample.old_store)))
    = Some "student".
Proof.
  split; [reflexivity |].
  destruct (export_then_import_run (codec := ReferenceCodec.codec) willing
              "2024-01-01T00:00:00.000Z" Sample.other_tab_logged_out Sample.old_store)
    as (_ & -> & _);
    first [apply reference_faithful | reflexivity | apply keyed_old_store | by intros].
Qed.

(** ** Registrations *)

Lemma some_phone_app_hit phone l r :
  some_phone phone l = Some false ->
  get_prop r "phone" = Some (Some (JStr phone)) ->
  some_phone phone (l ++ [r]) = Some true.
Proof.
  intros Hl Hr. induction l as [| x l IH]; cbn in *.
  - by rewrite Hr, String.eqb_refl.
  - destruct (get_prop x "phone") as [[[| | | s | |] |] |]; try done; auto.
    destruct (String.eqb s phone); [done | auto].
Qed.

Lemma count_phone_miss phone l :
  some_phone phone l = Some false -> count_phone phone l = 0.
Proof.
  unfold count_phone. induction l as [| x l IH]; [done |].
  cbn [some_phone List.filter]. intros H.
  assert (get_prop x "phone" <> Some (Some (JStr phone)) /\
          some_phone phone l = Some false) as [Hne Hl].
  { destruct (get_prop x "phone") as [[[| | | s | |] |] |];
      try done; try (split; [congruence | done]).
    destruct (String.eqb s phone) eqn:Es; [done |]. split; [| done].
    intros [= ->]. by rewrite String.eqb_refl in Es. }
  rewrite bool_decide_eq_false_2 by done. by apply IH.
Qed.

Lemma count_phone_app phone l1 l2 :
  count_phone phone (l1 ++ l2) = count_phone phone l1 + count_phone phone l2.
Proof. unfold count_phone. by rewrite List.filter_app, length_app. Qed.

Section Registrations.
Context {codec : JSONCodec}.

Lemma auto_add_run reg p :
  LoginScreen.auto_add reg p =
    match registrations_list (flags p) with
    | Some l =>
        match some_phone (reg_phone reg) l with
        | Some false =>
            (Ok tt, set_flags (setItem "prolens_registrations"
                                 (JSON_stringify (JArr (l ++ [Registration_to_JSON reg])))) p)
        | Some true => (Ok tt, p)
        | None => (Throw, p)
        end
    | None => (Throw, p)
    end.
Proof.
  unfold LoginScreen.auto_add, registrations_list.
  erewrite bind_ok by reflexivity.
  destruct (getItem "prolens_registrations" (flags p)) as [s |]; cbn.
  - destruct (String.eqb s "").
    + erewrite bind_ok by reflexivity. cbn.
      by destruct (some_phone (reg_phone reg) []) as [[] |].
    + unfold parse. destruct (JSON_parse s) as [v |]; [| done].
      erewrite bind_ok by reflexivity. cbn.
      destruct (as_array v) as [l |]; [| done].
      by destruct (some_phone (reg_phone reg) l) as [[] |].
  - erewrite bind_ok by reflexivity. cbn.
    by destruct (some_phone (reg_phone reg) []) as [[] |].
Qed.

Lemma registrations_list_setItem k v ls :
  k <> "prolens_registrations" ->
  registrations_list (setItem k v ls) = registrations_list ls.
Proof.
  intros H. unfold registrations_list, getItem, setItem. by rewrite lookup_insert_ne.
Qed.

Lemma registrations_list_stored l ls :
  faithful codec ->
  registrations_list (setItem "prolens_registrations" (JSON_stringify (JArr l)) ls) = Some l.
Proof.
  intros [Hp He]. unfold registrations_list, getItem, setItem. rewrite lookup_insert_eq.
  destruct (String.eqb (JSON_stringify (JArr l)) "") eqn:E.
  - apply String.eqb_eq in E. by apply He in E.
  - by rewrite Hp.
Qed.

(** What [handleRegistration] leaves under 'prolens_registrations'. *)
Lemma handleRegistration_flags regData now today p :
  getItem "prolens_registrations" (flags (LoginScreen.handleRegistration regData now today p))
  = match registrations_list (flags p) with
    | Some l =>
        match some_phone (LoginScreen.phone regData) l with
        | Some false =>
            Some (JSON_stringify
                    (JArr (l ++ [Registration_to_JSON (LoginScreen.newReg regData now today)])))
        | _ => getItem "prolens_registrations" (flags p)
        end
    | None => getItem "prolens_registrations" (flags p)
    end.
Proof.
  unfold LoginScreen.handleRegistration, try_catch. rewrite auto_add_run. cbn [flags set_flags].
  rewrite registrations_list_setItem by done.
  change (reg_phone (LoginScreen.newReg regData now today)) with (LoginScreen.phone regData).
  destruct (registrations_list (flags p)) as [l |];
    [destruct (some_phone (LoginScreen.phone regData) l) as [[] |] |];
    unfold modify; cbn [snd flags set_flags add_console]; unfold getItem, setItem;
    by rewrite ?lookup_insert_eq, ?lookup_insert_ne.
Qed.

Lemma registrations_list_ext (ls ls' : LocalStorage) :
  getItem "prolens_registrations" ls = getItem "prolens_registrations" ls' ->
  registrations_list ls = registrations_list ls'.
Proof. intros H. unfold registrations_list. by rewrite H. Qed.

Lemma handleRegistration_list regData now today p l :
  faithful codec ->
  registrations_list (flags p) = Some l ->
  some_phone (LoginScreen.phone regData) l = Some false ->
  registrations_list (flags (LoginScreen.handleRegistration regData now today p))
  = Some (l ++ [Registration_to_JSON (LoginScreen.newReg regData now today)]).
Proof.
  intros Hf Hl Hs.
  pose proof (handleRegistration_flags regData now today p) as H.
  rewrite Hl, Hs in H.
  rewrite <- (registrations_list_stored _ ∅ Hf).
  apply registrations_list_ext. rewrite H. unfold getItem, setItem.
  by rewrite lookup_insert_eq.
Qed.

Lemma handleRegistration_skips regData now today p l :
  registrations_list (flags p) = Some l ->
  some_phone (LoginScreen.phone regData) l = Some true ->
  getItem "prolens_registrations" (flags (LoginScreen.handleRegistration regData now today p))
  = getItem "prolens_registrations" (flags p).
Proof. intros Hl Hs. rewrite handleRegistration_flags. by rewrite Hl, Hs. Qed.

(** The second of two self-registrations with one phone number never
    writes the list. *)
Lemma second_registration_skipped regData1 regData2 now1 now2 today1 today2 p :
  faithful codec ->
  LoginScreen.phone regData1 = LoginScreen.phone regData2 ->
  getItem "prolens_registrations"
    (flags (LoginScreen.handleRegistration regData2 now2 today2
              (LoginScreen.handleRegistration regData1 now1 today1 p)))
  = getItem "prolens_registrations"
      (flags (LoginScreen.handleRegistration regData1 now1 today1 p)).
Proof.
  intros Hf Hph.
  destruct (registrations_list (flags p)) as [l |] eqn:Hl.
  - destruct (some_phone (LoginScreen.phone regData1) l) as [[] |] eqn:Hs.
    + rewrite handleRegistration_flags.
      rewrite (registrations_list_ext _ (flags p))
        by (by apply handleRegistration_skips with l).
      by rewrite Hl, <- Hph, Hs.
    + apply handleRegistration_skips
        with (l ++ [Registration_to_JSON (LoginScreen.newReg regData1 now1 today1)]).
      * by apply handleRegistration_list.
      * rewrite <- Hph. by apply some_phone_app_hit.
    + rewrite handleRegistration_flags.
      assert (getItem "prolens_registrations"
                (flags (LoginScreen.handleRegistration regData1 now1 today1 p))
              = getItem "prolens_registrations" (flags p)) as E
        by (by rewrite handleRegistration_flags, Hl, Hs).
      rewrite (registrations_list_ext _ (flags p) E).
      by rewrite Hl, <- Hph, Hs.
  - rewrite handleRegistration_flags.
    assert (getItem "prolens_registrations"
              (flags (LoginScreen.handleRegistration regData1 now1 today1 p))
            = getItem "prolens_registrations" (flags p)) as E
      by (by rewrite handleRegistration_flags, Hl).
    rewrite (registrations_list_ext _ (flags p) E). by rewrite Hl.
Qed.

(** Two manual entries, one after the other. *)
Lemma addManualRegistration_run manualReg now today p l :
  registrations p = JArr l ->
  AdminDashboard.name manualReg <> "" -> AdminDashboard.phone manualReg <> "" ->
  AdminDashboard.addManualRegistration manualReg now today p
  = (Ok tt,
     add_alert StudentAdded
       (set_flags (setItem "prolens_registrations"
                     (JSON_stringify (JArr (l ++ [AdminDashboard.newReg manualReg now today]))))
          (setRegistrations (JArr (l ++ [AdminDashboard.newReg manualReg now today])) p))).
Proof.
  intros Hl Hn Hp. unfold AdminDashboard.addManualRegistration.
  apply String.eqb_neq in Hn, Hp. rewrite Hn, Hp. cbn [orb].
  destruct p; cbn in Hl; subst. reflexivity.
Qed.

(** C4: registration deduplication is path-specific.  Two
    self-registrations with one phone number leave exactly one entry
    with that number in the registrations list (here: a list that had
    none), the second add being skipped whatever the list held; two
    manual admin entries with one phone number are both appended. *)
Theorem registration_dedup_is_path_specific :
  faithful codec ->
  (forall regData1 regData2 now1 now2 today1 today2 p l,
     LoginScreen.phone regData1 = LoginScreen.phone regData2 ->
     registrations_list (flags p) = Some l ->
     some_phone (LoginScreen.phone regData1) l = Some false ->
     registrations_list
       (flags (LoginScreen.handleRegistration regData2 now2 today2
                 (LoginScreen.handleRegistration regData1 now1 today1 p)))
       = Some (l ++ [Registration_to_JSON (LoginScreen.newReg regData1 now1 today1)]) /\
     count_phone (LoginScreen.phone regData1)
       (l ++ [Registration_to_JSON (LoginScreen.newReg regData1 now1 today1)]) = 1) /\
  (forall regData1 regData2 now1 now2 today1 today2 p,
     LoginScreen.phone regData1 = LoginScreen.phone regData2 ->
     getItem "prolens_registrations"
       (flags (LoginScreen.handleRegistration regData2 now2 today2
                 (LoginScreen.handleRegistration regData1 now1 today1 p)))
     = getItem "prolens_registrations"
         (flags (LoginScreen.handleRegistration regData1 now1 today1 p))) /\
  (forall manualReg1 manualReg2 now1 now2 today1 today2 p l,
     AdminDashboard.phone manualReg1 = AdminDashboard.phone manualReg2 ->
     AdminDashboard.name manualReg1 <> "" -> AdminDashboard.name manualReg2 <> "" ->
     AdminDashboard.phone manualReg1 <> "" ->
     registrations p = JArr l ->
     let added := [ AdminDashboard.newReg manualReg1 now1 today1;
                    AdminDashboard.newReg manualReg2 now2 today2 ] in
     let p2 := (AdminDashboard.addManualRegistration manualReg2 now2 today2
                  (AdminDashboard.addManualRegistration manualReg1 now1 today1 p).2).2 in
     registrations p2 = JArr (l ++ added) /\
     registrations_list (flags p2) = Some (l ++ added) /\
     count_phone (AdminDashboard.phone manualReg1) (l ++ added)
       = count_phone (AdminDashboard.phone manualReg1) l + 2).
Proof.
  intros Hf. split; [| split].
  - intros regData1 regData2 now1 now2 today1 today2 p l Hph Hl Hs. split.
    + rewrite <- (handleRegistration_list regData1 now1 today1 p l Hf Hl Hs).
      apply registrations_list_ext. by apply second_registration_skipped.
    + rewrite count_phone_app, (count_phone_miss _ _ Hs).
      unfold count_phone. cbn [List.filter].
      by rewrite bool_decide_eq_true_2 by reflexivity.
  - intros. by apply second_registration_skipped.
  - intros m1 m2 now1 now2 today1 today2 p l Hph Hn1 Hn2 Hp1 Hl added p2.
    subst p2. rewrite (addManualRegistration_run m1 now1 today1 p l Hl Hn1 Hp1).
    cbn [snd].
    erewrite addManualRegistration_run; [| reflexivity | done | by rewrite <- Hph].
    cbn [snd registrations flags add_alert set_flags setRegistrations].
    rewrite <- app_assoc. cbn [app]. split; [done |]. split.
    + by apply registrations_list_stored.
    + rewrite count_phone_app. f_equal. subst added. unfold count_phone.
      cbn [List.filter].
      rewrite bool_decide_eq_true_2 by reflexivity.
      by rewrite bool_decide_eq_true_2 by (by rewrite Hph).
Qed.
End Registrations.

(** ** Keeping a property through a handler *)

Lemma for_each_preserves_in {S A} (I : S -> Prop) (body : A -> M S unit) l s :
  (forall x, x ∈ l -> forall s0, I s0 -> I (body x s0).2) -> I s -> I (for_each l body s).2.
Proof.
  revert s. induction l as [| x l IH]; intros s Hbody Hs; [done |].
  cbn [for_each]. unfold mbind, M_bind.
  pose proof (Hbody x ltac:(left) s Hs) as Hx.
  destruct (body x s) as [[[] | |] s1]; cbn in *; [| done | done].
  apply IH; [| done]. intros y Hy. apply Hbody. by right.
Qed.

Lemma for_each_frame {S A T} (proj : S -> T) (body : A -> M S unit) l s :
  (forall x s0, proj (body x s0).2 = proj s0) -> proj (for_each l body s).2 = proj s.
Proof.
  intros Hb. apply (for_each_preserves (fun s' => proj s' = proj s)); [| done].
  intros x s0 <-. apply Hb.
Qed.

Lemma preserves_ret {S A} (I : S -> Prop) (a : A) : preserves I (mret a).
Proof. by intros s. Qed.

Lemma preserves_throw {S A} (I : S -> Prop) : preserves I (@throw S A).
Proof. by intros s. Qed.

Lemma preserves_pending {S A} (I : S -> Prop) : preserves I (@pending S A).
Proof. by intros s. Qed.

Lemma preserves_await {S} (I : S -> Prop) r : preserves I (@await S r).
Proof. by intros s. Qed.

Lemma preserves_gets {S A} (I : S -> Prop) (f : S -> A) : preserves I (gets f).
Proof. by intros s. Qed.

Lemma preserves_modify {S} (I : S -> Prop) (f : S -> S) :
  (forall s, I s -> I (f s)) -> preserves I (modify f).
Proof. intros H s Hs. by apply H. Qed.

Lemma preserves_bind {S A B} (I : S -> Prop) (m : M S A) (f : A -> M S B) :
  preserves I m -> (forall a, preserves I (f a)) -> preserves I (m ≫= f).
Proof.
  intros Hm Hf s Hs. unfold mbind, M_bind. specialize (Hm s Hs).
  destruct (m s) as [[a | |] s']; cbn in *; [by apply Hf | done | done].
Qed.

Lemma preserves_try_catch {S A} (I : S -> Prop) (m h : M S A) :
  preserves I m -> preserves I h -> preserves I (try_catch m h).
Proof.
  intros Hm Hh s Hs. unfold try_catch. specialize (Hm s Hs).
  destruct (m s) as [[a | |] s']; cbn in *; [done | by apply Hh | done].
Qed.

Lemma preserves_when {S} (I : S -> Prop) c (m : M S unit) :
  preserves I m -> preserves I (when c m).
Proof. intros Hm. destruct c; [done | apply preserves_ret]. Qed.

Lemma preserves_detached {S A} (I : S -> Prop) (m : M S A) :
  preserves I m -> preserves I (detached m).
Proof. intros Hm s Hs. by apply Hm. Qed.

Lemma preserves_for_each {S A} (I : S -> Prop) (l : list A) (body : A -> M S unit) :
  (forall x, preserves I (body x)) -> preserves I (for_each l body).
Proof.
  intros Hb. induction l as [| x l IH]; [apply preserves_ret |].
  cbn [for_each]. apply preserves_bind; [apply Hb | by intros _].
Qed.

Ltac preserve_step :=
  lazymatch goal with
  | |- preserves _ (mret _) => apply preserves_ret
  | |- preserves _ throw => apply preserves_throw
  | |- preserves _ pending => apply preserves_pending
  | |- preserves _ (await _) => apply preserves_await
  | |- preserves _ (gets _) => apply preserves_gets
  | |- preserves _ (modify _) =>
      apply preserves_modify; let H := fresh in intros ? H; try exact H
  | |- preserves _ (mbind _ _) => apply preserves_bind; [| intros ?]
  | |- preserves _ (try_catch _ _) => apply preserves_try_catch
  | |- preserves _ (when _ _) => apply preserves_when
  | |- preserves _ (detached _) => apply preserves_detached
  | |- preserves _ (for_each _ _) => apply preserves_for_each; intros ?
  end.

Ltac preserve := repeat preserve_step.

(** ** The local write paths leave the Cloud Mirror alone *)

Section Local.
Import firebase LearningBox.
Variable w0 : World.

Lemma saveMaterialToLocalDB_untouched m fate :
  preserves (cloud_untouched w0) (saveMaterialToLocalDB m fate).
Proof.
  intros w Hw. unfold saveMaterialToLocalDB.
  destruct fate; [| done | done].
  by destruct (put (LearningMaterial_to_JSON m) (local_db w)).
Qed.

Lemma deleteMaterialFromLocalDB_untouched id fate :
  preserves (cloud_untouched w0) (deleteMaterialFromLocalDB id fate).
Proof. unfold deleteMaterialFromLocalDB. destruct fate; by preserve. Qed.

Lemma markMaterialsAsAnalyzed_untouched h fate snapshot toMark :
  preserves (cloud_untouched w0) (markMaterialsAsAnalyzed false h fate snapshot toMark).
Proof.
  unfold markMaterialsAsAnalyzed. preserve. apply saveMaterialToLocalDB_untouched.
Qed.

Lemma process_file_untouched h file amb :
  preserves (cloud_untouched w0) (process_file false h file amb).
Proof.
  unfold process_file. destruct (_ <? _)%N; [by preserve |].
  preserve.
  - destruct (dataURL amb); by preserve.
  - apply saveMaterialToLocalDB_untouched.
Qed.

Lemma process_loop_untouched h files hasError newMaterials :
  preserves (cloud_untouched w0) (process_loop false h files hasError newMaterials).
Proof.
  revert hasError newMaterials. induction files as [| [file amb] files IH];
    intros hasError newMaterials; [apply preserves_ret |].
  cbn [process_loop]. apply preserves_bind.
  - preserve. apply process_file_untouched.
  - intros [failed pushed]. apply IH.
Qed.

Lemma processFiles_untouched h fate snapshot topic files isAssignment :
  preserves (cloud_untouched w0)
    (processFiles false h fate snapshot topic files isAssignment).
Proof.
  unfold processFiles. apply preserves_bind; [by preserve | intros _].
  apply preserves_bind; [apply process_loop_untouched | intros [hasError newMaterials]].
  apply preserves_bind; [by preserve | intros _].
  destruct topic; [| apply preserves_ret].
  unfold handleAssignmentSubmission. preserve. apply markMaterialsAsAnalyzed_untouched.
Qed.

Lemma removeMaterial_untouched h fate id contentUrl confirmed :
  preserves (cloud_untouched w0) (removeMaterial false h fate id contentUrl confirmed).
Proof.
  unfold removeMaterial. preserve. apply deleteMaterialFromLocalDB_untouched.
Qed.

Lemma handle_untouched h fate snapshot e :
  preserves (cloud_untouched w0) (handle false h fate snapshot e).
Proof.
  destruct e; cbn [handle].
  - apply processFiles_untouched.
  - apply removeMaterial_untouched.
  - unfold handleSend. preserve. apply markMaterialsAsAnalyzed_untouched.
  - unfold handleTopicLearn. preserve. apply markMaterialsAsAnalyzed_untouched.
  - unfold handleResetProgress. preserve. destruct opened; preserve.
Qed.
End Local.

(** C3: with the Cloud Mirror not configured, every material write
    path (upload, delete, mark-analyzed) works on the local document
    store only: no Cloud Mirror function is called and nothing remote
    changes. *)
Theorem unconfigured_writes_stay_local apiKey mounted h fate snapshot e w :
  firebase.isFirebaseConfigured apiKey = false ->
  cloud_untouched w
    (LearningBox.handle (LearningBox.isCloudConfigured apiKey mounted) h fate snapshot e w).2.
Proof.
  intros H.
  assert (LearningBox.isCloudConfigured apiKey mounted = false) as ->
    by (unfold LearningBox.isCloudConfigured; destruct mounted; done).
  by apply (handle_untouched w).
Qed.

Lemma unconfigured_writes_stay_local_witness :
  firebase.isFirebaseConfigured "YOUR_API_KEY_HERE" = false /\
  cloud_untouched Sample.empty_world
    (LearningBox.handle (LearningBox.isCloudConfigured "YOUR_API_KEY_HERE" true)
       Sample.no_handles Sample.kind (materials Sample.empty_world)
       (LearningBox.Upload [(Sample.photo, Sample.quiet)] false None)
       Sample.empty_world).2.
Proof.
  split; [reflexivity |].
  apply (unconfigured_writes_stay_local "YOUR_API_KEY_HERE" true). reflexivity.
Defined.

(** ** The cloud upload path *)

Lemma assoc_set_prop_ne k k' v o : k' <> k -> assoc k' (set_prop k v o) = assoc k' o.
Proof.
  intros Hk. apply String.eqb_neq in Hk.
  induction o as [| [k1 v1] o IH]; cbn.
  - rewrite String.eqb_sym. by rewrite Hk.
  - destruct (String.eqb k1 k) eqn:E; cbn; [| by rewrite IH].
    apply String.eqb_eq in E as ->. rewrite String.eqb_sym. by rewrite Hk.
Qed.

Lemma uploads_app c1 c2 : uploads (c1 ++ c2) = uploads c1 ++ uploads c2.
Proof. unfold uploads. apply omap_app. Qed.

Section Cloud.
Import firebase LearningBox.

Lemma process_file_cloud h file amb w :
  (process_file true h file amb w).1 <> Pending /\
  uploads (cloud_calls (process_file true h file amb w).2)
    = uploads (cloud_calls w) ++ [file] /\
  shown (process_file true h file amb w).2 = shown w /\
  local_db (process_file true h file amb w).2 = local_db w.
Proof.
  unfold process_file, uploadFileToCloud, addMaterialToCloud.
  destruct (storage h), (url amb), (db h), (docId amb); run; cbn;
    rewrite ?uploads_app, ?app_nil_r; cbn; rewrite ?app_nil_r; done.
Qed.

Lemma process_loop_cloud h files hasError newMaterials w :
  exists r w',
    process_loop true h files hasError newMaterials w = (Ok r, w') /\
    uploads (cloud_calls w') = uploads (cloud_calls w) ++ files.*1 /\
    shown w' = shown w /\ local_db w' = local_db w.
Proof.
  revert hasError newMaterials w. induction files as [| [file amb] files IH];
    intros hasError newMaterials w.
  - exists (hasError, newMaterials), w. by rewrite app_nil_r.
  - cbn [process_loop].
    destruct (process_file_cloud h file amb w) as (Hp & Hu & Hs & Hl).
    destruct (process_file true h file amb w) as [[pushed | |] w1] eqn:E; [| | done].
    + erewrite bind_ok by (unfold try_catch; erewrite bind_ok by exact E; reflexivity).
      destruct (IH (hasError || false) (newMaterials ++ pushed) w1) as (r & w' & -> & Hu' & Hs' & Hl').
      exists r, w'. cbn [fst snd] in *.
      rewrite Hu', Hu, Hs', Hs, Hl', Hl, <- app_assoc. done.
    + erewrite bind_ok by (unfold try_catch; erewrite bind_throw by exact E; reflexivity).
      destruct (IH (hasError || true) (newMaterials ++ []) (console_error ErrorSavingFileLog w1))
        as (r & w' & -> & Hu' & Hs' & Hl').
      exists r, w'. cbn [fst snd] in *.
      rewrite Hu', Hs', Hl'. cbn [cloud_calls shown local_db console_error].
      rewrite Hu, Hs, Hl, <- app_assoc. done.
Qed.

Lemma updateMaterialAnalysis_cloud_run files al s h id b updated :
  preserves (cloud_run files al s) (updateMaterialAnalysis h id b updated).
Proof.
  intros w (Hu & Hs & Hl). unfold updateMaterialAnalysis, cloud_run.
  destruct (db h); run; cbn; [| by rewrite uploads_app, app_nil_r].
  destruct (cloud_docs w !! id) as [[| | | | | o] |]; try destruct updated; cbn;
    by rewrite uploads_app, app_nil_r.
Qed.

Lemma markMaterialsAsAnalyzed_cloud_run files al s h fate snapshot toMark :
  preserves (cloud_run files al s) (markMaterialsAsAnalyzed true h fate snapshot toMark).
Proof.
  unfold markMaterialsAsAnalyzed. preserve. apply updateMaterialAnalysis_cloud_run.
Qed.

(** The local branch does reject by size. *)
Lemma local_upload_rejects_oversize h file amb w :
  (15 * 1024 * 1024 < file_size file)%N ->
  process_file false h file amb w = (Ok [], alert (TooLargeForLocal (file_name file)) w).
Proof.
  intros H. unfold process_file. apply N.ltb_lt in H. by rewrite H.
Qed.
(** What is in the cloud stays there while other files are uploaded
    and while materials are marked. *)
Lemma process_file_in_cloud f u i h file amb :
  docId amb <> Some i ->
  preserves (in_cloud f u i) (process_file true h file amb).
Proof.
  intros Hne w (Hb & o & Hd & Hc & Hn).
  unfold process_file, uploadFileToCloud, addMaterialToCloud, in_cloud.
  destruct (storage h), (url amb) as [u' |], (db h), (docId amb) as [i' |]; run; cbn;
    (split; [set_solver |]); exists o; split_and!; try done.
  rewrite lookup_insert_ne; [done | congruence].
Qed.

Lemma process_loop_in_cloud f u i h files hasError newMaterials :
  Forall (fun fa => docId fa.2 <> Some i) files ->
  preserves (in_cloud f u i) (process_loop true h files hasError newMaterials).
Proof.
  intros H. revert hasError newMaterials.
  induction H as [| [file amb] files Hne _ IH]; intros hasError newMaterials.
  - apply preserves_ret.
  - cbn [process_loop]. apply preserves_bind.
    + preserve. by apply process_file_in_cloud.
    + intros [failed pushed]. apply IH.
Qed.

Lemma updateMaterialAnalysis_in_cloud f u i h id b updated :
  preserves (in_cloud f u i) (updateMaterialAnalysis h id b updated).
Proof.
  intros w (Hb & o & Hd & Hc & Hn). unfold updateMaterialAnalysis, in_cloud.
  destruct (db h); run; cbn; [| by eauto].
  destruct (cloud_docs w !! id) as [[| | | | | o'] |] eqn:E; try destruct updated; cbn;
    try (split; [done |]; by exists o).
  split; [done |]. destruct (decide (id = i)) as [-> | Hne].
  - rewrite Hd in E. injection E as <-.
    exists (set_prop "isAnalyzed" (JBool b) o). rewrite lookup_insert_eq.
    by rewrite !assoc_set_prop_ne.
  - exists o. by rewrite lookup_insert_ne.
Qed.

Lemma markMaterialsAsAnalyzed_in_cloud f u i h fate snapshot toMark :
  preserves (in_cloud f u i) (markMaterialsAsAnalyzed true h fate snapshot toMark).
Proof.
  unfold markMaterialsAsAnalyzed. preserve. apply updateMaterialAnalysis_in_cloud.
Qed.

(** With both handles in place, a file whose upload resolves is in the
    cloud after its turn, whatever its size. *)
Lemma process_file_stores h file amb u i w :
  storage h = true -> db h = true -> url amb = Some u -> docId amb = Some i ->
  (process_file true h file amb w).1 <> Throw /\
  in_cloud file u i (process_file true h file amb w).2.
Proof.
  intros Hs Hd Hu Hi. unfold process_file, uploadFileToCloud, addMaterialToCloud, in_cloud.
  rewrite Hs, Hd, Hu, Hi. run. cbn. split; [done |]. split; [set_solver |].
  eexists. rewrite lookup_insert_eq. split; [reflexivity |]. done.
Qed.

Lemma process_loop_stores h files hasError newMaterials w :
  storage h = true -> db h = true ->
  NoDup (omap (fun fa : File * Ambient => docId fa.2) files) ->
  forall file amb u i,
    (file, amb) ∈ files -> url amb = Some u -> docId amb = Some i ->
    in_cloud file u i (process_loop true h files hasError newMaterials w).2.
Proof.
  intros Hs Hd. revert hasError newMaterials w.
  induction files as [| [file0 amb0] files IH]; intros hasError newMaterials w Hnd
    file amb u i Hin Hu Hi; [by apply elem_of_nil in Hin |].
  apply elem_of_cons in Hin as [[= -> ->] | Hin].
  - cbn [omap list_omap snd] in Hnd. rewrite Hi in Hnd. apply NoDup_cons in Hnd as [Hfresh _].
    cbn [process_loop].
    destruct (process_file_stores h file0 amb0 u i w Hs Hd Hu Hi) as [Hok Hc].
    unfold mbind at 1, M_bind at 1, try_catch, mbind at 1, M_bind at 1.
    destruct (process_file true h file0 amb0 w) as [[pushed | |] w1]; [| done |]; cbn in *.
    + apply process_loop_in_cloud; [| done].
      apply Forall_forall. intros fa Hfa E. apply Hfresh.
      apply list_elem_of_omap. by exists fa.
    + done.
  - assert (NoDup (omap (fun fa : File * Ambient => docId fa.2) files)) as Hnd'.
    { cbn [omap list_omap] in Hnd. destruct (docId (file0, amb0).2); [| done].
      by apply NoDup_cons in Hnd as [_ ?]. }
    cbn [process_loop]. unfold mbind at 1, M_bind at 1.
    destruct (try_catch _ _ w) as [[[failed pushed] | |] w1] eqn:E.
    + by eapply IH.
    + exfalso. revert E. unfold try_catch, mbind, M_bind.
      by destruct (process_file true h file0 amb0 w) as [[] ?].
    + exfalso. revert E. unfold try_catch, mbind, M_bind.
      destruct (process_file_cloud h file0 amb0 w) as (Hp & _).
      by destruct (process_file true h file0 amb0 w) as [[] ?].
Qed.

(** C9: with the Cloud Mirror configured, [processFiles] hands every
    file to the uploader whatever its size, shows no size-limit
    message and writes nothing locally; the 15MB rejection sits in the
    local branch only.  With the storage and database handles in
    place, every file of the list whose upload and whose document
    write resolve is in the cloud afterwards, its blob under the
    download URL and a document with that URL as its content (the
    server assigning a new id to each document). *)
Theorem cloud_upload_has_no_size_check apiKey h fate snapshot topic files isAssignment w :
  isFirebaseConfigured apiKey = true ->
  uploads (cloud_calls (processFiles (isCloudConfigured apiKey true) h fate snapshot topic
                          files isAssignment w).2)
    = uploads (cloud_calls w) ++ files.*1 /\
  shown (processFiles (isCloudConfigured apiKey true) h fate snapshot topic
           files isAssignment w).2 = shown w /\
  local_db (processFiles (isCloudConfigured apiKey true) h fate snapshot topic
              files isAssignment w).2 = local_db w /\
  (forall file amb, (15 * 1024 * 1024 < file_size file)%N ->
     process_file false h file amb w
     = (Ok [], alert (TooLargeForLocal (file_name file)) w)) /\
  (storage h = true -> db h = true ->
   NoDup (omap (fun fa : File * Ambient => docId fa.2) files) ->
   forall file amb u i,
     (file, amb) ∈ files -> url amb = Some u -> docId amb = Some i ->
     in_cloud file u i
       (processFiles (isCloudConfigured apiKey true) h fate snapshot topic
          files isAssignment w).2).
Proof.
  intros Hc. unfold isCloudConfigured. rewrite Hc.
  cut ((uploads (cloud_calls (processFiles true h fate snapshot topic files isAssignment w).2)
          = uploads (cloud_calls w) ++ files.*1 /\
        shown (processFiles true h fate snapshot topic files isAssignment w).2 = shown w /\
        local_db (processFiles true h fate snapshot topic files isAssignment w).2
          = local_db w) /\
       (storage h = true -> db h = true ->
        NoDup (omap (fun fa : File * Ambient => docId fa.2) files) ->
        forall file amb u i,
          (file, amb) ∈ files -> url amb = Some u -> docId amb = Some i ->
          in_cloud file u i
            (processFiles true h fate snapshot topic files isAssignment w).2)).
  { intros ((H1 & H2 & H3) & H4). split_and!; try done.
    intros; by apply local_upload_rejects_oversize. }
  unfold processFiles. erewrite bind_ok by reflexivity.
  pose proof (process_loop_stores h files false [] (setSaveStatus saving w)) as Hstores.
  destruct (process_loop_cloud h files false [] (setSaveStatus saving w))
    as ([hasError newMaterials] & w1 & E & Hu & Hs & Hl).
  rewrite E in Hstores. cbn [snd] in Hstores.
  erewrite bind_ok by exact E. cbn beta iota.
  erewrite bind_ok by reflexivity.
  assert (cloud_run (uploads (cloud_calls w) ++ files.*1) (shown w) (local_db w)
            (setSaveStatus (if hasError then error else saved) w1)) as Hrun by done.
  assert (forall file u i, in_cloud file u i w1 ->
            in_cloud file u i (setSaveStatus (if hasError then error else saved) w1))
    as Hkeep by done.
  revert Hrun Hkeep.
  generalize (setSaveStatus (if hasError then error else saved) w1). intros w2 Hrun Hkeep.
  assert (forall m : M World unit,
            preserves (cloud_run (uploads (cloud_calls w) ++ files.*1) (shown w) (local_db w)) m ->
            (forall file u i, preserves (in_cloud file u i) m) ->
            (uploads (cloud_calls (m w2).2) = uploads (cloud_calls w) ++ files.*1 /\
             shown (m w2).2 = shown w /\ local_db (m w2).2 = local_db w) /\
            (storage h = true -> db h = true ->
             NoDup (omap (fun fa : File * Ambient => docId fa.2) files) ->
             forall file amb u i,
               (file, amb) ∈ files -> url amb = Some u -> docId amb = Some i ->
               in_cloud file u i (m w2).2)) as Hm.
  { intros m Hpm Hpc. split; [exact (Hpm w2 Hrun) |].
    intros Hst Hdb Hnd file amb u i Hin Hurl Hid.
    apply Hpc, Hkeep. by eapply Hstores. }
  apply Hm.
  - destruct topic; [| apply preserves_ret].
    unfold handleAssignmentSubmission. preserve. apply markMaterialsAsAnalyzed_cloud_run.
  - intros file u i. destruct topic; [| apply preserves_ret].
    unfold handleAssignmentSubmission. preserve. apply markMaterialsAsAnalyzed_in_cloud.
Qed.

End Cloud.

Lemma cloud_upload_has_no_size_check_witness :
  firebase.isFirebaseConfigured "AIzaSyExample" = true /\
  uploads (cloud_calls
             (LearningBox.processFiles (LearningBox.isCloudConfigured "AIzaSyExample" true)
                (firebase.init "AIzaSyExample" true) Sample.kind [] None
                [(Sample.photo, Sample.quiet)] false Sample.empty_world).2)
    = uploads (cloud_calls Sample.empty_world) ++ [(Sample.photo, Sample.quiet)].*1 /\
  in_cloud Sample.photo "https://firebasestorage.googleapis.com/o/portrait.jpg" "doc1"
    (LearningBox.processFiles (LearningBox.isCloudConfigured "AIzaSyExample" true)
       (firebase.init "AIzaSyExample" true) Sample.kind [] None
       [(Sample.photo, Sample.quiet)] false Sample.empty_world).2.
Proof.
  split; [reflexivity |].
  destruct (cloud_upload_has_no_size_check "AIzaSyExample"
              (firebase.init "AIzaSyExample" true) Sample.kind [] None
              [(Sample.photo, Sample.quiet)] false Sample.empty_world eq_refl)
    as (Hcalls & _ & _ & _ & Hcloud).
  split; [exact Hcalls |].
  apply (Hcloud eq_refl eq_refl (NoDup_singleton _) Sample.photo Sample.quiet);
    [apply elem_of_cons; by left | reflexivity | reflexivity].
Defined.

(** ** Size limits *)

Section Sizes.
Import firebase LearningBox.

Lemma oversize_local_upload h fate snapshot topic file amb isAssignment w :
  (15 * 1024 * 1024 < file_size file)%N ->
  shown (processFiles false h fate snapshot topic [(file, amb)] isAssignment w).2
    = shown w ++ [TooLargeForLocal (file_name file)] /\
  local_db (processFiles false h fate snapshot topic [(file, amb)] isAssignment w).2
    = local_db w.
Proof.
  intros Hsize. unfold processFiles. erewrite bind_ok by reflexivity.
  assert (forall w1, process_loop false h [(file, amb)] false [] w1
                     = (Ok (false, []), alert (TooLargeForLocal (file_name file)) w1)) as E.
  { intros w1. cbn [process_loop]. unfold mbind, M_bind, try_catch.
    by rewrite local_upload_rejects_oversize. }
  erewrite bind_ok by apply E.
  cbn beta iota. erewrite bind_ok by reflexivity.
  destruct topic as [topic |]; [| done].
  destruct (isAssignment && negb (String.eqb topic "") && bool_decide (topic ∈ TOPICS));
    [| done].
  unfold when, detached, handleAssignmentSubmission, markMaterialsAsAnalyzed. by run.
Qed.
End Sizes.

Lemma presentation_upload file amb content c :
  (file_size file <= 50 * 1024 * 1024)%N ->
  CourseRegistration.dataURL amb = Some content ->
  CourseRegistration.stored amb = Ok tt ->
  CourseRegistration.presentations_db c !! JStr (pretty (CourseRegistration.now amb)) = None ->
  length (getAll (CourseRegistration.presentations_db
                    (CourseRegistration.handleFileChange (Some file) amb c).2))
    = S (length (getAll (CourseRegistration.presentations_db c))) /\
  CourseRegistration.course_alerts (CourseRegistration.handleFileChange (Some file) amb c).2
    = CourseRegistration.course_alerts c.
Proof.
  intros Hsize Hdata Hstored Hfresh. unfold CourseRegistration.handleFileChange.
  apply N.leb_le in Hsize. rewrite N.ltb_antisym, Hsize. cbn [negb].
  rewrite Hdata. erewrite bind_ok by reflexivity.
  unfold finally, try_catch, CourseRegistration.saveToDB. rewrite Hstored.
  unfold mbind at 1, M_bind at 1. cbn -[pretty getAll].
  rewrite !length_getAll. by rewrite map_size_insert_None.
Qed.

(** C5: the size limit is path-specific.  A file above 15MB (here: up
    to the 50MB cap of the presentation path, a 20MB file say) is
    rejected by the chat-materials path in local mode with the
    size-limit message, the document store staying as it was; the same
    file uploaded on the presentation path is stored, and [getAll()]
    of the presentation store grows by one. *)
Theorem size_limit_is_path_specific file :
  (15 * 1024 * 1024 < file_size file)%N ->
  (file_size file <= 50 * 1024 * 1024)%N ->
  (forall apiKey mounted h fate snapshot topic amb isAssignment w,
     firebase.isFirebaseConfigured apiKey = false ->
     shown (LearningBox.processFiles (LearningBox.isCloudConfigured apiKey mounted)
              h fate snapshot topic [(file, amb)] isAssignment w).2
       = shown w ++ [TooLargeForLocal (file_name file)] /\
     getAll (local_db (LearningBox.processFiles (LearningBox.isCloudConfigured apiKey mounted)
                         h fate snapshot topic [(file, amb)] isAssignment w).2)
       = getAll (local_db w)) /\
  (forall amb content c,
     CourseRegistration.dataURL amb = Some content ->
     CourseRegistration.stored amb = Ok tt ->
     CourseRegistration.presentations_db c !! JStr (pretty (CourseRegistration.now amb)) = None ->
     length (getAll (CourseRegistration.presentations_db
                       (CourseRegistration.handleFileChange (Some file) amb c).2))
       = S (length (getAll (CourseRegistration.presentations_db c))) /\
     CourseRegistration.course_alerts (CourseRegistration.handleFileChange (Some file) amb c).2
       = CourseRegistration.course_alerts c).
Proof.
  intros Hlow Hhigh. split.
  - intros apiKey mounted h fate snapshot topic amb isAssignment w Hc.
    assert (LearningBox.isCloudConfigured apiKey mounted = false) as ->
      by (unfold LearningBox.isCloudConfigured; destruct mounted; done).
    destruct (oversize_local_upload h fate snapshot topic file amb isAssignment w Hlow)
      as [-> ->]. done.
  - intros amb content c Hdata Hstored Hfresh. by apply (presentation_upload file amb content c).
Qed.

Lemma size_limit_is_path_specific_witness :
  (15 * 1024 * 1024 < file_size Sample.photo)%N /\
  (file_size Sample.photo <= 50 * 1024 * 1024)%N /\
  length (getAll (CourseRegistration.presentations_db
                    (CourseRegistration.handleFileChange (Some Sample.photo)
                       Sample.slide_upload Sample.empty_course).2))
    = S (length (getAll (CourseRegistration.presentations_db Sample.empty_course))).
Proof.
  split; [reflexivity |]. split; [by vm_compute |].
  apply (proj2 (size_limit_is_path_specific Sample.photo ltac:(reflexivity)
                  ltac:(by vm_compute)) Sample.slide_upload "data:image/jpeg;base64,AAAA"
           Sample.empty_course); reflexivity.
Defined.

(** ** Deleting a cloud-backed material *)

(** C6: [deleteMaterialFromCloud] deletes the document record first
    (when that fails nothing is done to the blob); when the content
    reference points into object storage the blob delete is
    best-effort: its failure is caught and logged, the call still
    returns normally, the record stays deleted, and the caller shows
    no error. *)
Theorem blob_delete_failure_is_swallowed h id fileUrl blobDeleted w :
  firebase.db h = true ->
  (firebase.deleteMaterialFromCloud h id fileUrl true blobDeleted w).1 = Ok tt /\
  cloud_docs (firebase.deleteMaterialFromCloud h id fileUrl true blobDeleted w).2
    = delete id (cloud_docs w) /\
  (exists rest,
     remote_ops (firebase.deleteMaterialFromCloud h id fileUrl true blobDeleted w).2
       = remote_ops w ++ DeleteDoc id :: rest /\
     (blobDeleted = false -> rest = [])) /\
  (points_into_storage fileUrl && firebase.storage h = true -> blobDeleted = false ->
     logged (firebase.deleteMaterialFromCloud h id fileUrl true blobDeleted w).2
       = logged w ++ [StorageDeleteErrorLog] /\
     cloud_blobs (firebase.deleteMaterialFromCloud h id fileUrl true blobDeleted w).2
       = cloud_blobs w) /\
  (firebase.deleteMaterialFromCloud h id fileUrl false blobDeleted w).1 = Throw /\
  remote_ops (firebase.deleteMaterialFromCloud h id fileUrl false blobDeleted w).2
    = remote_ops w /\
  (forall fate contentUrl,
     LearningBox.docDeleted fate id = true ->
     shown (LearningBox.removeMaterial true h fate id contentUrl true w).2 = shown w).
Proof.
  intros Hdb. unfold LearningBox.removeMaterial, firebase.deleteMaterialFromCloud,
    points_into_storage.
  rewrite Hdb.
  split_and!.
  - destruct fileUrl as [url |]; [| by run].
    destruct (negb (String.eqb url "") && includes url "firebasestorage" && firebase.storage h),
      blobDeleted; by run.
  - destruct fileUrl as [url |]; [| by run].
    destruct (negb (String.eqb url "") && includes url "firebasestorage" && firebase.storage h),
      blobDeleted; by run.
  - destruct fileUrl as [url |]; [| exists []; by run].
    destruct (negb (String.eqb url "") && includes url "firebasestorage" && firebase.storage h),
      blobDeleted; run; cbn; rewrite <- ?app_assoc;
      first [by exists [DeleteObject url] | by exists []].
  - intros H ->. destruct fileUrl as [url |]; [| done]. rewrite H. by run.
  - by run.
  - by run.
  - intros fate contentUrl Hd. rewrite Hd.
    destruct (negb (String.eqb contentUrl "") && includes contentUrl "firebasestorage"
              && firebase.storage h), (LearningBox.blobDeleted fate contentUrl); by run.
Qed.

Lemma blob_delete_failure_is_swallowed_witness :
  firebase.db (firebase.init "AIzaSyExample" true) = true /\
  (firebase.deleteMaterialFromCloud (firebase.init "AIzaSyExample" true) "doc1"
     (Some "https://firebasestorage.googleapis.com/o/portrait.jpg") true false
     Sample.empty_world).1 = Ok tt.
Proof.
  split; [reflexivity |].
  apply (blob_delete_failure_is_swallowed (firebase.init "AIzaSyExample" true) "doc1"
           (Some "https://firebasestorage.googleapis.com/o/portrait.jpg") false
           Sample.empty_world).
  reflexivity.
Defined.

(** ** Marking materials as analyzed *)

Lemma keeps_analyzed_refl {K} `{Countable K} (s : gmap K JSON) : keeps_analyzed s s.
Proof. intros k r Hk Hr. eauto. Qed.

Lemma keeps_analyzed_insert {K} `{Countable K} (s s' : gmap K JSON) k r :
  keeps_analyzed s s' -> record_analyzed r = true -> keeps_analyzed s (<[k := r]> s').
Proof.
  intros Hs Hr k' r' Hk' Hr'. destruct (decide (k = k')) as [<- | Hne].
  - exists r. by rewrite lookup_insert_eq.
  - rewrite lookup_insert_ne by done. by apply (Hs k' r').
Qed.

Lemma record_analyzed_marked m :
  record_analyzed (LearningMaterial_to_JSON (with_isAnalyzed true m)) = true.
Proof. by destruct m as [i t n c [mt |] a]. Qed.

Lemma assoc_set_prop k v o : assoc k (set_prop k v o) = Some v.
Proof.
  induction o as [| [k' v'] o IH]; cbn.
  - by rewrite String.eqb_refl.
  - destruct (String.eqb k' k) eqn:E; cbn; [by rewrite String.eqb_refl | by rewrite E].
Qed.

Lemma with_isAnalyzed_analyzed m : analyzed m = true -> with_isAnalyzed true m = m.
Proof.
  destruct m as [i t n c mt [[] |]]; unfold analyzed, with_isAnalyzed; cbn; done.
Qed.

Lemma flags_kept_refl ms : flags_kept ms ms.
Proof. unfold flags_kept. induction ms; by constructor. Qed.

Lemma flags_kept_map f ms :
  (forall m, f m = m \/ f m = with_isAnalyzed true m) -> flags_kept ms (List.map f ms).
Proof.
  intros Hf. unfold flags_kept. induction ms as [| m ms IH]; cbn; constructor; [| done].
  destruct (Hf m) as [-> | ->]; done.
Qed.

Section Marking.
Import firebase LearningBox.

Lemma saveMaterialToLocalDB_frame m fate w :
  materials (saveMaterialToLocalDB m fate w).2 = materials w /\
  cloud_docs (saveMaterialToLocalDB m fate w).2 = cloud_docs w.
Proof.
  unfold saveMaterialToLocalDB. destruct fate; [| done | done].
  by destruct (put (LearningMaterial_to_JSON m) (local_db w)).
Qed.

Lemma saveMaterialToLocalDB_keeps s m fate :
  preserves (fun w => keeps_analyzed s (local_db w))
    (saveMaterialToLocalDB (with_isAnalyzed true m) fate).
Proof.
  intros w Hw. unfold saveMaterialToLocalDB. destruct fate; [| done | done].
  unfold put. cbn. apply keeps_analyzed_insert; [done | apply record_analyzed_marked].
Qed.

Lemma updateMaterialAnalysis_frame id b updated h w :
  local_db (updateMaterialAnalysis h id b updated w).2 = local_db w /\
  materials (updateMaterialAnalysis h id b updated w).2 = materials w.
Proof.
  unfold updateMaterialAnalysis. destruct (db h); run; [| done].
  cbn. by destruct (cloud_docs w !! id) as [[| | | | | o] |]; try destruct updated.
Qed.

Lemma updateMaterialAnalysis_keeps d id updated h :
  preserves (fun w => keeps_analyzed d (cloud_docs w))
    (updateMaterialAnalysis h id true updated).
Proof.
  intros w Hw. unfold updateMaterialAnalysis. destruct (db h); run; [| done].
  cbn. destruct (cloud_docs w !! id) as [[| | | | | o] |]; try destruct updated; try done.
  cbn. apply keeps_analyzed_insert; [done |].
  unfold record_analyzed. cbn. by rewrite assoc_set_prop.
Qed.

(** Marking never lowers a flag: not in the local store, not in the
    cloud collection.  The component's state is left alone in cloud
    mode; in local mode it becomes the list the handler was created
    with, marks added. *)
Lemma markMaterialsAsAnalyzed_monotone cloud h fate snapshot toMark w :
  keeps_analyzed (local_db w)
    (local_db (markMaterialsAsAnalyzed cloud h fate snapshot toMark w).2) /\
  keeps_analyzed (cloud_docs w)
    (cloud_docs (markMaterialsAsAnalyzed cloud h fate snapshot toMark w).2) /\
  materials (markMaterialsAsAnalyzed cloud h fate snapshot toMark w).2
    = (if cloud then materials w
       else List.map (fun m => if to_mark toMark m then with_isAnalyzed true m else m)
              snapshot).
Proof.
  unfold markMaterialsAsAnalyzed. destruct cloud.
  - split_and!.
    + rewrite (for_each_frame local_db); [apply keeps_analyzed_refl |].
      intros m w1. destruct (negb (analyzed m)); [| done].
      apply updateMaterialAnalysis_frame.
    + apply (for_each_preserves (fun w' => keeps_analyzed (cloud_docs w) (cloud_docs w')));
        [| apply keeps_analyzed_refl].
      intros m w1 Hw1. destruct (negb (analyzed m)); [| done].
      by apply updateMaterialAnalysis_keeps.
    + rewrite (for_each_frame materials); [done |].
      intros m w1. destruct (negb (analyzed m)); [| done].
      apply updateMaterialAnalysis_frame.
  - erewrite bind_ok by reflexivity. split_and!.
    + apply (for_each_preserves (fun w' => keeps_analyzed (local_db w) (local_db w')));
        [| apply keeps_analyzed_refl].
      intros m w1 Hw1. by apply saveMaterialToLocalDB_keeps.
    + rewrite (for_each_frame cloud_docs); [apply keeps_analyzed_refl |].
      intros m w1. apply saveMaterialToLocalDB_frame.
    + rewrite (for_each_frame materials); [done |].
      intros m w1. apply saveMaterialToLocalDB_frame.
Qed.
End Marking.

Section MarkingAgain.
Import firebase LearningBox.

Lemma mark_again_cloud h fate snapshot toMark w :
  Forall (fun m => analyzed m = true) toMark ->
  markMaterialsAsAnalyzed true h fate snapshot toMark w = (Ok tt, w).
Proof.
  intros H. unfold markMaterialsAsAnalyzed.
  induction H as [| m toMark Hm _ IH]; [done |].
  cbn [for_each]. rewrite Hm. cbn [negb when]. by erewrite bind_ok by reflexivity.
Qed.

Lemma mark_again_local h fate snapshot toMark w :
  Forall (fun m => analyzed m = true /\
                   local_db w !! JStr (m_id m) = Some (LearningMaterial_to_JSON m)) toMark ->
  Forall (fun m => to_mark toMark m = true -> analyzed m = true) snapshot ->
  (markMaterialsAsAnalyzed false h fate snapshot toMark w).2
  = setMaterials (fun _ => snapshot) w.
Proof.
  intros Ht Hm. unfold markMaterialsAsAnalyzed.
  assert (List.map (fun m => if to_mark toMark m then with_isAnalyzed true m else m)
            snapshot = snapshot) as ->.
  { induction Hm as [| m ms Hm _ IH]; [done |]. cbn. rewrite IH. f_equal.
    destruct (to_mark toMark m); [| done]. by apply with_isAnalyzed_analyzed, Hm. }
  erewrite bind_ok by reflexivity.
  apply (for_each_preserves_in (fun s => s = setMaterials (fun _ => snapshot) w)); [| done].
  intros m Hin s ->.
  apply (proj1 (Forall_forall _ _) Ht) in Hin as [Ha Hdb].
  rewrite (with_isAnalyzed_analyzed _ Ha). unfold saveMaterialToLocalDB.
  destruct (saves fate m); [| done | done].
  rewrite (put_lookup _ (JStr (m_id m))) by reflexivity. cbn.
  rewrite insert_id by done. reflexivity.
Qed.

(** C7 (amended): the mark-analyzed operation only ever writes
    [isAnalyzed = true].  Whatever list of materials the handler was
    created with, it lowers no flag in the local store and none in the
    cloud collection; in cloud mode it leaves the component's state
    alone, and in local mode no material of the list it was created
    with has its flag lowered in the list it hands to [setMaterials].
    Marking materials that are already analyzed is a no-op: in cloud
    mode no update is sent and nothing changes at all; in local mode
    the store comes out as it was, and so does the whole state when
    the component still holds the list the handler was created with. *)
Theorem mark_analyzed_is_monotone_and_idempotent cloud h fate snapshot toMark w :
  (keeps_analyzed (local_db w)
     (local_db (markMaterialsAsAnalyzed cloud h fate snapshot toMark w).2) /\
   keeps_analyzed (cloud_docs w)
     (cloud_docs (markMaterialsAsAnalyzed cloud h fate snapshot toMark w).2) /\
   (cloud = true ->
      materials (markMaterialsAsAnalyzed cloud h fate snapshot toMark w).2 = materials w) /\
   (cloud = false ->
      flags_kept snapshot
        (materials (markMaterialsAsAnalyzed cloud h fate snapshot toMark w).2))) /\
  (cloud = true -> Forall (fun m => analyzed m = true) toMark ->
     markMaterialsAsAnalyzed cloud h fate snapshot toMark w = (Ok tt, w)) /\
  (cloud = false ->
     Forall (fun m => analyzed m = true /\
                      local_db w !! JStr (m_id m) = Some (LearningMaterial_to_JSON m)) toMark ->
     Forall (fun m => to_mark toMark m = true -> analyzed m = true) snapshot ->
     local_db (markMaterialsAsAnalyzed cloud h fate snapshot toMark w).2 = local_db w /\
     (materials w = snapshot ->
        (markMaterialsAsAnalyzed cloud h fate snapshot toMark w).2 = w)).
Proof.
  destruct (markMaterialsAsAnalyzed_monotone cloud h fate snapshot toMark w)
    as (Hl & Hc & Hm).
  split_and!; try done.
  - by intros ->.
  - intros ->. rewrite Hm. apply flags_kept_map. intros m. destruct (to_mark toMark m); auto.
  - intros ->. apply mark_again_cloud.
  - intros -> Ht Hs. rewrite (mark_again_local h fate snapshot toMark w Ht Hs).
    split; [done |]. by intros <-.
Qed.
End MarkingAgain.

Lemma mark_analyzed_is_monotone_and_idempotent_witness :
  Forall (fun m => analyzed m = true /\
                   local_db Sample.seen_world !! JStr (m_id m)
                   = Some (LearningMaterial_to_JSON m)) [Sample.seen] /\
  Forall (fun m => LearningBox.to_mark [Sample.seen] m = true -> analyzed m = true)
    (materials Sample.seen_world) /\
  (LearningBox.markMaterialsAsAnalyzed false Sample.no_handles Sample.kind
     (materials Sample.seen_world) [Sample.seen] Sample.seen_world).2
  = Sample.seen_world /\
  keeps_analyzed (local_db Sample.library_world)
    (local_db (LearningBox.markMaterialsAsAnalyzed false Sample.no_handles Sample.kind
                 [Sample.draft; Sample.portrait] [Sample.draft] Sample.library_world).2) /\
  flags_kept [Sample.draft; Sample.portrait]
    (materials (LearningBox.markMaterialsAsAnalyzed false Sample.no_handles Sample.kind
                  [Sample.draft; Sample.portrait] [Sample.draft] Sample.library_world).2).
Proof.
  assert (Forall (fun m => analyzed m = true /\
                   local_db Sample.seen_world !! JStr (m_id m)
                   = Some (LearningMaterial_to_JSON m)) [Sample.seen]) as H1
    by (repeat constructor).
  assert (Forall (fun m => LearningBox.to_mark [Sample.seen] m = true -> analyzed m = true)
            (materials Sample.seen_world)) as H2
    by (repeat constructor).
  split; [exact H1 |]. split; [exact H2 |]. split.
  - exact (proj2 (proj2 (proj2 (mark_analyzed_is_monotone_and_idempotent false
                                  Sample.no_handles Sample.kind
                                  (materials Sample.seen_world) [Sample.seen]
                                  Sample.seen_world)) eq_refl H1 H2) eq_refl).
  - destruct (mark_analyzed_is_monotone_and_idempotent false Sample.no_handles Sample.kind
                [Sample.draft; Sample.portrait] [Sample.draft] Sample.library_world)
      as ((Hstore & _ & _ & Hscreen) & _).
    split; [exact Hstore | exact (Hscreen eq_refl)].
Defined.

(** The list handed to [setMaterials] is built from the list the
    handler was created with, not from the list on screen.  Marking
    another material from a render in which 'm1' was not analyzed yet
    puts 'm1' back on screen as not analyzed; its record in the store
    stays analyzed. *)
Lemma marking_from_an_earlier_render :
  analyzed <$> materials Sample.seen_world = [true] /\
  analyzed <$>
    materials (LearningBox.markMaterialsAsAnalyzed false Sample.no_handles Sample.kind
                 [Sample.unseen] [Sample.draft] Sample.seen_world).2 = [false] /\
  record_analyzed <$>
    (local_db (LearningBox.markMaterialsAsAnalyzed false Sample.no_handles Sample.kind
                 [Sample.unseen] [Sample.draft] Sample.seen_world).2 !! JStr "m1")
    = Some true.
Proof. by vm_compute. Qed.

(** C7, as stated, fails: an import is an operation that sets
    [isAnalyzed] back to false, here for the record with id 'a'. *)
Lemma import_resets_isAnalyzed :
  record_analyzed <$> (Sample.analyzed_store !! JStr "a") = Some true /\
  record_analyzed <$>
    (materials_db (import (codec := ReferenceCodec.codec) StudentSync willing
                     (JSON_stringify (JSONCodec := ReferenceCodec.codec) Sample.two_lessons)
                     (page ∅ Sample.analyzed_store)) !! JStr "a") = Some false.
Proof.
  split; [by vm_compute |].
  rewrite (import_parsed (codec := ReferenceCodec.codec) StudentSync willing _
             Sample.two_lessons (page ∅ Sample.analyzed_store)
             (reference_parse_stringify _) ltac:(done) eq_refl).
  by vm_compute.
Qed.

Lemma registration_dedup_is_path_specific_witness :
  faithful ReferenceCodec.codec /\
  registrations_list (codec := ReferenceCodec.codec)
    (flags (LoginScreen.handleRegistration (codec := ReferenceCodec.codec)
              Sample.dana_again 1700000060000 "14.11.2023"
              (LoginScreen.handleRegistration (codec := ReferenceCodec.codec)
                 Sample.dana 1700000000000 "14.11.2023" (page ∅ ∅))))
  = Some ([] ++ [Registration_to_JSON
                   (LoginScreen.newReg Sample.dana 1700000000000 "14.11.2023")]).
Proof.
  split; [apply reference_faithful |].
  apply (proj1 (registration_dedup_is_path_specific (codec := ReferenceCodec.codec)
                  reference_faithful)); reflexivity.
Defined.

(** ** The keying invariant is kept by every handler *)

Lemma issue_puts_keys items :
  Forall (fun kr => key_of kr.2 = Some kr.1) (issue_puts items).1.
Proof.
  induction items as [| item items IH]; cbn; [constructor |].
  destruct (key_of item) as [k |] eqn:Hk; [| constructor].
  destruct (issue_puts items) as [q threw]. by constructor.
Qed.

Lemma apply_requests_keyed q (s : Store) :
  keyed s -> Forall (fun kr => key_of kr.2 = Some kr.1) q -> keyed (apply_requests q s).
Proof.
  intros Hs Hq. revert s Hs. induction Hq as [| [k r] q Hk _ IH]; intros s Hs; [done |].
  rewrite apply_requests_cons. apply IH. by apply keyed_insert.
Qed.

Lemma outcome_keyed env fail done data p1 :
  keyed (materials_db p1) -> keyed (materials_db (outcome env fail done data p1)).
Proof.
  intros Hk. unfold outcome. destruct (idb_opens env), (idb_clears env); try done.
  pose proof (issue_puts_keys (materials_of data)) as Hq.
  destruct (issue_puts (materials_of data)) as [q threw].
  destruct (run_requests (idb_accepts env) q ∅) as [s |] eqn:Hs.
  - apply run_requests_Some in Hs as ->.
    destruct threw; cbn; by apply apply_requests_keyed; [apply keyed_empty |].
  - by destruct threw.
Qed.

Lemma import_keeps_keyed {codec : JSONCodec} h env content ls s :
  keyed s -> keyed (materials_db (import h env content (page ls s))).
Proof.
  intros Hs. destruct (JSON_parse content) as [bundle |] eqn:Hp.
  - destruct (decide (bundle = JNull)) as [-> | Hd].
    + by rewrite import_unparsed by auto.
    + rewrite (import_parsed h env content bundle (page ls s) Hp Hd eq_refl).
      apply outcome_keyed. destruct h; [done |].
      by rewrite (proj1 (proj2 (proj2 (admin_restored_frame _ _)))).
  - by rewrite import_unparsed by auto.
Qed.

Section Keyed.
Import firebase LearningBox.

Lemma saveMaterialToLocalDB_keyed m fate :
  preserves (fun w => keyed (local_db w)) (saveMaterialToLocalDB m fate).
Proof.
  intros w Hw. unfold saveMaterialToLocalDB. destruct fate; [| done | done].
  destruct (put (LearningMaterial_to_JSON m) (local_db w)) as [s |] eqn:E; [| done].
  cbn. by eapply keyed_put.
Qed.

Lemma markMaterialsAsAnalyzed_keyed cloud h fate snapshot toMark :
  preserves (fun w => keyed (local_db w))
    (markMaterialsAsAnalyzed cloud h fate snapshot toMark).
Proof.
  unfold markMaterialsAsAnalyzed. destruct cloud; preserve.
  - intros w Hw. by rewrite (proj1 (updateMaterialAnalysis_frame _ _ _ _ _)).
  - apply saveMaterialToLocalDB_keyed.
Qed.

Lemma process_file_keyed cloud h file amb :
  preserves (fun w => keyed (local_db w)) (process_file cloud h file amb).
Proof.
  destruct cloud.
  - intros w Hw. by rewrite (proj2 (proj2 (proj2 (process_file_cloud h file amb w)))).
  - unfold process_file. destruct (_ <? _)%N; preserve.
    + destruct (dataURL amb); preserve.
    + apply saveMaterialToLocalDB_keyed.
Qed.

Lemma process_loop_keyed cloud h files hasError newMaterials :
  preserves (fun w => keyed (local_db w)) (process_loop cloud h files hasError newMaterials).
Proof.
  revert hasError newMaterials. induction files as [| [file amb] files IH];
    intros hasError newMaterials; [apply preserves_ret |].
  cbn [process_loop]. apply preserves_bind.
  - preserve. apply process_file_keyed.
  - intros [failed pushed]. apply IH.
Qed.

(** Whatever the component does, in either mode and from whatever
    render, every record of the local store stays under its own id. *)
Lemma handle_keeps_keyed cloud h fate snapshot e :
  preserves (fun w => keyed (local_db w)) (handle cloud h fate snapshot e).
Proof.
  destruct e; cbn [handle].
  - unfold processFiles. apply preserves_bind; [preserve | intros _].
    apply preserves_bind; [apply process_loop_keyed | intros [hasError newMaterials]].
    apply preserves_bind; [preserve | intros _].
    destruct activeAssignmentTopic; [| apply preserves_ret].
    unfold handleAssignmentSubmission. preserve. apply markMaterialsAsAnalyzed_keyed.
  - unfold removeMaterial. preserve. destruct cloud.
    + intros w1 Hw1. unfold deleteMaterialFromCloud.
      destruct (db h), (docDeleted fate id); run; try exact Hw1.
      destruct (negb (String.eqb contentUrl "") && includes contentUrl "firebasestorage"
                && storage h), (blobDeleted fate contentUrl); run; exact Hw1.
    + unfold deleteMaterialFromLocalDB. destruct (deletes fate id); preserve.
      by apply keyed_delete.
  - unfold handleSend. preserve. apply markMaterialsAsAnalyzed_keyed.
  - unfold handleTopicLearn. preserve. apply markMaterialsAsAnalyzed_keyed.
  - unfold handleResetProgress. preserve. destruct opened; preserve.
    apply keyed_empty.
Qed.
End Keyed.

(** ** The registrations table *)

Lemma has_id_total id r : r <> JNull -> exists b, has_id id r = Some b.
Proof.
  intros H. unfold has_id. destruct r as [| | | | |o]; cbn; eauto; [done |].
  destruct (assoc "id" o) as [[]|]; eauto.
Qed.

Lemma has_id_null id : has_id id JNull = None.
Proof. reflexivity. Qed.

Lemma mark_contacted_map id l :
  JNull ∉ l ->
  mark_contacted id l
  = Some ((fun r => if bool_decide (has_id id r = Some true) then contacted r else r) <$> l).
Proof.
  induction l as [| r l IH]; intros H; [done |].
  apply not_elem_of_cons in H as [Hr Hl]. cbn [mark_contacted].
  destruct (has_id_total id r) as [b Hb]; [done |]. rewrite Hb, (IH Hl). cbn.
  rewrite Hb. by destruct b.
Qed.

Lemma without_id_filter id l :
  JNull ∉ l ->
  without_id id l = Some (filter (fun r => has_id id r = Some false) l).
Proof.
  induction l as [| r l IH]; intros H; [done |].
  apply not_elem_of_cons in H as [Hr Hl]. cbn [without_id].
  destruct (has_id_total id r) as [b Hb]; [done |]. rewrite Hb, (IH Hl).
  cbn [mbind option_bind]. destruct b.
  - by rewrite filter_cons_False by (by rewrite Hb).
  - by rewrite filter_cons_True by done.
Qed.

Lemma mark_contacted_null id l : JNull ∈ l -> mark_contacted id l = None.
Proof.
  induction l as [| r l IH]; intros H; [by apply elem_of_nil in H |].
  cbn [mark_contacted]. apply elem_of_cons in H as [<- | H]; [done |].
  rewrite (IH H). by destruct (has_id id r).
Qed.

Lemma without_id_null id l : JNull ∈ l -> without_id id l = None.
Proof.
  induction l as [| r l IH]; intros H; [by apply elem_of_nil in H |].
  cbn [without_id]. apply elem_of_cons in H as [<- | H]; [done |].
  rewrite (IH H). by destruct (has_id id r).
Qed.

Lemma set_prop_idem k v o : set_prop k v (set_prop k v o) = set_prop k v o.
Proof.
  induction o as [| [k1 v1] o IH]; cbn.
  - by rewrite String.eqb_refl.
  - destruct (String.eqb k1 k) eqn:E; cbn; [by rewrite String.eqb_refl |].
    by rewrite E, IH.
Qed.

Lemma has_id_contacted id r : has_id id (contacted r) = has_id id r.
Proof.
  destruct r as [| | | | |o]; try done. unfold has_id. cbn.
  by rewrite assoc_set_prop_ne.
Qed.

Lemma contacted_idem r : contacted (contacted r) = contacted r.
Proof. destruct r; try done. cbn. by rewrite set_prop_idem. Qed.

Lemma contacted_status r b :
  has_id b r = Some true -> get_prop (contacted r) "status" = Some (Some (JStr "contacted")).
Proof.
  destruct r as [| | | | |o]; try done. intros _. cbn. by rewrite assoc_set_prop.
Qed.

Lemma contacted_other r k :
  k <> "status" -> get_prop (contacted r) k = get_prop r k.
Proof.
  intros Hk. destruct r as [| | | | |o]; try done. cbn. by rewrite assoc_set_prop_ne.
Qed.

Lemma mark_contacted_idem id l l' :
  mark_contacted id l = Some l' -> mark_contacted id l' = Some l'.
Proof.
  revert l'. induction l as [| r l IH]; intros l' H; cbn in H; [by simplify_eq |].
  destruct (has_id id r) as [b |] eqn:Hb; [| done]. cbn in H.
  destruct (mark_contacted id l) as [rest |]; [| done]. cbn in H. simplify_eq.
  cbn [mark_contacted]. rewrite (IH rest eq_refl).
  destruct b; [rewrite has_id_contacted |]; rewrite Hb; cbn; [by rewrite contacted_idem | done].
Qed.

Section Table.
Context {codec : JSONCodec}.
Import RegistrationsTable.

(** The page a table handler leaves when it stores the list [l]. *)
Lemma mark_as_contacted_run id p l :
  registrations p = JArr l -> JNull ∉ l ->
  exists l',
    mark_contacted id l = Some l' /\
    mark_as_contacted id p
    = (Ok tt, set_flags (setItem "prolens_registrations" (JSON_stringify (JArr l')))
                (setRegistrations (JArr l') p)).
Proof.
  intros Hl Hn. eexists. split; [by apply mark_contacted_map |].
  destruct p; cbn in Hl; subst. unfold mark_as_contacted.
  erewrite bind_ok by reflexivity. cbn [registrations as_array mbind option_bind].
  by rewrite mark_contacted_map.
Qed.

Lemma mark_as_contacted_cases id p :
  mark_as_contacted id p
  = match as_array (registrations p) with
    | Some l =>
        match mark_contacted id l with
        | Some l' =>
            (Ok tt, set_flags (setItem "prolens_registrations" (JSON_stringify (JArr l')))
                      (setRegistrations (JArr l') p))
        | None => (Throw, p)
        end
    | None => (Throw, p)
    end.
Proof.
  destruct p as [ls db t al co rl ir regs]. unfold mark_as_contacted.
  erewrite bind_ok by reflexivity. cbn [registrations].
  destruct regs as [| | | |l|]; try reflexivity. cbn [as_array mbind option_bind].
  by destruct (mark_contacted id l).
Qed.

Lemma mark_as_contacted_throws id p :
  (forall l, registrations p = JArr l -> JNull ∈ l) ->
  mark_as_contacted id p = (Throw, p).
Proof.
  intros H. destruct p as [? ? ? ? ? ? ? regs]; cbn in H. unfold mark_as_contacted.
  erewrite bind_ok by reflexivity. cbn [registrations].
  destruct regs as [| | | |l|]; try done.
  cbn [as_array mbind option_bind]. by rewrite mark_contacted_null by auto.
Qed.

(** X1: a welcome message, by mail or by WhatsApp, marks the
    registration it is sent for as contacted and nothing else: the
    list keeps its length, every entry with another id stays as it
    was, every entry with this id reads status 'contacted' and keeps
    its other fields, and the list written to localStorage is the list
    in the component state.  The WhatsApp send ends with its reminder,
    the mail shows nothing. *)
Theorem welcome_marks_registration_contacted reg p l :
  faithful codec ->
  registrations p = JArr l -> JNull ∉ l ->
  exists l',
    sendWelcomeEmail reg p
      = (Ok (Mailto (reg_email reg)),
         set_flags (setItem "prolens_registrations" (JSON_stringify (JArr l')))
           (setRegistrations (JArr l') p)) /\
    sendWelcomeWhatsApp reg p
      = (Ok (WhatsApp (whatsapp_phone (reg_phone reg))),
         add_alert LauncherReminder
           (set_flags (setItem "prolens_registrations" (JSON_stringify (JArr l')))
              (setRegistrations (JArr l') p))) /\
    registrations_list (flags (sendWelcomeEmail reg p).2) = Some l' /\
    length l' = length l /\
    (forall i r, l !! i = Some r -> has_id (reg_id reg) r = Some false ->
       l' !! i = Some r) /\
    (forall i r, l !! i = Some r -> has_id (reg_id reg) r = Some true ->
       exists r', l' !! i = Some r' /\
         get_prop r' "status" = Some (Some (JStr "contacted")) /\
         forall k, k <> "status" -> get_prop r' k = get_prop r k).
Proof.
  intros Hf Hl Hn.
  destruct (mark_as_contacted_run (reg_id reg) p l Hl Hn) as (l' & Hm & Hrun).
  exists l'. rewrite mark_contacted_map in Hm by done. injection Hm as <-.
  assert (sendWelcomeEmail reg p
          = (Ok (Mailto (reg_email reg)),
             set_flags (setItem "prolens_registrations"
                          (JSON_stringify
                             (JArr ((fun r => if bool_decide (has_id (reg_id reg) r = Some true)
                                              then contacted r else r) <$> l))))
               (setRegistrations
                  (JArr ((fun r => if bool_decide (has_id (reg_id reg) r = Some true)
                                   then contacted r else r) <$> l)) p))) as He.
  { unfold sendWelcomeEmail. by erewrite bind_ok by apply Hrun. }
  split_and!.
  - exact He.
  - unfold sendWelcomeWhatsApp. by erewrite bind_ok by apply Hrun.
  - rewrite He. cbn [snd]. by apply registrations_list_stored.
  - by rewrite length_fmap.
  - intros i r Hi Hr. rewrite list_lookup_fmap, Hi. cbn.
    by rewrite bool_decide_eq_false_2 by (by rewrite Hr).
  - intros i r Hi Hr. eexists. split; [by rewrite list_lookup_fmap, Hi |].
    cbn beta. rewrite bool_decide_eq_true_2 by done. split.
    + by eapply contacted_status.
    + intros k Hk. by apply contacted_other.
Qed.

Lemma mark_as_contacted_again id p :
  mark_as_contacted id (mark_as_contacted id p).2
  = ((mark_as_contacted id p).1, (mark_as_contacted id p).2).
Proof.
  rewrite !mark_as_contacted_cases.
  destruct p as [ls db t al co rl ir regs]. cbn [registrations].
  destruct regs as [| | | |l|]; try done. cbn [as_array].
  destruct (mark_contacted id l) as [l' |] eqn:E; cbn [fst snd].
  - cbn [registrations setRegistrations set_flags as_array].
    rewrite (mark_contacted_idem _ _ _ E).
    unfold set_flags, setRegistrations, setItem. cbn. by rewrite insert_insert_eq.
  - cbn [registrations as_array]. by rewrite E.
Qed.

Lemma mark_as_contacted_alerts id a p :
  mark_as_contacted id (add_alert a p)
  = ((mark_as_contacted id p).1, add_alert a (mark_as_contacted id p).2).
Proof.
  rewrite !mark_as_contacted_cases.
  destruct p as [ls db t al co rl ir regs]. cbn [registrations add_alert].
  destruct (as_array regs) as [l |]; [| done]. by destruct (mark_contacted id l).
Qed.

(** X2: a second welcome for the same registration changes nothing in
    the list or in localStorage, whatever the registrations state
    holds and whichever way the first one was sent: a second mail
    leaves the page exactly as it was, and a second WhatsApp send,
    when it goes through, adds its reminder once more and nothing
    else. *)
Theorem welcome_twice_is_welcome_once reg p P :
  P = (sendWelcomeEmail reg p).2 \/ P = (sendWelcomeWhatsApp reg p).2 ->
  (sendWelcomeEmail reg P).2 = P /\
  (sendWelcomeWhatsApp reg P).2
    = match (sendWelcomeWhatsApp reg P).1 with
      | Ok _ => add_alert LauncherReminder P
      | _ => P
      end.
Proof.
  pose proof (mark_as_contacted_again (reg_id reg) p) as Hagain.
  assert (forall q, sendWelcomeEmail reg q
                    = (match (mark_as_contacted (reg_id reg) q).1 with
                       | Ok _ => Ok (Mailto (reg_email reg))
                       | Throw => Throw
                       | Pending => Pending
                       end, (mark_as_contacted (reg_id reg) q).2)) as He.
  { intros q. unfold sendWelcomeEmail. run.
    by destruct (mark_as_contacted (reg_id reg) q) as [[] ?]. }
  assert (forall q, sendWelcomeWhatsApp reg q
                    = match (mark_as_contacted (reg_id reg) q).1 with
                      | Ok _ => (Ok (WhatsApp (whatsapp_phone (reg_phone reg))),
                                 add_alert LauncherReminder (mark_as_contacted (reg_id reg) q).2)
                      | Throw => (Throw, (mark_as_contacted (reg_id reg) q).2)
                      | Pending => (Pending, (mark_as_contacted (reg_id reg) q).2)
                      end) as Hw.
  { intros q. unfold sendWelcomeWhatsApp. run.
    by destruct (mark_as_contacted (reg_id reg) q) as [[] ?]. }
  intros [-> | ->].
  - rewrite !He, !Hw. cbn [snd]. rewrite Hagain. cbn [fst snd].
    split; [done |]. by destruct (mark_as_contacted (reg_id reg) p).1.
  - rewrite !He, !Hw. destruct (mark_as_contacted (reg_id reg) p).1 eqn:E; cbn [fst snd].
    + by rewrite mark_as_contacted_alerts, Hagain.
    + by rewrite Hagain.
    + by rewrite Hagain.
Qed.

Lemma deleteRegistration_cases id p :
  deleteRegistration id true p
  = match as_array (registrations p) with
    | Some l =>
        match without_id id l with
        | Some l' =>
            (Ok tt, set_flags (setItem "prolens_registrations" (JSON_stringify (JArr l')))
                      (setRegistrations (JArr l') p))
        | None => (Throw, p)
        end
    | None => (Throw, p)
    end.
Proof.
  destruct p as [ls db t al co rl ir regs]. unfold deleteRegistration, when.
  erewrite bind_ok by reflexivity. cbn [registrations].
  destruct regs as [| | | |l|]; try reflexivity. cbn [as_array mbind option_bind].
  by destruct (without_id id l).
Qed.

Lemma load_registrations_stored v ls s :
  faithful codec ->
  load_registrations (page (setItem "prolens_registrations" (JSON_stringify v) ls) s)
  = (Ok tt, setRegistrations v
              (page (setItem "prolens_registrations" (JSON_stringify v) ls) s)).
Proof.
  intros [Hp He]. unfold load_registrations. erewrite bind_ok by reflexivity.
  cbn [flags page]. unfold getItem, setItem. rewrite lookup_insert_eq.
  destruct (String.eqb (JSON_stringify v) "") eqn:E;
    [by apply String.eqb_eq, He in E |].
  unfold parse. run. by rewrite Hp.
Qed.

Lemma mount_stored v ls s :
  faithful codec ->
  (forall t, getItem "prolens_student_profile" ls = Some t ->
     t = "" \/ is_Some (JSON_parse t)) ->
  mount (page (setItem "prolens_registrations" (JSON_stringify v) ls) s)
  = (Ok tt, setRegistrations v
              (page (setItem "prolens_registrations" (JSON_stringify v) ls) s)).
Proof.
  intros Hf Hprofile. unfold mount. erewrite bind_ok by reflexivity.
  cbn [flags page]. unfold getItem, setItem in *. rewrite lookup_insert_ne by done.
  destruct (ls !! "prolens_student_profile") as [t |] eqn:Et.
  - destruct (Hprofile t eq_refl) as [-> | [v' Hv']].
    + cbn [String.eqb]. erewrite bind_ok by reflexivity.
      by apply load_registrations_stored.
    + destruct (String.eqb t ""); (erewrite bind_ok;
        [by apply load_registrations_stored | unfold parse; run; by rewrite ?Hv']).
  - erewrite bind_ok by reflexivity. by apply load_registrations_stored.
Qed.

(** X3: deleting a registration, once confirmed, leaves exactly the
    entries whose id differs, in their order, in the component state
    and in localStorage alike; declined, it changes nothing. *)
Theorem delete_leaves_the_other_registrations id p l :
  faithful codec ->
  registrations p = JArr l -> JNull ∉ l ->
  deleteRegistration id false p = (Ok tt, p) /\
  deleteRegistration id true p
    = (Ok tt,
       set_flags (setItem "prolens_registrations"
                    (JSON_stringify (JArr (filter (fun r => has_id id r = Some false) l))))
         (setRegistrations (JArr (filter (fun r => has_id id r = Some false) l)) p)) /\
  registrations_list (flags (deleteRegistration id true p).2)
    = Some (filter (fun r => has_id id r = Some false) l).
Proof.
  intros Hf Hl Hn. split; [reflexivity |].
  assert (deleteRegistration id true p
    = (Ok tt,
       set_flags (setItem "prolens_registrations"
                    (JSON_stringify (JArr (filter (fun r => has_id id r = Some false) l))))
         (setRegistrations (JArr (filter (fun r => has_id id r = Some false) l)) p))) as E.
  { rewrite deleteRegistration_cases. destruct p; cbn in Hl; subst.
    cbn [registrations as_array]. by rewrite without_id_filter. }
  split; [exact E |]. rewrite E. cbn [snd]. by apply registrations_list_stored.
Qed.

Lemma filter_all {A} (P : A -> Prop) `{forall x, Decision (P x)} (l : list A) :
  Forall P l -> filter P l = l.
Proof.
  induction 1 as [| x l Hx Hl IH]; [done |]. by rewrite filter_cons_True, IH.
Qed.

(** X4: a student added by hand and then deleted again leaves the
    registrations as they were, in the state and in localStorage,
    provided no other entry carries the id the clock gave the new one
    (entries made in the same millisecond share it and would go too). *)
Theorem manual_registration_can_be_taken_back manualReg now today p l :
  faithful codec ->
  registrations p = JArr l -> JNull ∉ l ->
  AdminDashboard.name manualReg <> "" -> AdminDashboard.phone manualReg <> "" ->
  Forall (fun r => has_id (pretty now) r = Some false) l ->
  registrations
    (deleteRegistration (pretty now) true
       (AdminDashboard.addManualRegistration manualReg now today p).2).2 = JArr l /\
  registrations_list
    (flags (deleteRegistration (pretty now) true
              (AdminDashboard.addManualRegistration manualReg now today p).2).2) = Some l.
Proof.
  intros Hf Hl Hn Hname Hphone Hfresh.
  rewrite (addManualRegistration_run manualReg now today p l Hl Hname Hphone). cbn [snd].
  rewrite deleteRegistration_cases. cbn [registrations add_alert set_flags setRegistrations as_array].
  rewrite without_id_filter.
  2:{ intros [H | H%list_elem_of_singleton]%elem_of_app; done. }
  rewrite filter_app, (filter_all _ l Hfresh).
  rewrite filter_cons_False, filter_nil, app_nil_r.
  2:{ unfold has_id, AdminDashboard.newReg. cbn [get_prop assoc String.eqb Ascii.eqb Bool.eqb].
      by rewrite String.eqb_refl. }
  split; [done |]. cbn [snd flags set_flags setRegistrations].
  by apply registrations_list_stored.
Qed.

(** X6: what a table action writes is what the dashboard loads when
    it is mounted again: after a welcome, a deletion or a manual
    addition, the mount effect run over the stored flags gives the
    registrations the component held (the effect parses the stored
    student profile first, so that one has to parse). *)
Theorem table_survives_a_reload reg id manualReg now today p l s :
  faithful codec ->
  registrations p = JArr l -> JNull ∉ l ->
  AdminDashboard.name manualReg <> "" -> AdminDashboard.phone manualReg <> "" ->
  (forall t, getItem "prolens_student_profile" (flags p) = Some t ->
     t = "" \/ is_Some (JSON_parse t)) ->
  (forall P, P = (sendWelcomeEmail reg p).2 \/ P = (sendWelcomeWhatsApp reg p).2 \/
             P = (deleteRegistration id true p).2 \/
             P = (AdminDashboard.addManualRegistration manualReg now today p).2 ->
     exists q, mount (page (flags P) s) = (Ok tt, q) /\
               registrations q = registrations P /\ flags q = flags P).
Proof.
  intros Hf Hl Hn Hname Hphone Hprofile P HP.
  destruct (mark_as_contacted_run (reg_id reg) p l Hl Hn) as (l' & _ & Hm).
  assert (sendWelcomeEmail reg p
          = (Ok (Mailto (reg_email reg)),
             set_flags (setItem "prolens_registrations" (JSON_stringify (JArr l')))
               (setRegistrations (JArr l') p))) as He
    by (unfold sendWelcomeEmail; by erewrite bind_ok by apply Hm).
  assert (sendWelcomeWhatsApp reg p
          = (Ok (WhatsApp (whatsapp_phone (reg_phone reg))),
             add_alert LauncherReminder
               (set_flags (setItem "prolens_registrations" (JSON_stringify (JArr l')))
                  (setRegistrations (JArr l') p)))) as Hw.
  { unfold sendWelcomeWhatsApp. run. by rewrite Hm. }
  assert (deleteRegistration id true p
          = (Ok tt,
             set_flags (setItem "prolens_registrations"
                          (JSON_stringify
                             (JArr (filter (fun r => has_id id r = Some false) l))))
               (setRegistrations (JArr (filter (fun r => has_id id r = Some false) l)) p)))
    as Hd.
  { rewrite deleteRegistration_cases. destruct p; cbn in Hl; subst.
    cbn [registrations as_array]. by rewrite without_id_filter. }
  pose proof (addManualRegistration_run manualReg now today p l Hl Hname Hphone) as Ha.
  rewrite He, Hw, Hd, Ha in HP. cbn [snd] in HP.
  destruct HP as [-> | [-> | [-> | ->]]];
    cbn [flags registrations add_alert set_flags setRegistrations];
    (eexists; split; [by apply mount_stored | done]).
Qed.
End Table.

Lemma welcome_marks_registration_contacted_witness :
  faithful ReferenceCodec.codec /\
  registrations Sample.desk
    = JArr [Registration_to_JSON Sample.noa; Registration_to_JSON Sample.gil] /\
  (JNull ∉ [Registration_to_JSON Sample.noa; Registration_to_JSON Sample.gil]) /\
  exists l',
    registrations_list (codec := ReferenceCodec.codec)
      (flags (RegistrationsTable.sendWelcomeEmail (codec := ReferenceCodec.codec)
                Sample.noa Sample.desk).2) = Some l' /\
    length l' = 2.
Proof.
  assert (JNull ∉ [Registration_to_JSON Sample.noa; Registration_to_JSON Sample.gil])
    as Hn by (rewrite !not_elem_of_cons; split_and!; (done || apply not_elem_of_nil)).
  split_and!; [apply reference_faithful | reflexivity | exact Hn |].
  destruct (welcome_marks_registration_contacted (codec := ReferenceCodec.codec)
              Sample.noa Sample.desk _ reference_faithful eq_refl Hn)
    as (l' & _ & _ & Hlist & Hlen & _).
  exists l'. split; [exact Hlist | exact Hlen].
Defined.

Lemma delete_leaves_the_other_registrations_witness :
  faithful ReferenceCodec.codec /\
  registrations Sample.desk
    = JArr [Registration_to_JSON Sample.noa; Registration_to_JSON Sample.gil] /\
  (JNull ∉ [Registration_to_JSON Sample.noa; Registration_to_JSON Sample.gil]) /\
  registrations_list (codec := ReferenceCodec.codec)
    (flags (RegistrationsTable.deleteRegistration (codec := ReferenceCodec.codec)
              "1700000000000" true Sample.desk).2)
  = Some (filter (fun r => has_id "1700000000000" r = Some false)
            [Registration_to_JSON Sample.noa; Registration_to_JSON Sample.gil]).
Proof.
  assert (JNull ∉ [Registration_to_JSON Sample.noa; Registration_to_JSON Sample.gil])
    as Hn by (rewrite !not_elem_of_cons; split_and!; (done || apply not_elem_of_nil)).
  split_and!; [apply reference_faithful | reflexivity | exact Hn |].
  apply (delete_leaves_the_other_registrations (codec := ReferenceCodec.codec)
           "1700000000000" Sample.desk _ reference_faithful eq_refl Hn).
Defined.

Lemma manual_registration_can_be_taken_back_witness :
  faithful ReferenceCodec.codec /\
  AdminDashboard.name Sample.tal <> "" /\ AdminDashboard.phone Sample.tal <> "" /\
  Forall (fun r => has_id (pretty 1700000120000%Z) r = Some false)
    [Registration_to_JSON Sample.noa; Registration_to_JSON Sample.gil] /\
  registrations
    (RegistrationsTable.deleteRegistration (codec := ReferenceCodec.codec)
       (pretty 1700000120000%Z) true
       (AdminDashboard.addManualRegistration (codec := ReferenceCodec.codec)
          Sample.tal 1700000120000 "14.11.2023" Sample.desk).2).2
  = JArr [Registration_to_JSON Sample.noa; Registration_to_JSON Sample.gil].
Proof.
  assert (JNull ∉ [Registration_to_JSON Sample.noa; Registration_to_JSON Sample.gil])
    as Hn by (rewrite !not_elem_of_cons; split_and!; (done || apply not_elem_of_nil)).
  assert (Forall (fun r => has_id (pretty 1700000120000%Z) r = Some false)
            [Registration_to_JSON Sample.noa; Registration_to_JSON Sample.gil])
    as Hfresh by (repeat constructor; by vm_compute).
  split_and!; [apply reference_faithful | done | done | exact Hfresh |].
  apply (manual_registration_can_be_taken_back (codec := ReferenceCodec.codec)
           Sample.tal 1700000120000 "14.11.2023" Sample.desk _
           reference_faithful eq_refl Hn ltac:(done) ltac:(done) Hfresh).
Defined.

Lemma welcome_twice_is_welcome_once_witness :
  (RegistrationsTable.sendWelcomeEmail (codec := ReferenceCodec.codec) Sample.noa
     (RegistrationsTable.sendWelcomeWhatsApp (codec := ReferenceCodec.codec)
        Sample.noa Sample.desk).2).2
  = (RegistrationsTable.sendWelcomeWhatsApp (codec := ReferenceCodec.codec)
       Sample.noa Sample.desk).2 /\
  alerts (RegistrationsTable.sendWelcomeWhatsApp (codec := ReferenceCodec.codec)
            Sample.noa Sample.desk).2 <> alerts Sample.desk.
Proof.
  split.
  - apply (welcome_twice_is_welcome_once (codec := ReferenceCodec.codec)
             Sample.noa Sample.desk _ (or_intror eq_refl)).
  - by vm_compute.
Defined.

Lemma table_survives_a_reload_witness :
  faithful ReferenceCodec.codec /\
  AdminDashboard.name Sample.tal <> "" /\ AdminDashboard.phone Sample.tal <> "" /\
  (forall t, getItem "prolens_student_profile" (flags Sample.desk) = Some t ->
     t = "" \/ is_Some (JSON_parse (JSONCodec := ReferenceCodec.codec) t)) /\
  exists q,
    RegistrationsTable.mount (codec := ReferenceCodec.codec)
      (page (flags (RegistrationsTable.deleteRegistration (codec := ReferenceCodec.codec)
                      "1700000000000" true Sample.desk).2) ∅) = (Ok tt, q) /\
    registrations q
    = registrations (RegistrationsTable.deleteRegistration (codec := ReferenceCodec.codec)
                       "1700000000000" true Sample.desk).2.
Proof.
  assert (JNull ∉ [Registration_to_JSON Sample.noa; Registration_to_JSON Sample.gil])
    as Hn by (rewrite !not_elem_of_cons; split_and!; (done || apply not_elem_of_nil)).
  assert (forall t, getItem "prolens_student_profile" (flags Sample.desk) = Some t ->
            t = "" \/ is_Some (JSON_parse (JSONCodec := ReferenceCodec.codec) t)) as Hprofile
    by (intros t Ht; cbn in Ht; unfold getItem in Ht; by rewrite lookup_empty in Ht).
  split_and!; [apply reference_faithful | done | done | exact Hprofile |].
  destruct (table_survives_a_reload (codec := ReferenceCodec.codec)
              Sample.noa "1700000000000" Sample.tal 1700000120000 "14.11.2023"
              Sample.desk _ ∅ reference_faithful eq_refl Hn ltac:(done) ltac:(done)
              Hprofile _ (or_intror (or_intror (or_introl eq_refl)))) as (q & Hq & Hr & _).
  exists q. split; [exact Hq | exact Hr].
Defined.

(** ** The number a WhatsApp welcome goes to *)

Lemma digits_only_all_digits s : all_digits (digits_only s) = true.
Proof.
  induction s as [| c s IH]; [done |]. cbn [digits_only].
  destruct (is_digit c) eqn:E; [| done]. cbn. by rewrite E.
Qed.

Lemma digits_only_id s : all_digits s = true -> digits_only s = s.
Proof.
  induction s as [| c s IH]; [done |]. cbn. intros [Hc Hs]%andb_prop.
  by rewrite Hc, IH.
Qed.

(** X7: the number put into the [wa.me] link has digits only and never
    a leading 0: a leading 0 of the digits is replaced by 972, any
    other number is its digits; normalising a normalised number
    changes nothing. *)
Theorem whatsapp_number_has_no_leading_zero phone :
  all_digits (RegistrationsTable.whatsapp_phone phone) = true /\
  String.prefix "0" (RegistrationsTable.whatsapp_phone phone) = false /\
  RegistrationsTable.whatsapp_phone (RegistrationsTable.whatsapp_phone phone)
    = RegistrationsTable.whatsapp_phone phone /\
  (forall rest, digits_only phone = String "0" rest ->
     RegistrationsTable.whatsapp_phone phone = "972" +:+ rest) /\
  (String.prefix "0" (digits_only phone) = false ->
     RegistrationsTable.whatsapp_phone phone = digits_only phone).
Proof.
  unfold RegistrationsTable.whatsapp_phone.
  pose proof (digits_only_all_digits phone) as Hd.
  destruct (digits_only phone) as [| c rest] eqn:E; [done |].
  cbn in Hd. apply andb_prop in Hd as [Hc Hrest].
  destruct (Ascii.eqb c "0") eqn:E0.
  - apply Ascii.eqb_eq in E0 as ->.
    change ("972" +:+ rest) with (String "9" (String "7" (String "2" rest))).
    split_and!.
    + cbn. by rewrite Hrest.
    + done.
    + cbn. by rewrite (digits_only_id _ Hrest).
    + by intros ? [= ->].
    + change (String.prefix "0" (String "0" rest)) with (String.prefix "" rest).
      by destruct rest.
  - split_and!.
    + cbn. by rewrite Hc, Hrest.
    + change (String.prefix "0" (String c rest))
        with (if ascii_dec "0" c then String.prefix "" rest else false).
      destruct (ascii_dec "0" c) as [<- |]; [by rewrite Ascii.eqb_refl in E0 | done].
    + cbn. rewrite Hc, (digits_only_id _ Hrest). by rewrite E0.
    + intros ? [= -> _]. by rewrite Ascii.eqb_refl in E0.
    + done.
Qed.

(** ** The file checker and the local size limit *)

(** X8: the file checker calls a file safe exactly up to 15MB and
    dangerous exactly above 25MB.  Its verdict agrees with what the
    local upload does: a file it does not call safe (the warning that
    only speaks of slow backups included) is refused by the local
    upload with the size message, a file it calls safe never meets
    that message.  Without a file the earlier verdict stays. *)
Theorem checker_verdict_and_local_limit file prev h amb w :
  FileChecker.handleCheckFile None prev = prev /\
  exists verdict,
    FileChecker.handleCheckFile (Some file) prev = Some verdict /\
    FileChecker.name verdict = file_name file /\
    (FileChecker.status verdict = FileChecker.safe
       <-> (file_size file <= 15 * 1024 * 1024)%N) /\
    (FileChecker.status verdict = FileChecker.danger
       <-> (25 * 1024 * 1024 < file_size file)%N) /\
    (FileChecker.status verdict <> FileChecker.safe ->
       LearningBox.process_file false h file amb w
       = (Ok [], alert (TooLargeForLocal (file_name file)) w)) /\
    (FileChecker.status verdict = FileChecker.safe ->
       shown (LearningBox.process_file false h file amb w).2 = shown w).
Proof.
  split; [reflexivity |]. eexists. split; [reflexivity |]. cbn [FileChecker.name FileChecker.status].
  unfold FileChecker.MB.
  destruct (25 * (1024 * 1024) <? file_size file)%N eqn:E25;
    destruct (15 * (1024 * 1024) <? file_size file)%N eqn:E15;
    try apply N.ltb_lt in E25; try apply N.ltb_lt in E15;
    try apply N.ltb_ge in E25; try apply N.ltb_ge in E15;
    (split_and!; [done | split; (done || lia) | split; (done || lia) | |]);
    try (intros _; apply local_upload_rejects_oversize; lia); try done.
  intros _. unfold LearningBox.process_file.
  rewrite (proj2 (N.ltb_ge _ _)) by lia.
  destruct (LearningBox.dataURL amb); run; [| done].
  unfold LearningBox.saveMaterialToLocalDB. by destruct (LearningBox.stored amb).
Qed.

(** ** Logging in and out *)

Section Sessions.
Context {codec : JSONCodec}.

Lemma handleLogin_admin data s :
  App.handleLogin admin data s
  = (Ok tt, set_localStorage (setItem "prolens_user_role" "admin")
              (setUserRole (Some admin) s)).
Proof. reflexivity. Qed.

Lemma handleLogin_student d s :
  App.handleLogin student (Some d) s
  = (Ok tt,
     set_localStorage (setItem "prolens_student_profile"
                         (JSON_stringify (StudentProfile_to_JSON d)))
       (setStudentProfile (StudentProfile_to_JSON d)
          (set_localStorage (setItem "prolens_user_role" "student")
             (setUserRole (Some student) s)))).
Proof. reflexivity. Qed.

(** X9: a login survives a refresh.  After a student has logged in,
    the effect that runs on the next page load finds the role and the
    profile that were stored and puts both back; after an admin has
    logged in it puts the role back and no profile, also when a
    student profile is still stored. *)
Theorem login_survives_a_reload d data s :
  faithful codec ->
  App.restore_login (loaded (localStorage (App.handleLogin student (Some d) s).2))
    = (Ok tt,
       setStudentProfile (StudentProfile_to_JSON d)
         (setUserRole (Some student)
            (loaded (localStorage (App.handleLogin student (Some d) s).2)))) /\
  App.restore_login (loaded (localStorage (App.handleLogin admin data s).2))
    = (Ok tt,
       setUserRole (Some admin)
         (loaded (localStorage (App.handleLogin admin data s).2))).
Proof.
  intros [Hp He]. split.
  - rewrite handleLogin_student. cbn [snd localStorage set_localStorage setStudentProfile
                                       setUserRole].
    unfold App.restore_login. run. cbn [localStorage loaded].
    unfold getItem, setItem.
    rewrite lookup_insert_ne by done. rewrite lookup_insert_eq. cbn.
    rewrite lookup_insert_eq.
    destruct (String.eqb (JSON_stringify (StudentProfile_to_JSON d)) "") eqn:E;
      [by apply String.eqb_eq, He in E |].
    by rewrite Hp.
  - rewrite handleLogin_admin. cbn [snd localStorage set_localStorage setUserRole].
    unfold App.restore_login. run. cbn [localStorage loaded].
    unfold getItem, setItem. by rewrite lookup_insert_eq.
Qed.

(** X10: logging out forgets the login and nothing else.  The role
    and the profile are gone from the component and from localStorage,
    so the next page load starts logged out; every other stored key
    (the admin password, the chat, the registrations) is as before. *)
Theorem logout_forgets_only_the_login s :
  userRole (App.handleLogout s).2 = None /\
  studentProfile (App.handleLogout s).2 = JNull /\
  currentView (App.handleLogout s).2 = HOME /\
  getItem "prolens_user_role" (localStorage (App.handleLogout s).2) = None /\
  getItem "prolens_student_profile" (localStorage (App.handleLogout s).2) = None /\
  App.restore_login (loaded (localStorage (App.handleLogout s).2))
    = (Ok tt, loaded (localStorage (App.handleLogout s).2)) /\
  (forall k, k <> "prolens_user_role" -> k <> "prolens_student_profile" ->
     getItem k (localStorage (App.handleLogout s).2) = getItem k (localStorage s)).
Proof.
  split_and!; try reflexivity.
  - unfold App.handleLogout. run.
    cbn [localStorage loaded set_localStorage setUserRole setStudentProfile setCurrentView].
    unfold getItem, removeItem. rewrite lookup_delete_ne by done.
    by rewrite lookup_delete_eq.
  - unfold App.handleLogout. run.
    cbn [localStorage loaded set_localStorage setUserRole setStudentProfile setCurrentView].
    unfold getItem, removeItem. by rewrite lookup_delete_eq.
  - unfold App.restore_login, App.handleLogout. run.
    cbn [localStorage loaded set_localStorage setUserRole setStudentProfile setCurrentView].
    unfold getItem, removeItem. rewrite lookup_delete_ne by done.
    by rewrite lookup_delete_eq.
  - intros k H1 H2. unfold App.handleLogout. run.
    cbn [localStorage loaded set_localStorage setUserRole setStudentProfile setCurrentView].
    unfold getItem, removeItem. by rewrite !lookup_delete_ne.
Qed.

(** X11: the page load restores a role exactly when one of the two
    role names is stored: for any localStorage, the role the effect
    sets is the stored one, and any other stored text leaves the page
    logged out. *)
Theorem only_a_stored_role_is_restored ls role :
  userRole (App.restore_login (loaded ls)).2 = Some role
  <-> getItem "prolens_user_role" ls = Some (Role_to_string role).
Proof.
  unfold App.restore_login. run. cbn [localStorage loaded].
  destruct (getItem "prolens_user_role" ls) as [r |]; [| by destruct role].
  destruct (String.eqb r "student") eqn:Es.
  - apply String.eqb_eq in Es as ->.
    destruct (getItem "prolens_student_profile" ls) as [t |];
      [destruct (String.eqb t ""); [| destruct (JSON_parse t)] |];
    by destruct role.
  - destruct (String.eqb r "admin") eqn:Ea.
    + apply String.eqb_eq in Ea as ->. by destruct role.
    + cbn. split; [done |]. intros [= ->]. by destruct role.
Qed.

Lemma admin_login_command s :
  password s = "reset" \/ password s = "creator" ->
  Login.handleAdminLogin App.handleLogin s
  = (Ok tt,
     setPassword ""
       (setError ResetActivated
          (setIsSetupMode true
             (set_localStorage (removeItem "prolens_admin_password")
                (setError NoError s))))).
Proof.
  intros H. destruct s as [ls r sp v m pw e]. cbn in H.
  unfold Login.handleAdminLogin. run. cbn [password setError].
  by destruct H as [-> | ->].
Qed.

Lemma admin_login_master s :
  password s = Login.MASTER_CODE ->
  Login.handleAdminLogin App.handleLogin s
  = (Ok tt,
     set_localStorage (setItem "prolens_user_role" "admin")
       (setUserRole (Some admin)
          (set_localStorage (setItem "prolens_admin_password" Login.MASTER_CODE)
             (setError NoError s)))).
Proof.
  intros H. destruct s as [ls r sp v m pw e]. cbn in H. subst.
  reflexivity.
Qed.

Lemma admin_login_setup s :
  password s <> "reset" -> password s <> "creator" ->
  password s <> Login.MASTER_CODE -> isSetupMode s = true ->
  Login.handleAdminLogin App.handleLogin s
  = (Ok tt,
     if (String.length (password s) <? 4)%nat
     then setError PasswordTooShort s
     else set_localStorage (setItem "prolens_user_role" "admin")
            (setUserRole (Some admin)
               (set_localStorage (setItem "prolens_admin_password" (password s))
                  (setError NoError s)))).
Proof.
  intros H1 H2 H3 H4. destruct s as [ls r sp v m pw e]. cbn in *. subst.
  apply String.eqb_neq in H1, H2, H3.
  unfold Login.handleAdminLogin. run. cbn [password setError isSetupMode].
  rewrite H1, H2, H3. cbn. by destruct (String.length pw) as [| [| [| [| n]]]].
Qed.

Lemma admin_login_check s :
  password s <> "reset" -> password s <> "creator" ->
  password s <> Login.MASTER_CODE -> isSetupMode s = false ->
  Login.handleAdminLogin App.handleLogin s
  = (Ok tt,
     if bool_decide (getItem "prolens_admin_password" (localStorage s) = Some (password s))
     then set_localStorage (setItem "prolens_user_role" "admin")
            (setUserRole (Some admin) (setError NoError s))
     else setError WrongPassword s).
Proof.
  intros H1 H2 H3 H4. destruct s as [ls r sp v m pw e]. cbn in *. subst.
  apply String.eqb_neq in H1, H2, H3.
  unfold Login.handleAdminLogin. run. cbn [password setError isSetupMode localStorage].
  rewrite H1, H2, H3. cbn. unfold getItem.
  by destruct (bool_decide (ls !! "prolens_admin_password" = Some pw)).
Qed.

Lemma admin_login_storage s k :
  k <> "prolens_admin_password" -> k <> "prolens_user_role" ->
  getItem k (localStorage (Login.handleAdminLogin App.handleLogin s).2)
  = getItem k (localStorage s).
Proof.
  intros Hk1 Hk2.
  destruct (decide (password s = "reset" \/ password s = "creator")) as [Hc | Hc].
  { rewrite admin_login_command by done. cbn. unfold getItem, removeItem.
    by rewrite lookup_delete_ne. }
  assert (password s <> "reset" /\ password s <> "creator") as [H1 H2] by tauto.
  destruct (decide (password s = Login.MASTER_CODE)) as [Hm | Hm].
  { rewrite admin_login_master by done. cbn. unfold getItem, setItem.
    by rewrite !lookup_insert_ne. }
  destruct (isSetupMode s) eqn:Es.
  - rewrite admin_login_setup by done. cbn [snd].
    destruct (String.length (password s) <? 4)%nat; [done |].
    cbn. unfold getItem, setItem. by rewrite !lookup_insert_ne.
  - rewrite admin_login_check by done. cbn [snd].
    destruct (bool_decide _); [| done].
    cbn. unfold getItem, setItem. by rewrite !lookup_insert_ne.
Qed.

(** X12: the reset command opens the admin account to whoever types
    it.  Whatever password is stored, submitting 'reset' or 'creator'
    logs nobody in but removes the stored password and turns setup
    mode on; the next submission of any password of four or more
    characters is then accepted: the user is admin, the role is
    stored, and that password is the stored one. *)
Theorem reset_command_opens_the_admin_account s command pw :
  command = "reset" \/ command = "creator" ->
  pw <> "reset" -> pw <> "creator" -> (4 <= String.length pw)%nat ->
  let s1 := (Login.handleAdminLogin App.handleLogin (setPassword command s)).2 in
  let s2 := (Login.handleAdminLogin App.handleLogin (setPassword pw s1)).2 in
  userRole s1 = userRole s /\
  getItem "prolens_admin_password" (localStorage s1) = None /\
  isSetupMode s1 = true /\
  userRole s2 = Some admin /\
  getItem "prolens_user_role" (localStorage s2) = Some "admin" /\
  getItem "prolens_admin_password" (localStorage s2) = Some pw.
Proof.
  intros Hc H1 H2 Hlen s1 s2. subst s1 s2.
  rewrite (admin_login_command (setPassword command s)) by done. cbn [snd].
  split_and!.
  - reflexivity.
  - cbn. unfold getItem, removeItem. apply lookup_delete_eq.
  - reflexivity.
  - destruct (decide (pw = Login.MASTER_CODE)) as [-> | Hm].
    + by rewrite admin_login_master.
    + rewrite admin_login_setup by done. cbn [snd password setPassword].
      by rewrite (proj2 (Nat.ltb_ge _ _)) by done.
  - destruct (decide (pw = Login.MASTER_CODE)) as [-> | Hm].
    + rewrite admin_login_master by done. cbn. unfold getItem, setItem.
      apply lookup_insert_eq.
    + rewrite admin_login_setup by done. cbn [snd password setPassword].
      rewrite (proj2 (Nat.ltb_ge _ _)) by done. cbn. unfold getItem, setItem.
      apply lookup_insert_eq.
  - destruct (decide (pw = Login.MASTER_CODE)) as [-> | Hm].
    + rewrite admin_login_master by done. cbn. unfold getItem, setItem.
      rewrite lookup_insert_ne by done. apply lookup_insert_eq.
    + rewrite admin_login_setup by done. cbn [snd password setPassword].
      rewrite (proj2 (Nat.ltb_ge _ _)) by done. cbn. unfold getItem, setItem.
      rewrite lookup_insert_ne by done. apply lookup_insert_eq.
Qed.

(** X13: the master code always logs in and takes the place of the
    password.  Whatever is stored and whatever mode the screen is in,
    submitting the master code makes the user admin and stores the
    master code as the password; after a logout and a page load, a
    password that was set before is rejected as wrong. *)
Theorem master_code_replaces_the_password s old :
  old <> Login.MASTER_CODE -> old <> "reset" -> old <> "creator" ->
  let s1 := (Login.handleAdminLogin App.handleLogin
               (setPassword Login.MASTER_CODE s)).2 in
  let s2 := (Login.mount (loaded (localStorage (App.handleLogout s1).2))).2 in
  userRole s1 = Some admin /\
  getItem "prolens_admin_password" (localStorage s1) = Some Login.MASTER_CODE /\
  isSetupMode s2 = false /\
  Login.handleAdminLogin App.handleLogin (setPassword old s2)
    = (Ok tt, setError WrongPassword (setPassword old s2)).
Proof.
  intros Hm H1 H2 s1 s2. subst s1 s2.
  rewrite (admin_login_master (setPassword Login.MASTER_CODE s)) by done. cbn [snd].
  assert (forall ls : LocalStorage,
            delete "prolens_student_profile"
              (delete "prolens_user_role"
                 (<["prolens_user_role" := "admin"]>
                    (<["prolens_admin_password" := Login.MASTER_CODE]> ls)))
              !! "prolens_admin_password" = Some Login.MASTER_CODE) as Hstored.
  { intros ls. rewrite !lookup_delete_ne by done. rewrite lookup_insert_ne by done.
    apply lookup_insert_eq. }
  split_and!.
  - reflexivity.
  - cbn. unfold getItem, setItem. rewrite lookup_insert_ne by done. apply lookup_insert_eq.
  - unfold Login.mount, App.handleLogout. run. cbn. unfold getItem, removeItem, setItem.
    by rewrite Hstored.
  - rewrite admin_login_check; try done.
    + cbn [snd password setPassword localStorage]. rewrite bool_decide_eq_false_2; [done |].
      unfold Login.mount, App.handleLogout. run. cbn. unfold getItem, removeItem, setItem.
      rewrite Hstored. by intros [= <-].
    + unfold Login.mount, App.handleLogout. run. cbn. unfold getItem, removeItem, setItem.
      by rewrite Hstored.
Qed.

(** X14: a rejected admin login changes nothing but the message.  For
    a password that is neither a reset command nor the master code:
    in setup mode a password shorter than four characters, and
    otherwise a password that is not the stored one, leaves the user
    logged out and localStorage as it was, and shows the matching
    error. *)
Theorem rejected_admin_login_changes_only_the_message s pw :
  pw <> "reset" -> pw <> "creator" -> pw <> Login.MASTER_CODE ->
  (if isSetupMode s then (String.length pw < 4)%nat
   else getItem "prolens_admin_password" (localStorage s) <> Some pw) ->
  Login.handleAdminLogin App.handleLogin (setPassword pw s)
  = (Ok tt,
     setError (if isSetupMode s then PasswordTooShort else WrongPassword)
       (setPassword pw s)).
Proof.
  intros H1 H2 H3 H. destruct (isSetupMode s) eqn:Es.
  - rewrite admin_login_setup by done. cbn [password setPassword].
    by rewrite (proj2 (Nat.ltb_lt _ _)) by done.
  - rewrite admin_login_check by done. cbn [password setPassword localStorage].
    by rewrite bool_decide_eq_false_2 by done.
Qed.

Lemma admin_login_password s :
  let after := getItem "prolens_admin_password"
                 (localStorage (Login.handleAdminLogin App.handleLogin s).2) in
  after = getItem "prolens_admin_password" (localStorage s) \/
  after = None \/
  after = Some Login.MASTER_CODE \/
  (after = Some (password s) /\ (4 <= String.length (password s))%nat /\
   password s <> "reset" /\ password s <> "creator").
Proof.
  intros after. subst after.
  destruct (decide (password s = "reset" \/ password s = "creator")) as [Hc | Hc].
  { rewrite admin_login_command by done. right; left. cbn. unfold getItem, removeItem.
    apply lookup_delete_eq. }
  assert (password s <> "reset" /\ password s <> "creator") as [H1 H2] by tauto.
  destruct (decide (password s = Login.MASTER_CODE)) as [Hm | Hm].
  { rewrite admin_login_master by done. right; right; left. cbn.
    unfold getItem, setItem. rewrite lookup_insert_ne by done. apply lookup_insert_eq. }
  destruct (isSetupMode s) eqn:Es.
  - rewrite admin_login_setup by done. cbn [snd].
    destruct (String.length (password s) <? 4)%nat eqn:El; [by left |].
    right; right; right. apply Nat.ltb_ge in El. split_and!; try done.
    cbn. unfold getItem, setItem. rewrite lookup_insert_ne by done. apply lookup_insert_eq.
  - rewrite admin_login_check by done. cbn [snd]. left.
    destruct (bool_decide _); [| done].
    cbn. unfold getItem, setItem. by rewrite lookup_insert_ne.
Qed.

Lemma handleLogin_password role data s :
  getItem "prolens_admin_password" (localStorage (App.handleLogin role data s).2)
  = getItem "prolens_admin_password" (localStorage s).
Proof.
  destruct role, data as [d |]; unfold App.handleLogin; run; cbn;
    unfold getItem, setItem; by rewrite ?lookup_insert_ne by done.
Qed.

(** X15: the stored admin password stays well formed.  If the password
    in localStorage (when there is one) has at least four characters
    and is none of the reset commands, the same holds after an admin
    login attempt with any input in any mode, after a student login
    attempt, after a login and after a logout. *)
Theorem stored_admin_password_stays_well_formed s :
  password_well_formed (localStorage s) ->
  password_well_formed (localStorage (Login.handleAdminLogin App.handleLogin s).2) /\
  (forall studentName studentPhone,
     password_well_formed
       (localStorage (Login.handleStudentLogin App.handleLogin studentName studentPhone s).2)) /\
  (forall role data, password_well_formed (localStorage (App.handleLogin role data s).2)) /\
  password_well_formed (localStorage (App.handleLogout s).2).
Proof.
  intros Hs. split_and!.
  - intros pw Hpw.
    destruct (admin_login_password s) as [H | [H | [H | (H & Hlen & H1 & H2)]]];
      cbn zeta in H; rewrite H in Hpw.
    + by apply Hs.
    + done.
    + injection Hpw as <-. split_and!; [cbn; lia | done | done].
    + by injection Hpw as <-.
  - intros studentName studentPhone pw. unfold Login.handleStudentLogin.
    destruct (String.length (trim studentName) <? 2)%nat; [apply Hs |].
    rewrite handleLogin_password. apply Hs.
  - intros role data pw. rewrite handleLogin_password. apply Hs.
  - intros pw. unfold App.handleLogout. run. cbn. unfold getItem, removeItem.
    rewrite !lookup_delete_ne by done. apply Hs.
Qed.

(** X16: the first password set is the password.  On a device without
    a stored admin password the login screen mounts in setup mode and
    accepts any password of four or more characters that is no reset
    command; after a logout and a page load the screen is out of setup
    mode and the same password logs in again. *)
Theorem first_password_is_the_password ls pw :
  getItem "prolens_admin_password" ls = None ->
  pw <> "reset" -> pw <> "creator" -> (4 <= String.length pw)%nat ->
  let s0 := (Login.mount (loaded ls)).2 in
  let s1 := (Login.handleAdminLogin App.handleLogin (setPassword pw s0)).2 in
  let s2 := (Login.mount (loaded (localStorage (App.handleLogout s1).2))).2 in
  isSetupMode s0 = true /\
  userRole s1 = Some admin /\
  isSetupMode s2 = false /\
  userRole (Login.handleAdminLogin App.handleLogin (setPassword pw s2)).2 = Some admin.
Proof.
  intros Hnone H1 H2 Hlen s0 s1 s2.
  assert (isSetupMode s0 = true) as Hs0.
  { subst s0. unfold Login.mount. run. cbn. unfold getItem in Hnone. by rewrite Hnone. }
  assert (exists stored,
            getItem "prolens_admin_password" (localStorage s1) = Some stored /\
            (stored = pw \/ pw = Login.MASTER_CODE) /\ stored <> "" /\
            userRole s1 = Some admin) as (stored & Hst & Hor & Hne & Hrole).
  { subst s1. destruct (decide (pw = Login.MASTER_CODE)) as [-> | Hm].
    - rewrite admin_login_master by done. exists Login.MASTER_CODE.
      split_and!; [| by left | done | done].
      cbn. unfold getItem, setItem. rewrite lookup_insert_ne by done. apply lookup_insert_eq.
    - rewrite admin_login_setup by done. cbn [snd password setPassword].
      rewrite (proj2 (Nat.ltb_ge _ _)) by done. exists pw.
      split_and!; [| by left | | done].
      + cbn. unfold getItem, setItem. rewrite lookup_insert_ne by done. apply lookup_insert_eq.
      + intros ->. cbn in Hlen. lia. }
  assert (getItem "prolens_admin_password" (localStorage s2) = Some stored /\
          isSetupMode s2 = false) as [Hst2 Hs2].
  { subst s2. unfold Login.mount, App.handleLogout. run. cbn.
    unfold getItem, removeItem in *. rewrite !lookup_delete_ne by done. rewrite Hst.
    split; [done |]. cbn. apply String.eqb_neq in Hne. by rewrite Hne. }
  split_and!; [done | done | done |].
  destruct (decide (pw = Login.MASTER_CODE)) as [-> | Hm].
  - by rewrite admin_login_master.
  - rewrite admin_login_check by done. cbn [snd].
    destruct Hor as [-> | ?]; [| done].
    by rewrite bool_decide_eq_true_2 by exact Hst2.
Qed.

Lemma restore_login_student ls :
  getItem "prolens_user_role" ls = Some "student" ->
  userRole (App.restore_login (loaded ls)).2 = Some student /\
  ((App.restore_login (loaded ls)).1 = Throw
     <-> exists t, getItem "prolens_student_profile" ls = Some t /\ t <> "" /\
                   JSON_parse t = None) /\
  (forall t v, getItem "prolens_student_profile" ls = Some t -> t <> "" ->
     JSON_parse t = Some v ->
     App.restore_login (loaded ls)
     = (Ok tt, setStudentProfile v (setUserRole (Some student) (loaded ls)))).
Proof.
  intros Hr. unfold App.restore_login. run. cbn [localStorage loaded]. rewrite Hr.
  cbn [String.eqb Ascii.eqb Bool.eqb]. split_and!.
  - destruct (getItem "prolens_student_profile" ls) as [t |]; [| done].
    destruct (String.eqb t ""); [done |]. by destruct (JSON_parse t).
  - destruct (getItem "prolens_student_profile" ls) as [t |].
    + destruct (String.eqb t "") eqn:Et.
      * apply String.eqb_eq in Et as ->. split; [done | by intros (t & [= <-] & ? & _)].
      * apply String.eqb_neq in Et. destruct (JSON_parse t) as [v |] eqn:Ev.
        -- split; [done |]. intros (t' & [= <-] & _ & H). by rewrite Ev in H.
        -- split; [by exists t | done].
    + split; [done | by intros (t & [=] & _)].
  - intros t v -> Ht%String.eqb_neq Hv. by rewrite Ht, Hv.
Qed.

(** X17: a student sync ends in a student session.  Once the sync
    file has been parsed, the page load that follows the import finds
    the role 'student' stored and sets it, whoever was logged in
    before; the effect throws exactly when the profile then stored is
    a text that does not parse, and when the file carries a profile
    text that parses, that profile is the one the session shows. *)
Theorem student_sync_reloads_as_student env content bundle p :
  JSON_parse content = Some bundle -> bundle <> JNull -> tx p = None ->
  userRole (App.restore_login
              (loaded (flags (StudentSyncModal.onload env content p)))).2
    = Some student /\
  ((App.restore_login (loaded (flags (StudentSyncModal.onload env content p)))).1 = Throw
     <-> exists t,
           getItem "prolens_student_profile" (flags (StudentSyncModal.onload env content p))
             = Some t /\
           t <> "" /\ JSON_parse t = None) /\
  (forall t v, prop_of bundle "profile" = Some (JStr t) -> t <> "" ->
     JSON_parse t = Some v ->
     App.restore_login (loaded (flags (StudentSyncModal.onload env content p)))
     = (Ok tt,
        setStudentProfile v
          (setUserRole (Some student)
             (loaded (flags (StudentSyncModal.onload env content p)))))).
Proof.
  intros Hp Hn Htx. rewrite (student_onload_run env content bundle p Hp Hn Htx).
  rewrite flags_outcome. cbn [flags set_flags].
  destruct (restore_login_student (student_flags bundle (flags p))
              (student_flags_role bundle (flags p))) as (Hrole & Hthrow & Hprofile).
  split_and!; [exact Hrole | exact Hthrow |].
  intros t v Ht Hne Hv. apply (Hprofile t v); [| done | done].
  unfold getItem.
  rewrite (student_flags_named bundle (flags p) "profile" "prolens_student_profile" (JStr t));
    [done | | done |].
  - unfold student_fields. apply elem_of_cons. by left.
  - cbn. apply String.eqb_neq in Hne. by rewrite Hne.
Qed.

Lemma length_trimStart s : (String.length (trimStart s) <= String.length s)%nat.
Proof.
  induction s as [| c s IH]; [done |]. cbn [trimStart].
  destruct (is_space c); cbn; lia.
Qed.

Lemma length_trimEnd s : (String.length (trimEnd s) <= String.length s)%nat.
Proof.
  induction s as [| c s IH]; [done |]. cbn [trimEnd].
  destruct (trimEnd s); [destruct (is_space c) |]; cbn in *; lia.
Qed.

Lemma length_trim s : (String.length (trim s) <= String.length s)%nat.
Proof.
  unfold trim. pose proof (length_trimEnd (trimStart s)). pose proof (length_trimStart s). lia.
Qed.

Lemma trim_blank s :
  Forall (fun c => is_space c = true) (String.list_ascii_of_string s) -> trim s = "".
Proof.
  unfold trim. induction s as [| c s IH]; [done |]. cbn [String.list_ascii_of_string trimStart].
  intros [Hc Hs]%Forall_cons. rewrite Hc. by apply IH.
Qed.

(** X18: the student login checks the name and nothing else.  A name
    that trimmed has fewer than two characters (a name of blanks, a
    single letter) is refused with the name message and no login; any
    other name logs in as student whatever the phone field and the
    registrations list hold, and the profile stored is the name as
    typed, untrimmed, with the phone. *)
Theorem student_login_checks_only_the_name studentName studentPhone s :
  ((String.length (trim studentName) < 2)%nat ->
     Login.handleStudentLogin App.handleLogin studentName studentPhone s
     = (Ok tt, setError InvalidName s)) /\
  ((String.length studentName < 2)%nat \/
   Forall (fun c => is_space c = true) (String.list_ascii_of_string studentName) ->
     (String.length (trim studentName) < 2)%nat) /\
  ((2 <= String.length (trim studentName))%nat ->
     userRole (Login.handleStudentLogin App.handleLogin studentName studentPhone s).2
       = Some student /\
     getItem "prolens_user_role"
       (localStorage (Login.handleStudentLogin App.handleLogin studentName studentPhone s).2)
       = Some "student" /\
     getItem "prolens_student_profile"
       (localStorage (Login.handleStudentLogin App.handleLogin studentName studentPhone s).2)
       = Some (JSON_stringify
                 (JObj [ ("name", JStr studentName); ("phone", JStr studentPhone) ]))).
Proof.
  split_and!.
  - intros H. unfold Login.handleStudentLogin. by rewrite (proj2 (Nat.ltb_lt _ _)) by done.
  - intros [H | H].
    + pose proof (length_trim studentName). lia.
    + rewrite (trim_blank _ H). cbn. lia.
  - intros H. unfold Login.handleStudentLogin. rewrite (proj2 (Nat.ltb_ge _ _)) by done.
    rewrite handleLogin_student. cbn [snd]. split_and!.
    + reflexivity.
    + cbn. unfold getItem, setItem. rewrite lookup_insert_ne by done. apply lookup_insert_eq.
    + cbn. unfold getItem, setItem. apply lookup_insert_eq.
Qed.
End Sessions.

Lemma login_survives_a_reload_witness :
  faithful ReferenceCodec.codec /\
  App.restore_login (codec := ReferenceCodec.codec)
    (loaded (localStorage
               (App.handleLogin (codec := ReferenceCodec.codec) student
                  (Some {| profile_name := "Noa Bar"; profile_phone := "0527654321" |})
                  (loaded ∅)).2))
  = (Ok tt,
     setStudentProfile
       (StudentProfile_to_JSON {| profile_name := "Noa Bar"; profile_phone := "0527654321" |})
       (setUserRole (Some student)
          (loaded (localStorage
                     (App.handleLogin (codec := ReferenceCodec.codec) student
                        (Some {| profile_name := "Noa Bar"; profile_phone := "0527654321" |})
                        (loaded ∅)).2)))).
Proof.
  split; [apply reference_faithful |].
  apply (proj1 (login_survives_a_reload (codec := ReferenceCodec.codec)
                  {| profile_name := "Noa Bar"; profile_phone := "0527654321" |} None
                  (loaded ∅) reference_faithful)).
Defined.

Lemma reset_command_opens_the_admin_account_witness :
  ("reset" = "reset" \/ "reset" = "creator") /\
  "mine1234" <> "reset" /\ "mine1234" <> "creator" /\
  (4 <= String.length "mine1234")%nat /\
  userRole
    (Login.handleAdminLogin (App.handleLogin (codec := ReferenceCodec.codec))
       (setPassword "mine1234"
          (Login.handleAdminLogin (App.handleLogin (codec := ReferenceCodec.codec))
             (setPassword "reset"
                (loaded {[ "prolens_admin_password" := "secret77" ]}))).2)).2
  = Some admin.
Proof.
  split_and!; [by left | done | done | cbn; lia |].
  apply (reset_command_opens_the_admin_account (codec := ReferenceCodec.codec)
           (loaded {[ "prolens_admin_password" := "secret77" ]}) "reset" "mine1234"
           (or_introl eq_refl) ltac:(done) ltac:(done) ltac:(cbn; lia)).
Defined.

Lemma master_code_replaces_the_password_witness :
  "secret77" <> Login.MASTER_CODE /\ "secret77" <> "reset" /\ "secret77" <> "creator" /\
  getItem "prolens_admin_password"
    (localStorage
       (Login.handleAdminLogin (App.handleLogin (codec := ReferenceCodec.codec))
          (setPassword Login.MASTER_CODE
             (loaded {[ "prolens_admin_password" := "secret77" ]}))).2)
  = Some Login.MASTER_CODE.
Proof.
  split_and!; [done | done | done |].
  apply (master_code_replaces_the_password (codec := ReferenceCodec.codec)
           (loaded {[ "prolens_admin_password" := "secret77" ]}) "secret77"
           ltac:(done) ltac:(done) ltac:(done)).
Defined.

Lemma rejected_admin_login_changes_only_the_message_witness :
  "guess" <> "reset" /\ "guess" <> "creator" /\ "guess" <> Login.MASTER_CODE /\
  getItem "prolens_admin_password" ({[ "prolens_admin_password" := "secret77" ]} : LocalStorage)
    <> Some "guess" /\
  Login.handleAdminLogin (App.handleLogin (codec := ReferenceCodec.codec))
    (setPassword "guess" (loaded {[ "prolens_admin_password" := "secret77" ]}))
  = (Ok tt,
     setError WrongPassword
       (setPassword "guess" (loaded {[ "prolens_admin_password" := "secret77" ]}))).
Proof.
  assert (getItem "prolens_admin_password"
            ({[ "prolens_admin_password" := "secret77" ]} : LocalStorage) <> Some "guess")
    as H by (unfold getItem; by rewrite lookup_singleton_eq).
  split_and!; [done | done | done | exact H |].
  apply (rejected_admin_login_changes_only_the_message (codec := ReferenceCodec.codec)
           (loaded {[ "prolens_admin_password" := "secret77" ]}) "guess"
           ltac:(done) ltac:(done) ltac:(done) H).
Defined.

Lemma stored_admin_password_stays_well_formed_witness :
  getItem "prolens_admin_password" (localStorage Sample.at_the_admin_form) = Some "secret77" /\
  password_well_formed (localStorage Sample.at_the_admin_form) /\
  getItem "prolens_admin_password"
    (localStorage
       (Login.handleAdminLogin (App.handleLogin (codec := ReferenceCodec.codec))
          Sample.at_the_admin_form).2) = Some Login.MASTER_CODE /\
  password_well_formed
    (localStorage
       (Login.handleAdminLogin (App.handleLogin (codec := ReferenceCodec.codec))
          Sample.at_the_admin_form).2).
Proof.
  assert (getItem "prolens_admin_password" (localStorage Sample.at_the_admin_form)
          = Some "secret77") as Hstored by apply lookup_singleton_eq.
  assert (password_well_formed (localStorage Sample.at_the_admin_form)) as H.
  { intros pw Hpw. rewrite Hstored in Hpw. injection Hpw as <-.
    split_and!; [cbn; lia | done | done]. }
  split_and!; [exact Hstored | exact H | |].
  - rewrite admin_login_master by reflexivity. cbn [snd]. unfold getItem, setItem.
    cbn [localStorage set_localStorage setUserRole setError].
    rewrite lookup_insert_ne by done. apply lookup_insert_eq.
  - exact (proj1 (stored_admin_password_stays_well_formed (codec := ReferenceCodec.codec)
                    Sample.at_the_admin_form H)).
Defined.

Lemma first_password_is_the_password_witness :
  getItem "prolens_admin_password" (∅ : LocalStorage) = None /\
  "mine1234" <> "reset" /\ "mine1234" <> "creator" /\
  (4 <= String.length "mine1234")%nat /\
  isSetupMode (Login.mount (loaded ∅)).2 = true.
Proof.
  split_and!; [done | done | done | cbn; lia |].
  apply (first_password_is_the_password (codec := ReferenceCodec.codec) ∅ "mine1234"
           (lookup_empty _) ltac:(done) ltac:(done) ltac:(cbn; lia)).
Defined.

Lemma student_sync_reloads_as_student_witness :
  JSON_parse (JSONCodec := ReferenceCodec.codec)
    (JSON_stringify (JSONCodec := ReferenceCodec.codec) Sample.with_profile)
    = Some Sample.with_profile /\
  Sample.with_profile <> JNull /\
  tx (page Sample.admin_session ∅) = None /\
  userRole
    (App.restore_login (codec := ReferenceCodec.codec)
       (loaded (flags (StudentSyncModal.onload (codec := ReferenceCodec.codec) willing
                         (JSON_stringify (JSONCodec := ReferenceCodec.codec)
                            Sample.with_profile)
                         (page Sample.admin_session ∅))))).2
  = Some student.
Proof.
  split_and!; [apply reference_parse_stringify | done | done |].
  apply (student_sync_reloads_as_student (codec := ReferenceCodec.codec) willing _
           Sample.with_profile (page Sample.admin_session ∅)
           (reference_parse_stringify _) ltac:(done) eq_refl).
Defined.

Lemma student_login_checks_only_the_name_witness :
  (2 <= String.length (trim "  Noa Bar "))%nat /\
  userRole
    (Login.handleStudentLogin (App.handleLogin (codec := ReferenceCodec.codec))
       "  Noa Bar " "" (loaded ∅)).2
  = Some student.
Proof.
  split; [vm_compute; lia |].
  apply (proj2 (proj2 (student_login_checks_only_the_name (codec := ReferenceCodec.codec)
                         "  Noa Bar " "" (loaded ∅))) ltac:(vm_compute; lia)).
Defined.

(** ** Deleting a presentation *)

Section Presentations.
Import CourseRegistration.

Lemma handleFileChange_stored file amb content c :
  (file_size file <= 50 * 1024 * 1024)%N ->
  dataURL amb = Some content -> stored amb = Ok tt ->
  handleFileChange (Some file) amb c
  = (Ok tt,
     setIsUploading false
       (setPresentations (fun prev => prev ++ [newDoc file amb content])
          (set_db (<[JStr (pretty (now amb)) := newDoc file amb content]> (presentations_db c))
             (setIsUploading true c)))).
Proof.
  intros Hsize Hdata Hstored. unfold handleFileChange.
  apply N.leb_le in Hsize. rewrite N.ltb_antisym, Hsize. cbn [negb].
  rewrite Hdata. erewrite bind_ok by reflexivity.
  unfold finally, try_catch, saveToDB. rewrite Hstored. reflexivity.
Qed.

Lemma handleDelete_done id c :
  JNull ∉ presentations c ->
  handleDelete id true (Ok tt) c
  = (Ok tt,
     setPresentations (fun _ => filter (fun r => has_id id r = Some false) (presentations c))
       (set_db (delete_key (JStr id) (presentations_db c)) c)).
Proof.
  intros Hn. unfold handleDelete, when, deleteFromDB, drop_presentation. run.
  cbn [presentations set_db]. by rewrite without_id_filter.
Qed.

(** X19: deleting a presentation.  Declined, nothing changes.
    Confirmed and carried out, the record with that id is gone from
    the presentation store, every other record is untouched, and the
    list on screen keeps exactly the entries with another id.  When
    the store refuses, the store and the list stay as they were and
    the delete error is shown. *)
Theorem presentation_delete_removes_one_id id c :
  JNull ∉ presentations c ->
  handleDelete id false (Ok tt) c = (Ok tt, c) /\
  presentations_db (handleDelete id true (Ok tt) c).2 !! JStr id = None /\
  (forall k, k <> JStr id ->
     presentations_db (handleDelete id true (Ok tt) c).2 !! k = presentations_db c !! k) /\
  presentations (handleDelete id true (Ok tt) c).2
    = filter (fun r => has_id id r = Some false) (presentations c) /\
  course_alerts (handleDelete id true (Ok tt) c).2 = course_alerts c /\
  handleDelete id true Throw c = (Ok tt, alert DeleteFailed c).
Proof.
  intros Hn. rewrite handleDelete_done by done. cbn [snd]. split_and!.
  - reflexivity.
  - cbn. unfold delete_key. apply lookup_delete_eq.
  - intros k Hk. cbn. unfold delete_key. by apply lookup_delete_ne.
  - reflexivity.
  - reflexivity.
  - reflexivity.
Qed.

(** X20: an uploaded presentation can be taken back.  Uploading a
    file that is stored (within 50MB, read and saved) and then
    deleting the presentation with the id the upload gave it leaves
    the presentation store and the list on screen as they were before
    the upload, provided that id was not in use. *)
Theorem uploaded_presentation_can_be_deleted file amb content c :
  (file_size file <= 50 * 1024 * 1024)%N ->
  dataURL amb = Some content -> stored amb = Ok tt ->
  presentations_db c !! JStr (pretty (now amb)) = None ->
  JNull ∉ presentations c ->
  Forall (fun r => has_id (pretty (now amb)) r = Some false) (presentations c) ->
  presentations_db
    (handleDelete (pretty (now amb)) true (Ok tt)
       (handleFileChange (Some file) amb c).2).2 = presentations_db c /\
  presentations
    (handleDelete (pretty (now amb)) true (Ok tt)
       (handleFileChange (Some file) amb c).2).2 = presentations c.
Proof.
  intros Hsize Hdata Hstored Hfresh Hn Hids.
  rewrite (handleFileChange_stored file amb content c Hsize Hdata Hstored). cbn [snd].
  rewrite handleDelete_done.
  2:{ cbn. intros [H | H%list_elem_of_singleton]%elem_of_app; done. }
  cbn [snd presentations_db presentations setPresentations set_db setIsUploading]. split.
  - unfold delete_key. by apply delete_insert_id.
  - rewrite filter_app, (filter_all _ _ Hids).
    rewrite filter_cons_False, filter_nil, app_nil_r; [done |].
    unfold has_id, newDoc. cbn [get_prop assoc String.eqb Ascii.eqb Bool.eqb].
    by rewrite String.eqb_refl.
Qed.
End Presentations.

(** ** Completed topics and the quiz *)

Section Topics.
Import LearningBox.

Lemma elem_of_without id t (prev : list string) :
  t ∈ List.filter (fun t => negb (String.eqb t id)) prev <-> t ∈ prev /\ t <> id.
Proof.
  rewrite !list_elem_of_In, filter_In, negb_true_iff. by rewrite String.eqb_neq.
Qed.

Lemma without_absent id (prev : list string) :
  id ∉ prev -> List.filter (fun t => negb (String.eqb t id)) prev = prev.
Proof.
  induction prev as [| t prev IH]; [done |]. intros [Ht Hp]%not_elem_of_cons. cbn.
  destruct (String.eqb t id) eqn:E; [by apply String.eqb_eq in E |]. cbn. by rewrite IH.
Qed.

Lemma toggle_elem_of id t prev :
  t ∈ toggleTopicCompletion id prev
  <-> (t = id /\ id ∉ prev) \/ (t <> id /\ t ∈ prev).
Proof.
  unfold toggleTopicCompletion. destruct (bool_decide (id ∈ prev)) eqn:E.
  - apply bool_decide_eq_true in E. rewrite elem_of_without. split.
    + intros [H1 H2]. by right.
    + intros [[-> H] | [H1 H2]]; done.
  - apply bool_decide_eq_false in E. rewrite elem_of_app, list_elem_of_singleton. split.
    + intros [H | ->]; [right | by left]. split; [by intros -> | done].
    + intros [[-> H] | [H1 H2]]; auto.
Qed.

Lemma toggle_NoDup id prev : NoDup prev -> NoDup (toggleTopicCompletion id prev).
Proof.
  intros H. unfold toggleTopicCompletion. destruct (bool_decide (id ∈ prev)) eqn:E.
  - by apply NoDup_ListNoDup, List.NoDup_filter, NoDup_ListNoDup.
  - apply bool_decide_eq_false in E. apply NoDup_app. split_and!; [done | | apply NoDup_singleton].
    intros t Ht ->%list_elem_of_singleton. done.
Qed.

(** X21: toggling a topic flips that topic and no other.  After the
    toggle the topic is in the list exactly when it was not before,
    every other topic is in the list exactly when it was before, a
    list without repetitions stays without repetitions, and toggling
    twice a topic that was not completed gives the list back. *)
Theorem toggle_flips_one_topic id prev :
  (id ∈ toggleTopicCompletion id prev <-> id ∉ prev) /\
  (forall t, t <> id -> (t ∈ toggleTopicCompletion id prev <-> t ∈ prev)) /\
  (NoDup prev -> NoDup (toggleTopicCompletion id prev)) /\
  (id ∉ prev -> toggleTopicCompletion id (toggleTopicCompletion id prev) = prev).
Proof.
  split_and!.
  - rewrite toggle_elem_of. split; [by intros [[_ H] | [H _]] | by left].
  - intros t Ht. rewrite toggle_elem_of. split; [by intros [[H _] | [_ H]] | by right].
  - apply toggle_NoDup.
  - intros H. unfold toggleTopicCompletion at 2. rewrite bool_decide_eq_false_2 by done.
    unfold toggleTopicCompletion. rewrite bool_decide_eq_true_2.
    2:{ apply elem_of_app. right. by apply list_elem_of_singleton. }
    rewrite List.filter_app, without_absent by done. cbn.
    rewrite String.eqb_refl. cbn. by rewrite app_nil_r.
Qed.

(** X22: the quiz only ever adds a topic.  Without an open quiz, and
    on a wrong answer, nothing is scheduled and the completed topics
    stay as they are; a correct answer schedules one callback, and
    when that callback runs over the list the click saw, the topic of
    the quiz is completed afterwards, every topic completed before
    still is, and no topic appears twice if none did. *)
Theorem quiz_only_ever_adds index q :
  completedTopics (handleQuizAnswer index q).1 = completedTopics q /\
  (is_Some (handleQuizAnswer index q).2
     <-> exists quiz, activeQuiz q = Some quiz /\ index = correctAnswerIndex quiz) /\
  (forall timer quiz later,
     (handleQuizAnswer index q).2 = Some timer -> activeQuiz q = Some quiz ->
     completedTopics later = completedTopics q ->
     topicId quiz ∈ completedTopics (timer later) /\
     (forall t, t ∈ completedTopics q -> t ∈ completedTopics (timer later)) /\
     (NoDup (completedTopics q) -> NoDup (completedTopics (timer later)))).
Proof.
  unfold handleQuizAnswer. destruct (activeQuiz q) as [quiz |] eqn:Ea.
  - destruct (index =? correctAnswerIndex quiz)%Z eqn:Ei.
    + apply Z.eqb_eq in Ei. split_and!; [done | |].
      * split; [intros _; by exists quiz | by eexists].
      * intros timer quiz' later [= <-] [= <-] Hl.
        destruct (bool_decide (topicId quiz ∈ completedTopics q)) eqn:E.
        -- apply bool_decide_eq_true in E. rewrite Hl. done.
        -- apply bool_decide_eq_false in E. cbn [completedTopics setCompletedTopics].
           rewrite Hl. split_and!.
           ++ apply toggle_elem_of. by left.
           ++ intros t Ht. apply toggle_elem_of. right. split; [by intros -> | done].
           ++ apply toggle_NoDup.
    + apply Z.eqb_neq in Ei. split_and!; [done | | done].
      split; [by intros [? [=]] | intros (quiz' & [= <-] & ->); done].
  - split_and!; [done | | done].
    split; [by intros [? [=]] | by intros (quiz' & [=] & _)].
Qed.
End Topics.

(** ** The conversation sent to the model *)

(** X23: the history sent along with a message is the last ten
    settled messages.  It never holds more than ten messages, never a
    placeholder that is still loading, it is the tail of the settled
    messages in their order, and all of them when there are at most
    ten. *)
Theorem recent_history_is_the_last_ten_settled history :
  (length (geminiService.recentHistory history) <= 10)%nat /\
  Forall (fun h => geminiService.isLoading h <> Some true)
    (geminiService.recentHistory history) /\
  geminiService.recentHistory history
    `suffix_of` List.filter geminiService.settled history /\
  ((length (List.filter geminiService.settled history) <= 10)%nat ->
     geminiService.recentHistory history = List.filter geminiService.settled history).
Proof.
  unfold geminiService.recentHistory, geminiService.slice_last.
  set (l := List.filter geminiService.settled history).
  assert (Forall (fun h => geminiService.isLoading h <> Some true) l) as Hl.
  { apply Forall_forall. intros h Hh. subst l. apply list_elem_of_In, filter_In in Hh as [_ Hh].
    unfold geminiService.settled in Hh. by destruct (geminiService.isLoading h) as [[] |]. }
  split_and!.
  - rewrite length_drop. lia.
  - by apply Forall_drop.
  - apply suffix_drop.
  - intros H. replace (length l - 10)%nat with 0%nat by lia. done.
Qed.

(** ** Removing materials and resetting *)

Section Materials.
Import firebase LearningBox.

(** X26: removing a material in local mode.  Declined, nothing
    changes.  Confirmed and carried out, the record with that id is
    gone from the local store, every other record is untouched, the
    list on screen keeps exactly the materials with another id, and
    no message is shown.  When the store refuses, the store and the
    list stay as they were, the failure is logged and the delete
    error is shown. *)
Theorem local_remove_deletes_one_id h fate id contentUrl w :
  removeMaterial false h fate id contentUrl false w = (Ok tt, w) /\
  (deletes fate id = Ok tt ->
     local_db (removeMaterial false h fate id contentUrl true w).2 !! JStr id = None /\
     (forall k, k <> JStr id ->
        local_db (removeMaterial false h fate id contentUrl true w).2 !! k
        = local_db w !! k) /\
     materials (removeMaterial false h fate id contentUrl true w).2
       = List.filter (fun m => negb (String.eqb (m_id m) id)) (materials w) /\
     shown (removeMaterial false h fate id contentUrl true w).2 = shown w) /\
  (deletes fate id = Throw ->
     removeMaterial false h fate id contentUrl true w
     = (Ok tt, alert DeleteFailed (console_error FailedToDeleteLog w))).
Proof.
  split_and!; [reflexivity | |]; intros Hd; unfold removeMaterial, deleteMaterialFromLocalDB;
    rewrite Hd; run; cbn; [| reflexivity].
  split_and!; try reflexivity.
  - unfold delete_key. apply lookup_delete_eq.
  - intros k Hk. unfold delete_key. by apply lookup_delete_ne.
Qed.

(** Resetting the progress clears local files only in local mode
    and only when asked twice.  With the Cloud Mirror configured, or
    with either question declined, the local store and the list on
    screen stay as they are; in local mode, with both questions
    confirmed and the store open, both end up empty. *)
Lemma reset_clears_files_only_in_local_mode cloud confirmed clearFiles opened w :
  (cloud = true \/ confirmed = false \/ clearFiles = false ->
     handleResetProgress cloud confirmed clearFiles opened w = (Ok tt, w)) /\
  (cloud = false -> confirmed = true -> clearFiles = true -> opened = true ->
     getAll (local_db (handleResetProgress cloud confirmed clearFiles opened w).2) = [] /\
     materials (handleResetProgress cloud confirmed clearFiles opened w).2 = []).
Proof.
  split.
  - intros [-> | [-> | ->]]; unfold handleResetProgress; [| done |];
      destruct confirmed; try done; by destruct cloud.
  - intros -> -> -> ->. unfold handleResetProgress. run. cbn. split; [| done].
    apply clear_getAll.
Qed.

(** X27: when the document cannot be deleted from the cloud, nothing
    is deleted.  If [deleteDoc] rejects, [deleteMaterialFromCloud]
    throws before it looks at the file: no document and no blob is
    removed, no deletion reaches the backend, and [removeMaterial]
    logs the failure and shows the delete error. *)
Theorem failed_document_delete_keeps_the_file h fate id contentUrl w :
  docDeleted fate id = false ->
  cloud_docs (removeMaterial true h fate id contentUrl true w).2 = cloud_docs w /\
  cloud_blobs (removeMaterial true h fate id contentUrl true w).2 = cloud_blobs w /\
  remote_ops (removeMaterial true h fate id contentUrl true w).2 = remote_ops w /\
  local_db (removeMaterial true h fate id contentUrl true w).2 = local_db w /\
  materials (removeMaterial true h fate id contentUrl true w).2 = materials w /\
  shown (removeMaterial true h fate id contentUrl true w).2 = shown w ++ [DeleteFailed] /\
  logged (removeMaterial true h fate id contentUrl true w).2
    = logged w ++ [FailedToDeleteLog].
Proof.
  intros Hd. unfold removeMaterial, deleteMaterialFromCloud. rewrite Hd.
  destruct (db h); run; cbn; done.
Qed.

(** Without handles there is no cloud.  When the API key is the
    placeholder the repository ships, or the SDK fails to initialise,
    the module has no handles; the upload, add and delete functions
    then throw, the analysis update returns without doing anything,
    and none of them changes a document, a blob or the local store, or
    reaches the backend. *)
Lemma without_handles_there_is_no_cloud apiKey initializes file url material docId id
    fileUrl docDeleted blobDeleted isAnalyzed updated w :
  apiKey = "YOUR_API_KEY_HERE" \/ initializes = false ->
  (uploadFileToCloud (init apiKey initializes) file url w).1 = Throw /\
  (addMaterialToCloud (init apiKey initializes) material docId w).1 = Throw /\
  (deleteMaterialFromCloud (init apiKey initializes) id fileUrl
     docDeleted blobDeleted w).1 = Throw /\
  (updateMaterialAnalysis (init apiKey initializes) id isAnalyzed updated w).1 = Ok tt /\
  (forall w',
     w' = (uploadFileToCloud (init apiKey initializes) file url w).2 \/
     w' = (addMaterialToCloud (init apiKey initializes) material docId w).2 \/
     w' = (deleteMaterialFromCloud (init apiKey initializes) id fileUrl
             docDeleted blobDeleted w).2 \/
     w' = (updateMaterialAnalysis (init apiKey initializes) id isAnalyzed updated w).2 ->
     cloud_docs w' = cloud_docs w /\ cloud_blobs w' = cloud_blobs w /\
     remote_ops w' = remote_ops w /\ local_db w' = local_db w).
Proof.
  intros H.
  assert (init apiKey initializes = {| db := false; storage := false |}) as ->.
  { unfold init. destruct H as [-> | ->]; [done |]. by rewrite andb_false_r. }
  split_and!; try reflexivity. intros w' [-> | [-> | [-> | ->]]]; done.
Qed.
End Materials.

(** ** Exporting *)

(** X28: an export reads and never writes.  Neither the student sync
    export nor the admin backup changes a flag, a stored record or
    reloads the page, whatever the stores do.  When the store opens
    and can be read, the sync export hands out the serialised bundle
    and says so; when it cannot, there is no file, one log entry and
    one error message. *)
Theorem export_reads_and_never_writes {codec : JSONCodec} env timestamp p :
  (forall P,
     P = (StudentSyncModal.handleExport env timestamp p).2 \/
     P = (AdminDashboard.handleExportBackup env timestamp p).2 ->
     flags P = flags p /\ materials_db P = materials_db p /\ reloaded P = reloaded p /\
     registrations P = registrations p) /\
  (idb_opens env = true -> idb_reads env = true ->
     StudentSyncModal.handleExport env timestamp p
     = (Ok (Some (JSON_stringify (StudentSyncModal.syncData timestamp p))),
        add_alert SyncFileDownloaded p)) /\
  (idb_opens env = false \/ idb_reads env = false ->
     StudentSyncModal.handleExport env timestamp p
     = (Ok None, add_alert SyncExportFailed (add_console BackupFailedLog p)) /\
     AdminDashboard.handleExportBackup env timestamp p
     = (Ok None, add_alert BackupExportFailed (add_console BackupFailedLog p))).
Proof.
  split_and!.
  - intros P [-> | ->].
    + unfold StudentSyncModal.handleExport.
      destruct (idb_opens env), (idb_reads env); run; done.
    + unfold AdminDashboard.handleExportBackup, AdminDashboard.stored_registrations, parse.
      run. destruct (getItem "prolens_registrations" (flags p)) as [t |];
        [destruct (String.eqb t ""); [| destruct (JSON_parse t)] |];
        destruct (idb_opens env), (idb_reads env); done.
  - intros Ho Hr. unfold StudentSyncModal.handleExport. by rewrite Ho, Hr.
  - intros H. split.
    + unfold StudentSyncModal.handleExport.
      destruct (idb_opens env), (idb_reads env); run; destruct H; done.
    + unfold AdminDashboard.handleExportBackup, AdminDashboard.stored_registrations, parse.
      run. destruct (getItem "prolens_registrations" (flags p)) as [t |];
        [destruct (String.eqb t ""); [| destruct (JSON_parse t)] |];
        destruct (idb_opens env), (idb_reads env); destruct H; done.
Qed.

(** ** Instances *)

Lemma whatsapp_number_has_no_leading_zero_witness :
  digits_only "052-765 4321" = String "0" "527654321" /\
  RegistrationsTable.whatsapp_phone "052-765 4321" = "972" +:+ "527654321" /\
  String.prefix "0" (digits_only "+972 54 111 2222") = false /\
  RegistrationsTable.whatsapp_phone "+972 54 111 2222" = digits_only "+972 54 111 2222".
Proof.
  split; [reflexivity |]. split.
  - apply (proj1 (proj2 (proj2 (proj2 (whatsapp_number_has_no_leading_zero "052-765 4321"))))
             "527654321" eq_refl).
  - split; [reflexivity |].
    apply (proj2 (proj2 (proj2 (proj2
             (whatsapp_number_has_no_leading_zero "+972 54 111 2222")))) eq_refl).
Defined.

Lemma checker_verdict_and_local_limit_witness :
  exists verdict,
    FileChecker.handleCheckFile (Some Sample.photo) None = Some verdict /\
    FileChecker.status verdict <> FileChecker.safe /\
    LearningBox.process_file false Sample.no_handles Sample.photo Sample.quiet
      Sample.empty_world
    = (Ok [], alert (TooLargeForLocal (file_name Sample.photo)) Sample.empty_world).
Proof.
  destruct (proj2 (checker_verdict_and_local_limit Sample.photo None Sample.no_handles
                     Sample.quiet Sample.empty_world))
    as (verdict & Hv & _ & _ & _ & Hreject & _).
  exists verdict. injection Hv as <-. split; [reflexivity |]. split; [done |].
  apply Hreject. done.
Defined.

Lemma presentation_delete_removes_one_id_witness :
  (JNull ∉ CourseRegistration.presentations Sample.two_slides) /\
  CourseRegistration.presentations_db Sample.two_slides !! JStr "1700000000000"
    = Some Sample.first_slides /\
  CourseRegistration.presentations_db
    (CourseRegistration.handleDelete "1700000000000" true (Ok tt) Sample.two_slides).2
    !! JStr "1700000000000" = None /\
  CourseRegistration.presentations_db
    (CourseRegistration.handleDelete "1700000000000" true (Ok tt) Sample.two_slides).2
    !! JStr "1700000060000" = Some Sample.second_slides /\
  CourseRegistration.presentations
    (CourseRegistration.handleDelete "1700000000000" true (Ok tt) Sample.two_slides).2
    = [ Sample.second_slides ].
Proof.
  assert (JNull ∉ CourseRegistration.presentations Sample.two_slides) as H
    by (cbn; rewrite !not_elem_of_cons; split_and!; (done || apply not_elem_of_nil)).
  destruct (presentation_delete_removes_one_id "1700000000000" Sample.two_slides H)
    as (_ & Hgone & Hothers & Hlist & _).
  split_and!; [exact H | by vm_compute | exact Hgone | |].
  - rewrite Hothers by done. by vm_compute.
  - rewrite Hlist. by vm_compute.
Defined.

Lemma uploaded_presentation_can_be_deleted_witness :
  (file_size Sample.photo <= 50 * 1024 * 1024)%N /\
  CourseRegistration.presentations_db
    (CourseRegistration.handleDelete (pretty (CourseRegistration.now Sample.slide_upload))
       true (Ok tt)
       (CourseRegistration.handleFileChange (Some Sample.photo) Sample.slide_upload
          Sample.empty_course).2).2
  = CourseRegistration.presentations_db Sample.empty_course.
Proof.
  split; [by vm_compute |].
  apply (uploaded_presentation_can_be_deleted Sample.photo Sample.slide_upload
           "data:image/jpeg;base64,AAAA" Sample.empty_course
           ltac:(by vm_compute) eq_refl eq_refl (lookup_empty _)
           (not_elem_of_nil _) (Forall_nil_2 _)).
Defined.

Lemma toggle_flips_one_topic_witness :
  ("portrait" ∉ ["macro"]) /\
  LearningBox.toggleTopicCompletion "portrait"
    (LearningBox.toggleTopicCompletion "portrait" ["macro"]) = ["macro"].
Proof.
  assert ("portrait" ∉ ["macro"]) as H
    by (rewrite not_elem_of_cons; split; [done | apply not_elem_of_nil]).
  split; [exact H |].
  apply (proj2 (proj2 (proj2 (toggle_flips_one_topic "portrait" ["macro"]))) H).
Defined.

Lemma quiz_only_ever_adds_witness :
  exists timer,
    (LearningBox.handleQuizAnswer 2
       {| LearningBox.activeQuiz :=
            Some {| LearningBox.topicId := "portrait"; LearningBox.correctAnswerIndex := 2 |};
          LearningBox.quizFeedback := None;
          LearningBox.completedTopics := ["macro"] |}).2 = Some timer /\
    "portrait" ∈ LearningBox.completedTopics
      (timer {| LearningBox.activeQuiz := None; LearningBox.quizFeedback := None;
                LearningBox.completedTopics := ["macro"] |}).
Proof.
  eexists. split; [reflexivity |].
  apply (proj1 (proj2 (proj2 (quiz_only_ever_adds 2
           {| LearningBox.activeQuiz :=
                Some {| LearningBox.topicId := "portrait";
                        LearningBox.correctAnswerIndex := 2 |};
              LearningBox.quizFeedback := None;
              LearningBox.completedTopics := ["macro"] |})) _
           {| LearningBox.topicId := "portrait"; LearningBox.correctAnswerIndex := 2 |}
           {| LearningBox.activeQuiz := None; LearningBox.quizFeedback := None;
              LearningBox.completedTopics := ["macro"] |} eq_refl eq_refl eq_refl)).
Defined.

Lemma recent_history_is_the_last_ten_settled_witness :
  (length (List.filter geminiService.settled
             [ {| geminiService.msg_id := "1"; geminiService.msg_role := geminiService.user;
                  geminiService.msg_text := "iso?"; geminiService.isLoading := None |};
               {| geminiService.msg_id := "loading";
                  geminiService.msg_role := geminiService.model;
                  geminiService.msg_text := "..."; geminiService.isLoading := Some true |} ])
   <= 10)%nat /\
  geminiService.recentHistory
    [ {| geminiService.msg_id := "1"; geminiService.msg_role := geminiService.user;
         geminiService.msg_text := "iso?"; geminiService.isLoading := None |};
      {| geminiService.msg_id := "loading"; geminiService.msg_role := geminiService.model;
         geminiService.msg_text := "..."; geminiService.isLoading := Some true |} ]
  = List.filter geminiService.settled
      [ {| geminiService.msg_id := "1"; geminiService.msg_role := geminiService.user;
           geminiService.msg_text := "iso?"; geminiService.isLoading := None |};
        {| geminiService.msg_id := "loading"; geminiService.msg_role := geminiService.model;
           geminiService.msg_text := "..."; geminiService.isLoading := Some true |} ].
Proof.
  split; [cbn; lia |].
  apply (proj2 (proj2 (proj2 (recent_history_is_the_last_ten_settled _)))). cbn. lia.
Defined.

Lemma local_remove_deletes_one_id_witness :
  LearningBox.deletes Sample.kind "m1" = Ok tt /\
  local_db (LearningBox.removeMaterial false Sample.no_handles Sample.kind "m1" "iso" true
              Sample.seen_world).2 !! JStr "m1" = None.
Proof.
  split; [reflexivity |].
  apply (proj1 (proj2 (local_remove_deletes_one_id Sample.no_handles Sample.kind "m1" "iso"
                         Sample.seen_world)) eq_refl).
Defined.

Lemma failed_document_delete_keeps_the_file_witness :
  LearningBox.docDeleted
    {| LearningBox.updates := fun _ => true; LearningBox.saves := fun _ => Ok tt;
       LearningBox.deletes := fun _ => Ok tt; LearningBox.docDeleted := fun _ => false;
       LearningBox.blobDeleted := fun _ => true |} "doc1" = false /\
  shown (LearningBox.removeMaterial true (firebase.init "live-key" true)
           {| LearningBox.updates := fun _ => true; LearningBox.saves := fun _ => Ok tt;
              LearningBox.deletes := fun _ => Ok tt; LearningBox.docDeleted := fun _ => false;
              LearningBox.blobDeleted := fun _ => true |}
           "doc1" "https://firebasestorage.googleapis.com/o/portrait.jpg" true
           Sample.empty_world).2
  = shown Sample.empty_world ++ [DeleteFailed].
Proof.
  split; [reflexivity |].
  apply (failed_document_delete_keeps_the_file (firebase.init "live-key" true)
           {| LearningBox.updates := fun _ => true; LearningBox.saves := fun _ => Ok tt;
              LearningBox.deletes := fun _ => Ok tt; LearningBox.docDeleted := fun _ => false;
              LearningBox.blobDeleted := fun _ => true |}
           "doc1" "https://firebasestorage.googleapis.com/o/portrait.jpg"
           Sample.empty_world eq_refl).
Defined.

Lemma export_reads_and_never_writes_witness :
  (idb_opens {| idb_opens := false; idb_reads := true; idb_clears := true;
                idb_accepts := fun _ => true |} = false \/
   idb_reads {| idb_opens := false; idb_reads := true; idb_clears := true;
                idb_accepts := fun _ => true |} = false) /\
  StudentSyncModal.handleExport (codec := ReferenceCodec.codec)
    {| idb_opens := false; idb_reads := true; idb_clears := true;
       idb_accepts := fun _ => true |} "2023-11-14T10:00:00.000Z" (page ∅ Sample.old_store)
  = (Ok None,
     add_alert SyncExportFailed (add_console BackupFailedLog (page ∅ Sample.old_store))).
Proof.
  split; [by left |].
  apply (proj2 (proj2 (export_reads_and_never_writes (codec := ReferenceCodec.codec)
                         {| idb_opens := false; idb_reads := true; idb_clears := true;
                            idb_accepts := fun _ => true |}
                         "2023-11-14T10:00:00.000Z" (page ∅ Sample.old_store)))
           (or_introl eq_refl)).
Defined.

(** ** The local upload, file by file *)

Section LocalUploads.
Import firebase LearningBox.




Lemma foldl_records (ms : list LearningMaterial) (s : Store) :
  (forall m, m ∈ ms ->
     exists m', m' ∈ ms /\ m_id m' = m_id m /\
       foldl (fun s m => <[JStr (m_id m) := LearningMaterial_to_JSON m]> s) s ms
         !! JStr (m_id m) = Some (LearningMaterial_to_JSON m')) /\
  (forall k, (forall m, m ∈ ms -> k <> JStr (m_id m)) ->
     foldl (fun s m => <[JStr (m_id m) := LearningMaterial_to_JSON m]> s) s ms !! k = s !! k).
Proof.
  induction ms as [| m0 ms IH] using rev_ind.
  - split; [by intros m Hm%elem_of_nil | done].
  - destruct IH as [IH1 IH2]. rewrite foldl_app. cbn [foldl]. split.
    + intros m [Hm | ->%list_elem_of_singleton]%elem_of_app.
      * destruct (decide (m_id m0 = m_id m)) as [E | E].
        -- exists m0. split_and!; [apply elem_of_app; right; by apply list_elem_of_singleton
                                   | done |].
           rewrite <- E. apply lookup_insert_eq.
        -- destruct (IH1 m Hm) as (m' & Hm' & Hid & Hl). exists m'.
           split_and!; [apply elem_of_app; by left | done |].
           rewrite lookup_insert_ne by congruence. done.
      * exists m0. split_and!; [apply elem_of_app; right; by apply list_elem_of_singleton
                                | done | apply lookup_insert_eq].
    + intros k Hk. rewrite lookup_insert_ne.
      * apply IH2. intros m Hm. apply Hk, elem_of_app. by left.
      * intros E. eapply Hk; [| by symmetry]. apply elem_of_app. right.
        by apply list_elem_of_singleton.
Qed.


Lemma for_each_saves fate (ms : list LearningMaterial) w :
  (forall m, saves fate m = Ok tt) ->
  for_each ms (fun m =>
    saveMaterialToLocalDB (with_isAnalyzed true m) (saves fate (with_isAnalyzed true m))) w
  = (Ok tt,
     set_local_db
       (fun s => foldl (fun s m => <[JStr (m_id m) := LearningMaterial_to_JSON m]> s) s
                   (with_isAnalyzed true <$> ms)) w).
Proof.
  intros Hsaves. revert w. induction ms as [| m ms IH]; intros w; [reflexivity |].
  cbn [for_each]. erewrite bind_ok.
  2:{ unfold saveMaterialToLocalDB. rewrite Hsaves. reflexivity. }
  rewrite IH. reflexivity.
Qed.



End LocalUploads.

(** ** A topic lesson *)

Section Lessons.
Import firebase LearningBox.

Lemma same_id_same_material (ms : list LearningMaterial) m m' :
  NoDup (m_id <$> ms) -> m ∈ ms -> m' ∈ ms -> m_id m' = m_id m -> m' = m.
Proof.
  induction ms as [| m0 ms IH]; intros Hnd Hm Hm' Hid; [by apply elem_of_nil in Hm |].
  cbn in Hnd. apply NoDup_cons in Hnd as [Hnotin Hnd].
  apply elem_of_cons in Hm as [-> | Hm]; apply elem_of_cons in Hm' as [-> | Hm']; [done | | |].
  - exfalso. apply Hnotin. rewrite <- Hid. by apply list_elem_of_fmap_2.
  - exfalso. apply Hnotin. rewrite Hid. by apply list_elem_of_fmap_2.
  - by apply IH.
Qed.

Lemma map_is_fmap {A B} (f : A -> B) (l : list A) : List.map f l = f <$> l.
Proof. induction l as [| x l IH]; [done |]. cbn. by rewrite IH. Qed.

Lemma to_mark_text (ms : list LearningMaterial) m :
  NoDup (m_id <$> ms) -> m ∈ ms ->
  to_mark (List.filter (fun m => bool_decide (m_type m = text)) ms) m
  = bool_decide (m_type m = text).
Proof.
  intros Hnd Hm. unfold to_mark. destruct (bool_decide (m_type m = text)) eqn:E.
  - apply existsb_exists. exists m. split; [| apply String.eqb_refl].
    apply filter_In. split; [by apply list_elem_of_In | done].
  - apply not_true_is_false. intros (tm & [Htm Ht]%filter_In & Hid%String.eqb_eq)%existsb_exists.
    apply list_elem_of_In in Htm.
    rewrite (same_id_same_material ms m tm Hnd Hm Htm Hid) in Ht. congruence.
Qed.

(** X30: a topic lesson sends and marks the text materials only.  In
    local mode, [handleTopicLearn] works on the list of materials of
    the render the lesson was started in.  With distinct ids in that
    list and writes that succeed, it hands exactly the text materials
    of the list to the AI Gateway; the list it then hands to
    [setMaterials] is that list with every text material analyzed and
    every other material as it was; each text material of the list has
    its analyzed record under its id in the local store, and the
    records under other ids are untouched. *)
Theorem topic_lesson_marks_the_text_materials h fate snapshot w :
  (forall m, saves fate m = Ok tt) ->
  NoDup (m_id <$> snapshot) ->
  exists w',
    handleTopicLearn false h fate snapshot w = (Ok tt, w') /\
    ai_requests w'
      = ai_requests w ++ [List.filter (fun m => bool_decide (m_type m = text)) snapshot] /\
    materials w'
      = (fun m => if bool_decide (m_type m = text) then with_isAnalyzed true m else m)
          <$> snapshot /\
    (forall m, m ∈ snapshot -> m_type m = text ->
       local_db w' !! JStr (m_id m)
       = Some (LearningMaterial_to_JSON (with_isAnalyzed true m))) /\
    (forall k, (forall m, m ∈ snapshot -> m_type m = text -> k <> JStr (m_id m)) ->
       local_db w' !! k = local_db w !! k).
Proof.
  intros Hsaves Hnd.
  set (lightMaterials := List.filter (fun m => bool_decide (m_type m = text)) snapshot).
  eexists. split_and!.
  - unfold handleTopicLearn, markMaterialsAsAnalyzed. fold lightMaterials.
    erewrite bind_ok by reflexivity. erewrite bind_ok by reflexivity.
    by rewrite for_each_saves.
  - reflexivity.
  - cbn [materials set_local_db setMaterials ai_request]. fold lightMaterials.
    rewrite map_is_fmap. apply list_eq. intros i. rewrite !list_lookup_fmap.
    destruct (snapshot !! i) as [m |] eqn:Em; [| done]. cbn.
    subst lightMaterials. rewrite to_mark_text; [done | done |].
    by eapply list_elem_of_lookup_2.
  - intros m Hm Ht. cbn [local_db set_local_db setMaterials ai_request].
    assert (with_isAnalyzed true m ∈ with_isAnalyzed true <$> lightMaterials) as Hin.
    { apply list_elem_of_fmap_2. subst lightMaterials. apply list_elem_of_In, filter_In.
      split; [by apply list_elem_of_In | by apply bool_decide_eq_true]. }
    destruct (proj1 (foldl_records (with_isAnalyzed true <$> lightMaterials) (local_db w))
                _ Hin) as (m' & Hm' & Hid & Hl).
    cbn [m_id with_isAnalyzed] in Hl. rewrite Hl. f_equal. f_equal.
    apply list_elem_of_fmap in Hm' as (m0 & -> & Hm0). cbn [m_id with_isAnalyzed] in Hid.
    subst lightMaterials. apply list_elem_of_In, filter_In in Hm0 as [Hm0 _].
    apply list_elem_of_In in Hm0.
    by rewrite (same_id_same_material snapshot m m0 Hnd Hm Hm0 Hid).
  - intros k Hk. cbn [local_db set_local_db setMaterials ai_request].
    apply (proj2 (foldl_records (with_isAnalyzed true <$> lightMaterials) (local_db w))).
    intros m' (m0 & -> & Hm0)%list_elem_of_fmap. cbn [m_id with_isAnalyzed].
    subst lightMaterials. apply list_elem_of_In, filter_In in Hm0 as [Hm0 Ht].
    apply Hk; [by apply list_elem_of_In | by apply bool_decide_eq_true in Ht].
Qed.
End Lessons.


Lemma topic_lesson_marks_the_text_materials_witness :
  (forall m, LearningBox.saves Sample.kind m = Ok tt) /\
  NoDup (m_id <$> [ Sample.draft; Sample.portrait ]) /\
  analyzed Sample.draft = false /\
  exists w',
    LearningBox.handleTopicLearn false Sample.no_handles Sample.kind
      [ Sample.draft; Sample.portrait ] Sample.library_world = (Ok tt, w') /\
    ai_requests w' = [ [ Sample.draft ] ] /\
    materials w' = [ with_isAnalyzed true Sample.draft; Sample.portrait ] /\
    local_db w' !! JStr "m2"
      = Some (LearningMaterial_to_JSON (with_isAnalyzed true Sample.draft)) /\
    local_db w' !! JStr "m3" = Some (LearningMaterial_to_JSON Sample.portrait).
Proof.
  assert (NoDup (m_id <$> [ Sample.draft; Sample.portrait ])) as Hnd.
  { apply NoDup_cons. split; [| apply NoDup_singleton].
    by intros ?%list_elem_of_singleton. }
  split_and!; [done | exact Hnd | reflexivity |].
  destruct (topic_lesson_marks_the_text_materials Sample.no_handles Sample.kind
              [ Sample.draft; Sample.portrait ] Sample.library_world
              (fun _ => eq_refl) Hnd) as (w' & Hrun & Hai & Hm & Hdb & Hothers).
  exists w'. split_and!; [exact Hrun | exact Hai | exact Hm | |].
  - apply (Hdb Sample.draft); [apply elem_of_cons; by left | reflexivity].
  - rewrite Hothers; [by vm_compute |].
    intros m [-> | ->%list_elem_of_singleton]%elem_of_cons; done.
Defined.
